(** * dnsimple-go client core: a shallow embedding and its properties

  This development embeds the request/response core of the dnsimple-go
  client (package [dnsimple]: [Do], the rate-limit accessors,
  [CheckResponse], [isEmptyValue], [addURLQueryOptions], the three
  credential kinds) and
  the webhook event dispatcher (package [webhook]: [switchEvent] and the
  [parse] methods), together with the fragments of the Go standard
  library they call ([strconv], [time], [net/textproto], [net/url],
  [encoding/base64], [encoding/json], [reflect], [fmt]).

  Conventions.
  - Go strings and byte slices are [string]s (sequences of bytes).
  - Go's [int] is taken to be 64 bits wide ([strconv.IntSize = 64]).
  - Go maps are [gmap]s; [nil] pointers are [None].
  - A Go function that may panic returns in the [go] monad.
  - A Go [error] result is an [option error]; [None] is [nil]. *)

From Stdlib Require Import ZArith Ascii String Lia Bool.
From stdpp Require Import gmap strings list fin_maps sorting.

Local Open Scope string_scope.
Local Open Scope Z_scope.

(** ** Outcomes of Go calls: a value, or a run-time panic *)

Inductive go (A : Type) : Type :=
| Ret (a : A)
| Panic (msg : string).
Arguments Ret {A} a.
Arguments Panic {A} msg.

Definition go_bind {A B} (m : go A) (k : A -> go B) : go B :=
match m with
| Ret a => k a
| Panic msg => Panic msg
end.

Notation "x <-! m ;; k" := (go_bind m (fun x => k))
(at level 100, m at next level, right associativity).

(** ** Bytes *)

Module byte.

Definition val (c : ascii) : Z := Z.of_N (N_of_ascii c).
Definition of_Z (n : Z) : ascii := ascii_of_N (Z.to_N n).

(** [lo <= c && c <= hi] on bytes. *)
Definition between (lo hi c : ascii) : bool :=
  (val lo <=? val c) && (val c <=? val hi).

Definition is_digit (c : ascii) : bool := between "0" "9" c.
Definition is_lower (c : ascii) : bool := between "a" "z" c.
Definition is_upper (c : ascii) : bool := between "A" "Z" c.

Definition to_upper (c : ascii) : ascii :=
  if is_lower c then of_Z (val c - 32) else c.
Definition to_lower (c : ascii) : ascii :=
  if is_upper c then of_Z (val c + 32) else c.

End byte.

(** ** Package strconv *)

Module strconv.

Definition IntSize : Z := 64.

Inductive Err := ErrSyntax | ErrRange.

(** [*NumError]: the failing function, the input and the cause. *)
Record NumError := mkNumError { Func : string; Num : string; Cause : Err }.

Definition maxUint64 : Z := 2 ^ 64 - 1.
Definition wrap64 (n : Z) : Z := n mod 2 ^ 64.

(** The digit loop of [ParseUint(s, 10, bitSize)].  In base 10 a letter
    is a digit value of at least 10, hence a syntax error like any other
    byte that is not a decimal digit. *)
Fixpoint ParseUint_loop (bitSize : Z) (s : string) (n : Z) : Z * option Err :=
  match s with
  | "" => (n, None)
  | String d s' =>
      if byte.is_digit d then
        let v := byte.val d - byte.val "0" in
        let cutoff := maxUint64 / 10 + 1 in
        let maxVal := wrap64 (2 ^ bitSize) - 1 in
        let maxVal := wrap64 maxVal in
        if cutoff <=? n then (maxUint64, Some ErrRange)
        else
          let n := wrap64 (n * 10) in
          let n1 := wrap64 (n + v) in
          if (n1 <? n) || (maxVal <? n1) then (maxUint64, Some ErrRange)
          else ParseUint_loop bitSize s' n1
      else (0, Some ErrSyntax)
  end.

Definition ParseUint (s : string) (bitSize : Z) : Z * option NumError :=
  let bitSize := if bitSize =? 0 then IntSize else bitSize in
  match s with
  | "" => (0, Some (mkNumError "ParseUint" s ErrSyntax))
  | _ =>
      match ParseUint_loop bitSize s 0 with
      | (n, None) => (n, None)
      | (n, Some e) => (n, Some (mkNumError "ParseUint" s e))
      end
  end.

(** [ParseInt(s, 10, bitSize)]. *)
Definition ParseInt (s0 : string) (bitSize : Z) : Z * option NumError :=
  let bitSize := if bitSize =? 0 then IntSize else bitSize in
  match s0 with
  | "" => (0, Some (mkNumError "ParseInt" s0 ErrSyntax))
  | String c rest =>
      let '(neg, s) :=
        if Ascii.eqb c "+" then (false, rest)
        else if Ascii.eqb c "-" then (true, rest)
        else (false, s0) in
      let '(un, err) := ParseUint s bitSize in
      match err with
      | Some {| Cause := ErrSyntax |} =>
          (0, Some (mkNumError "ParseInt" s0 ErrSyntax))
      | _ =>
          let cutoff := 2 ^ (bitSize - 1) in
          if negb neg && (cutoff <=? un) then
            (cutoff - 1, Some (mkNumError "ParseInt" s0 ErrRange))
          else if neg && (cutoff <? un) then
            (- cutoff, Some (mkNumError "ParseInt" s0 ErrRange))
          else (if neg then - un else un, None)
      end
  end.

(** [Atoi(s)] is [ParseInt(s, 10, 0)] converted to [int]. *)
Definition Atoi (s : string) : Z * option NumError := ParseInt s 0.

(** Decimal digits of a non-negative number, most significant first. *)
Fixpoint digits (fuel : nat) (n : Z) (acc : string) : string :=
  match fuel with
  | O => acc
  | S fuel' =>
      let acc' := String (byte.of_Z (byte.val "0" + n mod 10)) acc in
      if n <? 10 then acc' else digits fuel' (n / 10) acc'
  end.

(** [FormatInt(n, 10)]; also what [fmt] prints for an integer under [%v]. *)
Definition FormatInt (n : Z) : string :=
  if n <? 0 then String "-" (digits (Z.to_nat (Z.log2 (- n)) + 1) (- n) "")
  else digits (Z.to_nat (Z.log2 n) + 1) n "".

End strconv.

(** ** Package time *)

Module time.

(** A [Time]: seconds since year 1 and nanoseconds, as Go stores them
    (the location, always [Local] here, is left out). *)
Record Time := mkTime { sec : Z; nsec : Z }.

Definition unixToInternal : Z := (1969 * 365 + 1969 / 4 - 1969 / 100 + 1969 / 400) * 86400.

Definition wrap_int64 (n : Z) : Z := (n + 2 ^ 63) mod 2 ^ 64 - 2 ^ 63.
Definition wrap_int32 (n : Z) : Z := (n + 2 ^ 31) mod 2 ^ 32 - 2 ^ 31.

(** [time.Unix(sec, nsec)]. *)
Definition Unix (sec nsec : Z) : Time :=
  let '(sec, nsec) :=
    if (nsec <? 0) || (1000000000 <=? nsec) then
      let n := Z.quot nsec 1000000000 in
      let sec := wrap_int64 (sec + n) in
      let nsec := nsec - n * 1000000000 in
      if nsec <? 0 then (wrap_int64 (sec - 1), nsec + 1000000000) else (sec, nsec)
    else (sec, nsec) in
  mkTime (wrap_int64 (sec + unixToInternal)) (wrap_int32 nsec).

(** [t.Unix()]: the instant as seconds since the Unix epoch. *)
Definition Time_Unix (t : Time) : Z := wrap_int64 (sec t - unixToInternal).

End time.

(** ** Package strings: the few helpers the code below needs *)

Module strings.

(** Split [s] at the first occurrence of the byte [c]. *)
Fixpoint cut (c : ascii) (s : string) : option (string * string) :=
  match s with
  | "" => None
  | String a s' =>
      if Ascii.eqb a c then Some ("", s')
      else match cut c s' with
           | Some (l, r) => Some (String a l, r)
           | None => None
           end
  end.

(** Split [s] at the last occurrence of the byte [c]. *)
Fixpoint cut_last (c : ascii) (s : string) : option (string * string) :=
  match s with
  | "" => None
  | String a s' =>
      match cut_last c s' with
      | Some (l, r) => Some (String a l, r)
      | None => if Ascii.eqb a c then Some ("", s') else None
      end
  end.

(** [strings.HasPrefix(s, prefix)]. *)
Fixpoint HasPrefix (s prefix : string) {struct prefix} : bool :=
match prefix, s with
| "", _ => true
| String p prefix', String a s' => Ascii.eqb a p && HasPrefix s' prefix'
| String _ _, "" => false
end.

(** Split [s] at the first occurrence of the non-empty string [sep];
    the second component starts at [sep]. *)
Fixpoint cut_at (sep s : string) : option (string * string) :=
  if HasPrefix s sep then Some ("", s)
  else match s with
       | "" => None
       | String a s' =>
           match cut_at sep s' with
           | Some (l, r) => Some (String a l, r)
           | None => None
           end
       end.


Fixpoint Count (s : string) (c : ascii) : nat :=
  match s with
  | "" => O
  | String a s' => (if Ascii.eqb a c then 1 else 0) + Count s' c
  end.

(** [s] without its last byte, when that byte is [c]. *)
Fixpoint strip_last (c : ascii) (s : string) : option string :=
  match s with
  | "" => None
  | String a "" => if Ascii.eqb a c then Some "" else None
  | String a s' => option_map (String a) (strip_last c s')
  end.

(** [strings.Split(s, sep)] for a one-byte separator: always at least
    one piece. *)
Fixpoint Split (s : string) (sep : ascii) : list string :=
  match s with
  | "" => [""]
  | String a s' =>
      if Ascii.eqb a sep then "" :: Split s' sep
      else match Split s' sep with
           | p :: ps => String a p :: ps
           | [] => [String a ""]
           end
  end.

(** [strings.ToLower] on ASCII text. *)
Fixpoint ToLower (s : string) : string :=
  match s with
  | "" => ""
  | String a s' => String (byte.to_lower a) (ToLower s')
  end.

(** The decimal digits [s] starts with, and what follows them. *)
Fixpoint span_digits (s : string) : string * string :=
match s with
| String c s' =>
    if byte.is_digit c then let '(d, r) := span_digits s' in (String c d, r)
    else ("", s)
| "" => ("", "")
end.

(** Byte-wise lexicographic order, the order of Go's [<] on strings. *)
Definition le (s t : string) : Prop := String.leb s t = true.

(** [s] without the bytes [c] it starts with. *)
Fixpoint trim_left (c : ascii) (s : string) : string :=
match s with
| String a s' => if Ascii.eqb a c then trim_left c s' else s
| "" => ""
end.

(** [s] without the bytes [c] it ends with. *)
Fixpoint trim_right (c : ascii) (s : string) : string :=
match s with
| "" => ""
| String a s' =>
    match trim_right c s' with
    | "" => if Ascii.eqb a c then "" else String a ""
    | t => String a t
    end
end.

(** [strings.Trim(s, cutset)] for a cutset of one ASCII byte, which is
    [TrimRightFunc(TrimLeftFunc(s, f), f)].  Go trims code points; a byte
    below 128 is a code point of its own wherever it stands in a string,
    so trimming it byte by byte gives the same string. *)
Definition Trim (s : string) (cutset : ascii) : string :=
trim_right cutset (trim_left cutset s).

End strings.

(** ** Package net/url (as of Go 1.7) *)

Module url.

Inductive encoding :=
| encodePath | encodeHost | encodeZone
| encodeUserPassword | encodeQueryComponent | encodeFragment.

Definition ishex (c : ascii) : bool :=
  byte.is_digit c || byte.between "a" "f" c || byte.between "A" "F" c.

Definition unhex (c : ascii) : Z :=
  if byte.is_digit c then byte.val c - byte.val "0"
  else if byte.between "a" "f" c then byte.val c - byte.val "a" + 10
  else if byte.between "A" "F" c then byte.val c - byte.val "A" + 10
  else 0.

Definition is_host_mode (mode : encoding) : bool :=
  match mode with encodeHost | encodeZone => true | _ => false end.

(** [shouldEscape(c, mode)]. *)
Definition shouldEscape (c : ascii) (mode : encoding) : bool :=
  if byte.is_upper c || byte.is_lower c || byte.is_digit c then false
  else if is_host_mode mode &&
          match c with
          | "!" | "$" | "&" | "'" | "(" | ")" | "*" | "+" | "," | ";"
          | "=" | ":" | "[" | "]" | "<" | ">" | "034" => true
          | _ => false
          end%char
  then false
  else
    match c with
    | "-" | "_" | "." | "~" => false
    | "$" | "&" | "+" | "," | "/" | ":" | ";" | "=" | "?" | "@" =>
        match mode with
        | encodePath => Ascii.eqb c "?"
        | encodeUserPassword =>
            Ascii.eqb c "@" || Ascii.eqb c "/" || Ascii.eqb c "?" || Ascii.eqb c ":"
        | encodeQueryComponent => true
        | encodeFragment => false
        | encodeHost | encodeZone => true
        end
    | _ => true
    end%char.

(** Errors of the package: the causes, and [*url.Error] wrapping one. *)
Inductive cause :=
| EscapeError (s : string)
| InvalidHostError (s : string)
| invalidPort (colonPort : string)
| errorString (msg : string).

Record Error := mkError { Op : string; URL_ : string; Err : cause }.

Definition hexdigit (n : Z) : ascii :=
  if n <? 10 then byte.of_Z (byte.val "0" + n) else byte.of_Z (byte.val "A" + n - 10).

(** [unescape(s, mode)]: Go validates in a first pass and rewrites in a
    second; one pass that stops at the first offending byte returns the
    same error or the same string. *)
Fixpoint unescape (s : string) (mode : encoding) : string + cause :=
  match s with
  | "" => inl ""
  | String "%" rest =>
      match rest with
      | String h1 (String h2 s') =>
          if ishex h1 && ishex h2 then
            let three := String "%" (String h1 (String h2 "")) in
            let v := unhex h1 * 16 + unhex h2 in
            if match mode with encodeHost => true | _ => false end
               && (unhex h1 <? 8) && negb (String.eqb three "%25")
            then inr (EscapeError three)
            else if match mode with encodeZone => true | _ => false end
                    && negb (String.eqb three "%25") && negb (v =? 32)
                    && shouldEscape (byte.of_Z v) encodeHost
            then inr (EscapeError three)
            else match unescape s' mode with
                 | inl t => inl (String (byte.of_Z v) t)
                 | inr e => inr e
                 end
          else inr (EscapeError (String "%" (String h1 (String h2 ""))))
      | _ => inr (EscapeError s)
      end
  | String c s' =>
      if is_host_mode mode && (byte.val c <? 128) && negb (Ascii.eqb c "+")
         && shouldEscape c encodeHost
      then inr (InvalidHostError (String c ""))
      else
        let c' := if Ascii.eqb c "+" &&
                     match mode with encodeQueryComponent => true | _ => false end
                  then " "%char else c in
        match unescape s' mode with
        | inl t => inl (String c' t)
        | inr e => inr e
        end
  end.

(** [escape(s, mode)]. *)
Fixpoint escape (s : string) (mode : encoding) : string :=
  match s with
  | "" => ""
  | String c s' =>
      if Ascii.eqb c " " && match mode with encodeQueryComponent => true | _ => false end
      then String "+" (escape s' mode)
      else if shouldEscape c mode
      then String "%" (String (hexdigit (byte.val c / 16))
                         (String (hexdigit (byte.val c mod 16)) (escape s' mode)))
      else String c (escape s' mode)
  end.

Definition QueryUnescape (s : string) : string + cause := unescape s encodeQueryComponent.
Definition QueryEscape (s : string) : string := escape s encodeQueryComponent.

Record Userinfo := mkUserinfo { username : string; password : string; passwordSet : bool }.

Definition Userinfo_String (u : Userinfo) : string :=
  let s := escape (username u) encodeUserPassword in
  if passwordSet u then s ++ ":" ++ escape (password u) encodeUserPassword else s.

Record URL := mkURL {
  Scheme : string;
  Opaque : string;
  User : option Userinfo;
  Host : string;
  Path : string;
  RawPath : string;
  ForceQuery : bool;
  RawQuery : string;
  Fragment : string
}.

Definition empty : URL := mkURL "" "" None "" "" "" false "" "".

(** [getscheme(rawurl)]: the scheme and what follows it. *)
Fixpoint getscheme_from (i : nat) (seen rest rawurl : string) : (string * string) + cause :=
  match rest with
  | "" => inl ("", rawurl)
  | String c rest' =>
      if byte.is_lower c || byte.is_upper c then
        getscheme_from (S i) (seen ++ String c "") rest' rawurl
      else if byte.is_digit c || Ascii.eqb c "+" || Ascii.eqb c "-" || Ascii.eqb c "." then
        match i with
        | O => inl ("", rawurl)
        | _ => getscheme_from (S i) (seen ++ String c "") rest' rawurl
        end
      else if Ascii.eqb c ":" then
        match i with
        | O => inr (errorString "missing protocol scheme")
        | _ => inl (seen, rest')
        end
      else inl ("", rawurl)
  end.

Definition getscheme (rawurl : string) : (string * string) + cause :=
  getscheme_from O "" rawurl rawurl.

(** [split(s, c, cutc)]. *)
Definition split (s : string) (c : ascii) (cutc : bool) : string * string :=
  match strings.cut c s with
  | None => (s, "")
  | Some (l, r) => if cutc then (l, r) else (l, String c r)
  end.

Fixpoint all_digits (s : string) : bool :=
  match s with
  | "" => true
  | String c s' => byte.is_digit c && all_digits s'
  end.

Definition validOptionalPort (port : string) : bool :=
  match port with
  | "" => true
  | String c rest => Ascii.eqb c ":" && all_digits rest
  end.

(** [parseHost(host)]. *)
Definition parseHost (host : string) : string + cause :=
  let plain := unescape host encodeHost in
  if strings.HasPrefix host "[" then
    match strings.cut_last "]" host with
    | None => inr (errorString "missing ']' in host")
    | Some (before, colonPort) =>
        if negb (validOptionalPort colonPort) then
          inr (invalidPort colonPort)
        else
          match strings.cut_at "%25" before with
          | Some (h1, zone) =>
              match unescape h1 encodeHost with
              | inr e => inr e
              | inl host1 =>
                  match unescape zone encodeZone with
                  | inr e => inr e
                  | inl host2 =>
                      match unescape (String "]" colonPort) encodeHost with
                      | inr e => inr e
                      | inl host3 => inl (host1 ++ host2 ++ host3)
                      end
                  end
              end
          | None => plain
          end
    end
  else plain.

(** [parseAuthority(authority)]. *)
Definition parseAuthority (authority : string) : (option Userinfo * string) + cause :=
  match strings.cut_last "@" authority with
  | None =>
      match parseHost authority with
      | inr e => inr e
      | inl host => inl (None, host)
      end
  | Some (userinfo, hostpart) =>
      match parseHost hostpart with
      | inr e => inr e
      | inl host =>
          match strings.cut ":" userinfo with
          | None =>
              match unescape userinfo encodeUserPassword with
              | inr e => inr e
              | inl u => inl (Some (mkUserinfo u "" false), host)
              end
          | Some (uname, pwd) =>
              match unescape uname encodeUserPassword with
              | inr e => inr e
              | inl u =>
                  match unescape pwd encodeUserPassword with
                  | inr e => inr e
                  | inl p => inl (Some (mkUserinfo u p true), host)
                  end
              end
          end
      end
  end.

(** [validEncodedPath(s)]. *)
Fixpoint validEncodedPath (s : string) : bool :=
  match s with
  | "" => true
  | String c s' =>
      match c with
      | "!" | "$" | "&" | "'" | "(" | ")" | "*" | "+" | "," | ";" | "=" | ":" | "@"
      | "[" | "]" | "%" => true
      | _ => negb (shouldEscape c encodePath)
      end%char && validEncodedPath s'
  end.

(** [u.EscapedPath()]. *)
Definition EscapedPath (u : URL) : string :=
  let fallback :=
    if String.eqb (Path u) "*" then "*" else escape (Path u) encodePath in
  if negb (String.eqb (RawPath u) "") && validEncodedPath (RawPath u) then
    match unescape (RawPath u) encodePath with
    | inl p => if String.eqb p (Path u) then RawPath u else fallback
    | inr _ => fallback
    end
  else fallback.

(** [parse(rawurl, viaRequest = false)]. *)
Definition parse (rawurl : string) : URL + cause :=
  if String.eqb rawurl "*" then
    inl (mkURL "" "" None "" "*" "" false "" "")
  else
    match getscheme rawurl with
    | inr e => inr e
    | inl (scheme, rest) =>
        let scheme := strings.ToLower scheme in
        let '(rest, force, rawquery) :=
          match strings.strip_last "?" rest with
          | Some rest' =>
              if Nat.eqb (strings.Count rest "?") 1 then (rest', true, "")
              else let '(r, q) := split rest "?" true in (r, false, q)
          | None => let '(r, q) := split rest "?" true in (r, false, q)
          end in
        if negb (strings.HasPrefix rest "/") && negb (String.eqb scheme "") then
          inl (mkURL scheme rest None "" "" "" force rawquery "")
        else
          let authority_result :=
            if negb (strings.HasPrefix rest "///") && strings.HasPrefix rest "//"
               || negb (String.eqb scheme "") && strings.HasPrefix rest "//"
            then
              let '(authority, rest') := split (String.substring 2 (String.length rest - 2) rest) "/" false in
              match parseAuthority authority with
              | inr e => inr e
              | inl (user, host) => inl (user, host, rest')
              end
            else inl (None, "", rest) in
          match authority_result with
          | inr e => inr e
          | inl (user, host, rest) =>
              match unescape rest encodePath with
              | inr e => inr e
              | inl path =>
                  let u := mkURL scheme "" user host path "" force rawquery "" in
                  if negb (String.eqb (EscapedPath u) rest) && validEncodedPath rest
                  then inl (mkURL scheme "" user host path rest force rawquery "")
                  else inl u
              end
          end
    end.

(** [url.Parse(rawurl)]. *)
Definition Parse (rawurl : string) : URL + Error :=
  let '(u, frag) := split rawurl "#" true in
  match parse u with
  | inr e => inr (mkError "parse" u e)
  | inl url =>
      if String.eqb frag "" then inl url
      else match unescape frag encodeFragment with
           | inr e => inr (mkError "parse" rawurl e)
           | inl f =>
               inl (mkURL (Scheme url) (Opaque url) (User url) (Host url) (Path url)
                      (RawPath url) (ForceQuery url) (RawQuery url) f)
           end
  end.

(** [u.String()]. *)
Definition String_ (u : URL) : string :=
  (if String.eqb (Scheme u) "" then "" else Scheme u ++ ":")
  ++ (if negb (String.eqb (Opaque u) "") then Opaque u
      else
        (if negb (String.eqb (Scheme u) "") || negb (String.eqb (Host u) "")
            || match User u with Some _ => true | None => false end
         then "//"
              ++ match User u with
                 | Some ui => Userinfo_String ui ++ "@"
                 | None => ""
                 end
              ++ (if String.eqb (Host u) "" then "" else escape (Host u) encodeHost)
         else "")
        ++ (let path := EscapedPath u in
            (match path with
             | String c _ =>
                 if negb (Ascii.eqb c "/") && negb (String.eqb (Host u) "") then "/" else ""
             | "" => ""
             end) ++ path))
  ++ (if ForceQuery u || negb (String.eqb (RawQuery u) "") then "?" ++ RawQuery u else "")
  ++ (if String.eqb (Fragment u) "" then ""
      else "#" ++ escape (Fragment u) encodeFragment).

(** [url.Values]: a [map[string][]string]. *)
Abbreviation Values := (gmap string (list string)).

(** [v.Add(key, value)]: append to the values of [key]. *)
Definition Add (v : Values) (key value : string) : Values :=
<[key := (default [] (v !! key) ++ [value])%list]> v.

(** The pieces of a query string between the separators [&] and [;]. *)
Fixpoint pieces (query : string) : list string :=
match query with
| "" => [""]
| String c query' =>
    if Ascii.eqb c "&" || Ascii.eqb c ";" then "" :: pieces query'
    else match pieces query' with
         | p :: ps => String c p :: ps
         | [] => [String c ""]
         end
end.

(** One round of the loop of [parseQuery]: the pair [key=value] of one
    piece is unescaped and added; a piece that does not unescape is
    skipped and the first such error is kept. *)
Definition parsePair (acc : Values * option cause) (piece : string) : Values * option cause :=
let '(m, err) := acc in
if String.eqb piece "" then (m, err)
else
  let '(key, value) :=
    match strings.cut "=" piece with
    | Some (k, v) => (k, v)
    | None => (piece, "")
    end in
  let keep e := match err with Some _ => err | None => Some e end in
  match QueryUnescape key with
  | inr e => (m, keep e)
  | inl key =>
      match QueryUnescape value with
      | inr e => (m, keep e)
      | inl value => (Add m key value, err)
      end
  end.

(** [url.ParseQuery(query)]. *)
Definition ParseQuery (query : string) : Values * option cause :=
match query with
| "" => (∅, None)
| _ => fold_left parsePair (pieces query) (∅, None)
end.

(** [u.Query()]: the error of [ParseQuery] is dropped. *)
Definition Query (u : URL) : Values := fst (ParseQuery (RawQuery u)).

Global Instance strings_le_dec (s t : string) : Decision (strings.le s t).
Proof. unfold strings.le. apply _. Defined.

(** The keys of [v] in increasing order ([sort.Strings]). *)
Definition sorted_keys (v : Values) : list string :=
merge_sort strings.le (fst <$> map_to_list v).

(** [v.Encode()]: [key=value] pairs, keys sorted, joined by [&]. *)
Definition Encode (v : Values) : string :=
String.concat "&"
  (k ← sorted_keys v;
   (fun x => QueryEscape k ++ "=" ++ QueryEscape x) <$> default [] (v !! k)).

Definition with_RawQuery (u : URL) (q : string) : URL :=
mkURL (Scheme u) (Opaque u) (User u) (Host u) (Path u) (RawPath u) (ForceQuery u) q (Fragment u).

End url.

(** ** Packages net/textproto and net/http: headers and responses *)

Module http.

(** The bytes allowed in a header field name (RFC 7230 tokens). *)
Definition validHeaderFieldByte (c : ascii) : bool :=
byte.is_digit c || byte.is_lower c || byte.is_upper c ||
match c with
| "!" | "#" | "$" | "%" | "&" | "'" | "*" | "+" | "-" | "." | "^" | "_" | "`" | "|" | "~" => true
| _ => false
end%char.

Fixpoint all_valid (s : string) : bool :=
match s with
| "" => true
| String c s' => validHeaderFieldByte c && all_valid s'
end.

(** Upper case for the first letter and after each dash, lower case
    elsewhere. *)
Fixpoint canonical_case (upper : bool) (s : string) : string :=
match s with
| "" => ""
| String c s' =>
    let c' := if upper then byte.to_upper c else byte.to_lower c in
    String c' (canonical_case (Ascii.eqb c' "-") s')
end.

(** [textproto.CanonicalMIMEHeaderKey(s)]: a key with a byte that no
    field name may hold is returned unchanged. *)
Definition CanonicalMIMEHeaderKey (s : string) : string :=
if all_valid s then canonical_case true s else s.

(** [http.Header]: a [map[string][]string] under canonical keys. *)
Abbreviation Header := (gmap string (list string)).

(** [h.Get(key)]: the first value under the canonical key, or the empty
    string. *)
Definition Get (h : Header) (key : string) : string :=
match h !! CanonicalMIMEHeaderKey key with
| Some (v :: _) => v
| _ => ""
end.

Definition Set_ (h : Header) (key value : string) : Header :=
<[CanonicalMIMEHeaderKey key := [value]]> h.

Definition Add (h : Header) (key value : string) : Header :=
<[CanonicalMIMEHeaderKey key := (default [] (h !! CanonicalMIMEHeaderKey key) ++ [value])%list]> h.

Definition Del (h : Header) (key : string) : Header :=
delete (CanonicalMIMEHeaderKey key) h.

(** The request a response answers: what [ErrorResponse.Error] prints. *)
Record Request := mkRequest { Method : string; URL : url.URL }.

(** [http.Response], with the fields the client reads.  [Body] holds the
    bytes the body stream delivers before its end. *)
Record Response := mkResponse {
  StatusCode : Z;
  Header_ : Header;
  Body : string;
  Request_ : option Request
}.

(** [validMethod(method)]: a token of RFC 7230, not empty. *)
Definition validMethod (method : string) : bool :=
negb (String.eqb method "") && all_valid method.

(** A [*http.Request] on its way out, as [http.NewRequest] builds it and
    its caller completes it: method and URL, the header, and the bytes
    the body delivers. *)
Record Outgoing := mkOutgoing {
  Line : Request;
  Out_Header : Header;
  Out_Body : string
}.

(** The two errors of [http.NewRequest]. *)
Inductive NewRequest_error :=
| invalid_method (method : string)
| invalid_URL (e : url.Error).

(** [http.NewRequest(method, urlStr, body)] for a body that is a
    [*bytes.Buffer] holding [body]. *)
Definition NewRequest (method urlStr body : string) : Outgoing + NewRequest_error :=
let method := if String.eqb method "" then "GET" else method in
if negb (validMethod method) then inr (invalid_method method)
else
  match url.Parse urlStr with
  | inr e => inr (invalid_URL e)
  | inl u => inl (mkOutgoing (mkRequest method u) ∅ body)
  end.

End http.

(** ** Package encoding/base64: the standard encoding, with padding *)

Module base64.

Definition encodeStd : string :=
"ABCDEFGHIJKLMNOPQRSTUVWXYZabcdefghijklmnopqrstuvwxyz0123456789+/".

Definition padChar : ascii := "=".

(** [enc.encode[n]] *)
Definition encode (n : Z) : ascii :=
match String.get (Z.to_nat n) encodeStd with
| Some c => c
| None => "000"
end.

Fixpoint index_of (c : ascii) (s : string) (i : Z) : option Z :=
match s with
| "" => None
| String a s' => if Ascii.eqb a c then Some i else index_of c s' (i + 1)
end.

(** [enc.decodeMap[c]], with [None] for the marker 0xFF of a byte outside
    the alphabet. *)
Definition decodeMap (c : ascii) : option Z := index_of c encodeStd 0.

(** [StdEncoding.EncodeToString(src)]: three bytes give four symbols; a
    last block of one or two bytes is padded. *)
Fixpoint EncodeToString (src : string) : string :=
match src with
| "" => ""
| String a (String b (String c rest)) =>
    let val := Z.lor (Z.lor (Z.shiftl (byte.val a) 16) (Z.shiftl (byte.val b) 8)) (byte.val c) in
    String (encode (Z.land (Z.shiftr val 18) 63))
      (String (encode (Z.land (Z.shiftr val 12) 63))
         (String (encode (Z.land (Z.shiftr val 6) 63))
            (String (encode (Z.land val 63)) (EncodeToString rest))))
| String a (String b "") =>
    let val := Z.lor (Z.shiftl (byte.val a) 16) (Z.shiftl (byte.val b) 8) in
    String (encode (Z.land (Z.shiftr val 18) 63))
      (String (encode (Z.land (Z.shiftr val 12) 63))
         (String (encode (Z.land (Z.shiftr val 6) 63))
            (String padChar "")))
| String a "" =>
    let val := Z.shiftl (byte.val a) 16 in
    String (encode (Z.land (Z.shiftr val 18) 63))
      (String (encode (Z.land (Z.shiftr val 12) 63))
         (String padChar (String padChar "")))
end.

Inductive CorruptInputError := mkCorruptInputError.

(** The decoder skips carriage returns and line feeds wherever they
    stand. *)
Fixpoint strip_newlines (s : string) : string :=
match s with
| "" => ""
| String c s' =>
    if Ascii.eqb c "010" || Ascii.eqb c "013" then strip_newlines s'
    else String c (strip_newlines s')
end.

(** [byte(val >> k)] *)
Definition byte_at (val k : Z) : ascii := byte.of_Z (Z.shiftr val k mod 256).

Definition quantum (d0 d1 d2 d3 : Z) : Z :=
Z.lor (Z.lor (Z.lor (Z.shiftl d0 18) (Z.shiftl d1 12)) (Z.shiftl d2 6)) d3.

(** The quanta of four symbols, newlines removed: the bytes decoded so
    far and, when the input is corrupt, the error. *)
Fixpoint decode (s : string) : string * option CorruptInputError :=
match s with
| "" => ("", None)
| String a (String b (String c (String d rest))) =>
    match decodeMap a, decodeMap b with
    | Some d0, Some d1 =>
        if Ascii.eqb c padChar then
          if Ascii.eqb d padChar then
            (String (byte_at (quantum d0 d1 0 0) 16) "",
             if String.eqb rest "" then None else Some mkCorruptInputError)
          else ("", Some mkCorruptInputError)
        else
          match decodeMap c with
          | None => ("", Some mkCorruptInputError)
          | Some d2 =>
              if Ascii.eqb d padChar then
                let val := quantum d0 d1 d2 0 in
                (String (byte_at val 16) (String (byte_at val 8) ""),
                 if String.eqb rest "" then None else Some mkCorruptInputError)
              else
                match decodeMap d with
                | None => ("", Some mkCorruptInputError)
                | Some d3 =>
                    let val := quantum d0 d1 d2 d3 in
                    let '(out, err) := decode rest in
                    (String (byte_at val 16) (String (byte_at val 8) (String (byte_at val 0) out)),
                     err)
                end
          end
    | _, _ => ("", Some mkCorruptInputError)
    end
| _ => ("", Some mkCorruptInputError)
end.

(** [StdEncoding.DecodeString(s)]. *)
Definition DecodeString (s : string) : string * option CorruptInputError :=
decode (strip_newlines s).

End base64.
(** ** Package reflect: kinds, values and struct fields *)

Module reflect.

Inductive Kind :=
| Invalid | Bool | Int | Int8 | Int16 | Int32 | Int64
| Uint | Uint8 | Uint16 | Uint32 | Uint64 | Uintptr
| Float32 | Float64 | Complex64 | Complex128
| Array | Chan | Func | Interface | Map | Ptr | Slice | String_ | Struct
| UnsafePointer.

Inductive int_kind := I | I8 | I16 | I32 | I64.
Inductive uint_kind := U | U8 | U16 | U32 | U64 | Uptr.
Inductive float_kind := F32 | F64.
Inductive complex_kind := C64 | C128.

(** A struct tag in the conventional format, as its [key:"value"] pairs
    in order. *)
Definition StructTag := list (string * string).

(** [tag.Get(key)]: the value of the first pair under [key], or the empty
    string. *)
Fixpoint Tag_Get (tag : StructTag) (key : string) : string :=
match tag with
| [] => ""
| (k, v) :: tag' => if String.eqb k key then v else Tag_Get tag' key
end.

(** [reflect.StructField]: [PkgPath] is empty for an exported field. *)
Record StructField := mkStructField {
  Name : string;
  PkgPath : string;
  Tag : StructTag
}.

(** Go values as reflection sees them.  A float is its IEEE 754 bit
    pattern; a nil slice, map, channel, function, pointer or interface is
    [None]. *)
#[warnings="-register-all"]
Inductive Value :=
| VBool (b : bool)
| VInt (k : int_kind) (n : Z)
| VUint (k : uint_kind) (n : Z)
| VFloat (k : float_kind) (bits : Z)
| VComplex (k : complex_kind) (re_bits im_bits : Z)
| VString (s : string)
| VArray (elems : list Value)
| VSlice (elems : option (list Value))
| VMap (entries : option (list (Value * Value)))
| VChan (buffered : option (list Value))
| VFunc (code : option Z)
| VUnsafePointer (addr : Z)
| VInterface (dynamic : option Value)
| VPtr (target : option Value)
| VStruct (fields : list (StructField * Value)).

Definition Kind_of (v : Value) : Kind :=
match v with
| VBool _ => Bool
| VInt I _ => Int | VInt I8 _ => Int8 | VInt I16 _ => Int16
| VInt I32 _ => Int32 | VInt I64 _ => Int64
| VUint U _ => Uint | VUint U8 _ => Uint8 | VUint U16 _ => Uint16
| VUint U32 _ => Uint32 | VUint U64 _ => Uint64 | VUint Uptr _ => Uintptr
| VFloat F32 _ => Float32 | VFloat F64 _ => Float64
| VComplex C64 _ _ => Complex64 | VComplex C128 _ _ => Complex128
| VString _ => String_
| VArray _ => Array
| VSlice _ => Slice
| VMap _ => Map
| VChan _ => Chan
| VFunc _ => Func
| VUnsafePointer _ => UnsafePointer
| VInterface _ => Interface
| VPtr _ => Ptr
| VStruct _ => Struct
end.

(** [v.Len()], for the kinds that have a length. *)
Definition Len (v : Value) : Z :=
match v with
| VString s => Z.of_nat (String.length s)
| VArray l => Z.of_nat (length l)
| VSlice (Some l) => Z.of_nat (length l)
| VMap (Some l) => Z.of_nat (length l)
| VChan (Some l) => Z.of_nat (length l)
| _ => 0
end.

Definition Bool_of (v : Value) : bool :=
match v with VBool b => b | _ => false end.

Definition Int_of (v : Value) : Z :=
match v with VInt _ n => n | _ => 0 end.

Definition Uint_of (v : Value) : Z :=
match v with VUint _ n => n | _ => 0 end.

(** [v.Float() == 0]: every bit but the sign is zero. *)
Definition Float_is_zero (v : Value) : bool :=
match v with
| VFloat F32 bits => bits mod 2 ^ 31 =? 0
| VFloat F64 bits => bits mod 2 ^ 63 =? 0
| _ => false
end.

Definition IsNil (v : Value) : bool :=
match v with
| VSlice None | VMap None | VChan None | VFunc None
| VInterface None | VPtr None => true
| _ => false
end.

End reflect.

(** ** Package fmt: [Sprint] of one operand *)

Module fmt.

Section Sprint.

(** What [%v] prints for floats, complex numbers, composite values and
    non-nil pointers, channels and functions: the digits of a float and
    the address of a pointer are outside this model. *)
Variable Sprint_other : reflect.Value -> string.

(** [fmt.Sprint(v)] for a value whose type has no [String], [Error] or
    [Format] method. *)
Fixpoint Sprint (v : reflect.Value) : string :=
match v with
| reflect.VBool b => if b then "true" else "false"
| reflect.VInt _ n => strconv.FormatInt n
| reflect.VUint _ n => strconv.FormatInt n
| reflect.VString s => s
| reflect.VInterface (Some d) => Sprint d
| reflect.VInterface None => "<nil>"
| reflect.VPtr None => "<nil>"
| reflect.VSlice None => "[]"
| reflect.VMap None => "map[]"
| reflect.VChan None => "<nil>"
| reflect.VFunc None => "<nil>"
| _ => Sprint_other v
end.

End Sprint.

End fmt.
(** ** Package unicode/utf8 and utf16: what the JSON decoder needs *)

Module utf8.

Definition RuneError : Z := 65533.

(** [utf8.EncodeRune]: the bytes of a code point; a surrogate half or a
    value out of range is written as U+FFFD. *)
Definition EncodeRune (r : Z) : string :=
let b (n : Z) := byte.of_Z n in
let r := if (r <? 0) || (1114111 <? r) || ((55296 <=? r) && (r <=? 57343)) then RuneError else r in
if r <? 128 then String (b r) ""
else if r <? 2048 then
  String (b (192 + r / 64)) (String (b (128 + r mod 64)) "")
else if r <? 65536 then
  String (b (224 + r / 4096))
    (String (b (128 + (r / 64) mod 64)) (String (b (128 + r mod 64)) ""))
else
  String (b (240 + r / 262144))
    (String (b (128 + (r / 4096) mod 64))
       (String (b (128 + (r / 64) mod 64)) (String (b (128 + r mod 64)) ""))).

Definition cont (c : ascii) : bool := byte.between "128" "191" c.

(** The length of the well-formed encoding [s] starts with, or [None]
    when its first bytes are no encoding of a code point
    ([utf8.DecodeRune] then returns U+FFFD and width 1). *)
Definition valid_prefix (s : string) : option nat :=
match s with
| "" => None
| String c0 s1 =>
    let x := byte.val c0 in
    if x <? 128 then Some 1%nat
    else
      match s1 with
      | "" => None
      | String c1 s2 =>
          if (194 <=? x) && (x <=? 223) then
            if cont c1 then Some 2%nat else None
          else
            let lo := if x =? 224 then 160 else if x =? 240 then 144 else 128 in
            let hi := if x =? 237 then 159 else if x =? 244 then 143 else 191 in
            if negb ((lo <=? byte.val c1) && (byte.val c1 <=? hi)) then None
            else
              match s2 with
              | "" => None
              | String c2 s3 =>
                  if (224 <=? x) && (x <=? 239) then
                    if cont c2 then Some 3%nat else None
                  else if (240 <=? x) && (x <=? 244) then
                    match s3 with
                    | String c3 _ => if cont c2 && cont c3 then Some 4%nat else None
                    | "" => None
                    end
                  else None
              end
      end
end.

End utf8.

(** ** Package encoding/json: scanning a value and decoding it *)

Module json.

(** A JSON value as the scanner delimits it.  A number keeps its literal;
    a string is held unquoted. *)
#[warnings="-register-all"]
Inductive value :=
| Null
| Bool (b : bool)
| Number (lit : string)
| String_ (s : string)
| Array (elems : list value)
| Object (members : list (string * value)).

Inductive error :=
| SyntaxError
| ErrUnexpectedEOF
| EOF
| UnmarshalTypeError (Type_ : string).

(** Outcome of scanning: a result and the unread input, an offending
    byte, or the end of the input inside a value. *)
Inductive scan (A : Type) :=
| Scanned (a : A) (rest : string)
| Bad
| Incomplete.
Arguments Scanned {A} a rest.
Arguments Bad {A}.
Arguments Incomplete {A}.

Definition isSpace (c : ascii) : bool :=
Ascii.eqb c " " || Ascii.eqb c "009" || Ascii.eqb c "013" || Ascii.eqb c "010".

Fixpoint skip_space (s : string) : string :=
match s with
| String c s' => if isSpace c then skip_space s' else s
| "" => ""
end.

Fixpoint drop (n : nat) (s : string) : string :=
match n, s with
| S n', String _ s' => drop n' s'
| _, _ => s
end.

Fixpoint take (n : nat) (s : string) : string :=
match n, s with
| S n', String c s' => String c (take n' s')
| _, _ => ""
end.

(** Four hexadecimal digits after [\u], as a number ([getu4]). *)
Definition hex4 (s : string) : option Z :=
match s with
| String a (String b (String c (String d _))) =>
    if url.ishex a && url.ishex b && url.ishex c && url.ishex d
    then Some (((url.unhex a * 16 + url.unhex b) * 16 + url.unhex c) * 16 + url.unhex d)
    else None
| _ => None
end.

(** [getu4] on input that starts at a backslash. *)
Definition getu4 (s : string) : option Z :=
match s with
| String "\" (String "u" s') => hex4 s'
| _ => None
end.

Definition IsSurrogate (r : Z) : bool := (55296 <=? r) && (r <? 57344).

(** [utf16.DecodeRune(r1, r2)]. *)
Definition utf16_DecodeRune (r1 r2 : Z) : Z :=
if (55296 <=? r1) && (r1 <? 56320) && (56320 <=? r2) && (r2 <? 57344)
then (r1 - 55296) * 1024 + (r2 - 56320) + 65536
else utf8.RuneError.

(** A string literal after its opening quote: the scanner's checks and
    [unquote] in one pass.  [fuel] bounds the bytes read. *)
Fixpoint scan_string (fuel : nat) (s : string) : scan string :=
match fuel with
| O => Incomplete
| S fuel =>
    match s with
    | "" => Incomplete
    | String c s' =>
        if Ascii.eqb c "034" then Scanned "" s'
        else if Ascii.eqb c "\" then
          match s' with
          | "" => Incomplete
          | String e s'' =>
              let simple (b : ascii) :=
                match scan_string fuel s'' with
                | Scanned t rest => Scanned (String b t) rest
                | Bad => Bad
                | Incomplete => Incomplete
                end in
              if Ascii.eqb e "034" || Ascii.eqb e "\" || Ascii.eqb e "/" then simple e
              else if Ascii.eqb e "b" then simple "008"%char
              else if Ascii.eqb e "f" then simple "012"%char
              else if Ascii.eqb e "n" then simple "010"%char
              else if Ascii.eqb e "r" then simple "013"%char
              else if Ascii.eqb e "t" then simple "009"%char
              else if Ascii.eqb e "u" then
                match hex4 s'' with
                | None =>
                    if (String.length s'' <? 4)%nat &&
                       forallb url.ishex (list_ascii_of_string s'')
                    then Incomplete else Bad
                | Some rr =>
                    let after := drop 4 s'' in
                    let '(r, after) :=
                      if IsSurrogate rr then
                        match getu4 after with
                        | Some rr1 =>
                            let dec := utf16_DecodeRune rr rr1 in
                            if dec =? utf8.RuneError then (utf8.RuneError, after)
                            else (dec, drop 6 after)
                        | None => (utf8.RuneError, after)
                        end
                      else (rr, after) in
                    match scan_string fuel after with
                    | Scanned t rest => Scanned (utf8.EncodeRune r ++ t) rest
                    | Bad => Bad
                    | Incomplete => Incomplete
                    end
                end
              else Bad
          end
        else if byte.val c <? 32 then Bad
        else
          let '(bytes, after) :=
            match utf8.valid_prefix s with
            | Some n => (take n s, drop n s)
            | None => (utf8.EncodeRune utf8.RuneError, s')
            end in
          match scan_string fuel after with
          | Scanned t rest => Scanned (bytes ++ t) rest
          | Bad => Bad
          | Incomplete => Incomplete
          end
    end
end.

(** At least one digit: the digits and the rest, [Incomplete] at the end
    of the input and [Bad] at another byte. *)
Definition digits1 (s : string) : scan string :=
match strings.span_digits s with
| ("", "") => Incomplete
| ("", _) => Bad
| (d, r) => Scanned d r
end.

(** A number literal: an optional minus sign; a zero, or digits that do
    not start with a zero; optionally a point and digits; optionally an
    exponent mark, a sign and digits. *)
Definition scan_number (s : string) : scan string :=
let '(sign, s) :=
  match s with
  | String "-" s' => ("-", s')
  | _ => ("", s)
  end in
let int_part :=
  match s with
  | String "0" s' => Scanned "0" s'
  | _ => digits1 s
  end in
match int_part with
| Bad => Bad
| Incomplete => Incomplete
| Scanned i s =>
    let frac_part :=
      match s with
      | String "." s' =>
          match digits1 s' with
          | Scanned f r => Scanned ("." ++ f) r
          | Bad => Bad
          | Incomplete => Incomplete
          end
      | _ => Scanned "" s
      end in
    match frac_part with
    | Bad => Bad
    | Incomplete => Incomplete
    | Scanned f s =>
        let with_exp (e : ascii) (s' : string) :=
          let '(esign, s'') :=
            match s' with
            | String "+" t => ("+", t)
            | String "-" t => ("-", t)
            | _ => ("", s')
            end in
          match digits1 s'' with
          | Scanned d r => Scanned (sign ++ i ++ f ++ String e esign ++ d) r
          | Bad => Bad
          | Incomplete => Incomplete
          end in
        match s with
        | String "e" s' => with_exp "e"%char s'
        | String "E" s' => with_exp "E"%char s'
        | _ => Scanned (sign ++ i ++ f) s
        end
    end
end.

(** The literal [lit], whose first byte has been seen. *)
Fixpoint scan_literal (lit s : string) : scan unit :=
match lit, s with
| "", _ => Scanned tt s
| String _ _, "" => Incomplete
| String a lit', String c s' => if Ascii.eqb a c then scan_literal lit' s' else Bad
end.

(** One JSON value at the head of [s], after optional space.  [fuel]
    bounds the nesting and the bytes read. *)
Fixpoint scan_value (fuel : nat) (s : string) : scan value :=
match fuel with
| O => Incomplete
| S fuel =>
    match skip_space s with
    | "" => Incomplete
    | String c s' =>
        if Ascii.eqb c "{" then
          match skip_space s' with
          | "" => Incomplete
          | String c' s'' =>
              if Ascii.eqb c' "}" then Scanned (Object []) s''
              else
                match scan_members fuel (String c' s'') with
                | Scanned ms rest => Scanned (Object ms) rest
                | Bad => Bad
                | Incomplete => Incomplete
                end
          end
        else if Ascii.eqb c "[" then
          match skip_space s' with
          | "" => Incomplete
          | String c' s'' =>
              if Ascii.eqb c' "]" then Scanned (Array []) s''
              else
                match scan_elements fuel (String c' s'') with
                | Scanned es rest => Scanned (Array es) rest
                | Bad => Bad
                | Incomplete => Incomplete
                end
          end
        else if Ascii.eqb c "034" then
          match scan_string (String.length s') s' with
          | Scanned t rest => Scanned (String_ t) rest
          | Bad => Bad
          | Incomplete => Incomplete
          end
        else if Ascii.eqb c "-" || byte.is_digit c then
          match scan_number (String c s') with
          | Scanned lit rest => Scanned (Number lit) rest
          | Bad => Bad
          | Incomplete => Incomplete
          end
        else if Ascii.eqb c "t" then
          match scan_literal "rue" s' with
          | Scanned _ rest => Scanned (Bool true) rest
          | Bad => Bad
          | Incomplete => Incomplete
          end
        else if Ascii.eqb c "f" then
          match scan_literal "alse" s' with
          | Scanned _ rest => Scanned (Bool false) rest
          | Bad => Bad
          | Incomplete => Incomplete
          end
        else if Ascii.eqb c "n" then
          match scan_literal "ull" s' with
          | Scanned _ rest => Scanned Null rest
          | Bad => Bad
          | Incomplete => Incomplete
          end
        else Bad
    end
end

with scan_members (fuel : nat) (s : string) : scan (list (string * value)) :=
match fuel with
| O => Incomplete
| S fuel =>
    match skip_space s with
    | "" => Incomplete
    | String c s' =>
        if negb (Ascii.eqb c "034") then Bad
        else
          match scan_string (String.length s') s' with
          | Bad => Bad
          | Incomplete => Incomplete
          | Scanned key rest =>
              match skip_space rest with
              | "" => Incomplete
              | String colon rest' =>
                  if negb (Ascii.eqb colon ":") then Bad
                  else
                    match scan_value fuel rest' with
                    | Bad => Bad
                    | Incomplete => Incomplete
                    | Scanned v rest'' =>
                        match skip_space rest'' with
                        | "" => Incomplete
                        | String sep rest3 =>
                            if Ascii.eqb sep "}" then Scanned [(key, v)] rest3
                            else if Ascii.eqb sep "," then
                              match scan_members fuel rest3 with
                              | Scanned ms r => Scanned ((key, v) :: ms) r
                              | Bad => Bad
                              | Incomplete => Incomplete
                              end
                            else Bad
                        end
                    end
              end
          end
    end
end

with scan_elements (fuel : nat) (s : string) : scan (list value) :=
match fuel with
| O => Incomplete
| S fuel =>
    match scan_value fuel s with
    | Bad => Bad
    | Incomplete => Incomplete
    | Scanned v rest =>
        match skip_space rest with
        | "" => Incomplete
        | String sep rest' =>
            if Ascii.eqb sep "]" then Scanned [v] rest'
            else if Ascii.eqb sep "," then
              match scan_elements fuel rest' with
              | Scanned es r => Scanned (v :: es) r
              | Bad => Bad
              | Incomplete => Incomplete
              end
            else Bad
        end
    end
end.

(** The first value of the input.  Every call of the scanner reads at
    least one byte, so the length of the input is fuel enough. *)
Definition first_value (data : string) : scan value :=
scan_value (S (String.length data)) data.

(** What [Decoder.Decode] reads from a stream holding [data] and then
    ending: the next value, whatever follows it. *)
Definition Decoder_next (data : string) : value + error :=
match first_value data with
| Scanned v _ => inl v
| Bad => inr SyntaxError
| Incomplete =>
    match skip_space data with
    | "" => inr EOF
    | _ => inr ErrUnexpectedEOF
    end
end.

(** What [Unmarshal] accepts: one value and nothing but space after it
    ([checkValid]). *)
Definition valid_document (data : string) : value + error :=
match first_value data with
| Scanned v rest =>
    match skip_space rest with
    | "" => inl v
    | _ => inr SyntaxError
    end
| _ => inr SyntaxError
end.

(** *** Decoding a value into a Go variable *)

(** How decoding into one variable ends: without an error, with an error
    saved while decoding goes on ([d.saveError]), or with an error that
    stops the decoder at once ([d.error]). *)
Inductive status :=
| Fine
| Saved (e : error)
| Aborted (e : error).

(** Decoding into a variable of type [T]: the variable afterwards, and
    how decoding ended. *)
Definition decoder (T : Type) := value -> T -> T * status.

(** The status after one more variable was decoded: the first saved
    error is kept, an abort overrides it. *)
Definition after (before now : status) : status :=
match before, now with
| Aborted e, _ => Aborted e
| _, Aborted e => Aborted e
| Saved e, _ => Saved e
| Fine, s => s
end.

(** The error [Unmarshal] and [Decode] return. *)
Definition reported (s : status) : option error :=
match s with
| Fine => None
| Saved e => Some e
| Aborted e => Some e
end.

(** The status of a value of the wrong JSON type for a variable of Go
    type [type_name]: a number stops the decoder, anything else is saved. *)
Definition mismatch (v : value) (type_name : string) : status :=
match v with
| Number _ => Aborted (UnmarshalTypeError type_name)
| _ => Saved (UnmarshalTypeError type_name)
end.

(** Into a [string]. *)
Definition into_string : decoder string :=
fun v old =>
  match v with
  | String_ s => (s, Fine)
  | Null => (old, Fine)
  | _ => (old, mismatch v "string")
  end.

(** Into a 64-bit [int]: the literal must be a decimal integer in range. *)
Definition into_int : decoder Z :=
fun v old =>
  match v with
  | Number lit =>
      match strconv.ParseInt lit 64 with
      | (n, None) => (n, Fine)
      | (_, Some _) => (old, Saved (UnmarshalTypeError "int"))
      end
  | Null => (old, Fine)
  | _ => (old, Saved (UnmarshalTypeError "int"))
  end.

(** Into a [bool]. *)
Definition into_bool : decoder bool :=
fun v old =>
  match v with
  | Bool b => (b, Fine)
  | Null => (old, Fine)
  | _ => (old, mismatch v "bool")
  end.

(** Into a pointer: [null] sets it to nil; another value is decoded into
    what it points to, a fresh zero value when it is nil. *)
Definition into_ptr {T} (zero : T) (d : decoder T) : decoder (option T) :=
fun v old =>
  match v with
  | Null => (None, Fine)
  | _ =>
      let '(t, st) := d v (default zero old) in
      (Some t, st)
  end.

Definition caseMask : Z := 223.

(** [asciiEqualFold] and [simpleLetterEqualFold]: equal up to the case of
    ASCII letters. *)
Fixpoint asciiEqualFold (s t : string) : bool :=
match s, t with
| "", "" => true
| String sb s', String tb t' =>
    (Ascii.eqb sb tb ||
     (byte.is_upper (byte.of_Z (Z.land (byte.val sb) caseMask))
      && (Z.land (byte.val sb) caseMask =? Z.land (byte.val tb) caseMask)))
    && asciiEqualFold s' t'
| _, _ => false
end.

(** [equalFoldRight]: as above, and in [t] the Kelvin sign stands for k
    and the long s for s. *)
Fixpoint equalFoldRight (s t : string) : bool :=
match s with
| "" => match t with "" => true | _ => false end
| String sb s' =>
    match t with
    | "" => false
    | String tb t' =>
        if byte.val tb <? 128 then
          (Ascii.eqb sb tb ||
           (byte.is_upper (byte.of_Z (Z.land (byte.val sb) caseMask))
            && (Z.land (byte.val sb) caseMask =? Z.land (byte.val tb) caseMask)))
          && equalFoldRight s' t'
        else if Ascii.eqb (byte.to_lower sb) "s" then
          match t with
          | String "197" (String "191" t'') => equalFoldRight s' t''
          | _ => false
          end
        else if Ascii.eqb (byte.to_lower sb) "k" then
          match t with
          | String "226" (String "132" (String "170" t'')) => equalFoldRight s' t''
          | _ => false
          end
        else false
    end
end.

(** [foldFunc(name)(name, key)] for a field name of ASCII bytes. *)
Definition equalFold (name key : string) : bool :=
let bytes := list_ascii_of_string name in
if existsb (fun c => Ascii.eqb (byte.to_lower c) "k" || Ascii.eqb (byte.to_lower c) "s") bytes
then equalFoldRight name key
else asciiEqualFold name key.

Fixpoint find_exact {T} (fields : list (string * T)) (key : string) : option T :=
match fields with
| [] => None
| (name, f) :: fields' => if String.eqb name key then Some f else find_exact fields' key
end.

Fixpoint find_fold {T} (fields : list (string * T)) (key : string) : option T :=
match fields with
| [] => None
| (name, f) :: fields' => if equalFold name key then Some f else find_fold fields' key
end.

(** The field an object key selects: the one of that exact name, else the
    first whose name matches up to case. *)
Definition find_field {T} (fields : list (string * T)) (key : string) : option T :=
match find_exact fields key with
| Some f => Some f
| None => find_fold fields key
end.

(** One member of an object, decoded into the field it selects.  A key
    that selects no field is skipped, and so is every member once the
    decoder has stopped. *)
Definition into_member {T} (fields : list (string * decoder T))
  (acc : T * status) (member : string * value) : T * status :=
let '(t, st) := acc in
let '(key, v) := member in
match st with
| Aborted _ => (t, st)
| _ =>
    match find_field fields key with
    | None => (t, st)
    | Some d => let '(t', st') := d v t in (t', after st st')
    end
end.

(** Into a struct with the given fields: [null] changes nothing, an object
    is decoded member by member, anything else is a type error. *)
Definition into_struct {T} (type_name : string) (fields : list (string * decoder T)) : decoder T :=
fun v t =>
  match v with
  | Null => (t, Fine)
  | Object members => fold_left (into_member fields) members (t, Fine)
  | _ => (t, mismatch v type_name)
  end.

(** A field of a struct as a decoder of the struct, from the field's
    getter, its setter and the decoder of its type. *)
Definition field {T F} (get : T -> F) (set : F -> T -> T) (d : decoder F) : decoder T :=
fun v t => let '(f, st) := d v (get t) in (set f t, st).

(** The elements of an array decoded into the elements of a slice, the
    first into the first.  An element the slice does not hold yet starts
    from the zero value; when the decoder stops inside an element, the
    elements after it stay as they were. *)
Fixpoint into_elems {T} (zero : T) (d : decoder T) (elems : list value) (olds : list T)
  : list T * status :=
match elems with
| [] => ([], Fine)
| elem :: elems' =>
    let '(t, st) := d elem (hd zero olds) in
    match st with
    | Aborted _ => (t :: tl olds, st)
    | _ => let '(ts, st') := into_elems zero d elems' (tl olds) in (t :: ts, after st st')
    end
end.

(** Into a slice of Go type [type_name]: [null] gives the nil slice, an
    array a slice of as many elements, anything else is a type error. *)
Definition into_slice {T} (type_name : string) (zero : T) (d : decoder T)
  : decoder (option (list T)) :=
fun v old =>
  match v with
  | Null => (None, Fine)
  | Array elems =>
      let '(ts, st) := into_elems zero d elems (default [] old) in
      (Some ts, st)
  | _ => (old, mismatch v type_name)
  end.

(** [dec.Decode(v)] for a decoder that has read nothing yet: the next
    value of the input is decoded into the variable [v] points at. *)
Definition Decode {T} (d : decoder T) (data : string) (t : T) : T * option error :=
match Decoder_next data with
| inr err => (t, Some err)
| inl v => let '(t', st) := d v t in (t', reported st)
end.

(** What [json.NewEncoder(w).Encode(v)] writes for a value of type [P],
    or the text of the error it returns. *)
Class Marshaler (P : Type) := Encode : P -> string + string.

End json.
(** ** Package dnsimple *)

Module dnsimple.

(** *** Responses *)

(** [Pagination]. *)
Record Pagination := mkPagination {
  CurrentPage : Z;
  PerPage : Z;
  TotalPages : Z;
  TotalEntries : Z
}.

(** [Response]: both fields are pointers. *)
Record Response := mkResponse {
  HttpResponse : option http.Response;
  Pagination_ : option Pagination
}.

(** [ErrorResponse] embeds [Response]. *)
Record ErrorResponse := mkErrorResponse {
  Response_ : Response;
  Message : string
}.

(** The values an [error] holds here: an error of the transport, of
    [net/url] or of [encoding/json], or a [*ErrorResponse]. *)
Inductive error :=
| transport_error (msg : string)
| url_error (e : url.Error)
| json_error (e : json.error)
| api_error (e : ErrorResponse).

Definition nil_dereference {A} : go A :=
Panic "invalid memory address or nil pointer dereference".

(** [r.HttpResponse.Header], which panics when [r.HttpResponse] is nil. *)
Definition header_of (r : Response) : go http.Header :=
match HttpResponse r with
| Some resp => Ret (http.Header_ resp)
| None => nil_dereference
end.

(** [(r *Response) RateLimit()]. *)
Definition RateLimit (r : Response) : go Z :=
h <-! header_of r ;;
let '(value, _) := strconv.Atoi (http.Get h "X-RateLimit-Limit") in
Ret value.

(** [(r *Response) RateLimitRemaining()]. *)
Definition RateLimitRemaining (r : Response) : go Z :=
h <-! header_of r ;;
let '(value, _) := strconv.Atoi (http.Get h "X-RateLimit-Remaining") in
Ret value.

(** [(r *Response) RateLimitReset()]. *)
Definition RateLimitReset (r : Response) : go time.Time :=
h <-! header_of r ;;
let '(value, _) := strconv.ParseInt (http.Get h "X-RateLimit-Reset") 64 in
Ret (time.Unix value 0).

(** *** Checking a response *)

Section CheckResponse.

(** How [encoding/json] decodes a JSON value other than [null] into an
    [http.Response], a struct of the standard library with many more
    fields than the model holds. *)
Variable unmarshal_http_Response : json.decoder http.Response.

Definition zero_http_Response : http.Response := http.mkResponse 0 ∅ "" None.

(** The JSON fields of [Pagination], by their tags. *)
Definition Pagination_fields : list (string * json.decoder Pagination) :=
[ ("current_page",
   json.field CurrentPage
     (fun n p => mkPagination n (PerPage p) (TotalPages p) (TotalEntries p)) json.into_int);
  ("per_page",
   json.field PerPage
     (fun n p => mkPagination (CurrentPage p) n (TotalPages p) (TotalEntries p)) json.into_int);
  ("total_pages",
   json.field TotalPages
     (fun n p => mkPagination (CurrentPage p) (PerPage p) n (TotalEntries p)) json.into_int);
  ("total_entries",
   json.field TotalEntries
     (fun n p => mkPagination (CurrentPage p) (PerPage p) (TotalPages p) n) json.into_int) ].

Definition unmarshal_Pagination : json.decoder Pagination :=
json.into_struct "dnsimple.Pagination" Pagination_fields.

(** The JSON fields of [ErrorResponse]: the two promoted from the
    embedded [Response], the first of them untagged, then [message]. *)
Definition ErrorResponse_fields : list (string * json.decoder ErrorResponse) :=
[ ("HttpResponse",
   json.field (fun e => HttpResponse (Response_ e))
     (fun h e => mkErrorResponse (mkResponse h (Pagination_ (Response_ e))) (Message e))
     (json.into_ptr zero_http_Response unmarshal_http_Response));
  ("pagination",
   json.field (fun e => Pagination_ (Response_ e))
     (fun p e => mkErrorResponse (mkResponse (HttpResponse (Response_ e)) p) (Message e))
     (json.into_ptr (mkPagination 0 0 0 0) unmarshal_Pagination));
  ("message",
   json.field Message (fun m e => mkErrorResponse (Response_ e) m) json.into_string) ].

Definition unmarshal_ErrorResponse : json.decoder ErrorResponse :=
json.into_struct "dnsimple.ErrorResponse" ErrorResponse_fields.

(** [json.NewDecoder(body).Decode(errorResponse)]: the struct afterwards
    and the error returned. *)
Definition Decode_ErrorResponse (body : string) (e : ErrorResponse)
  : ErrorResponse * option json.error :=
match json.Decoder_next body with
| inr err => (e, Some err)
| inl v => let '(e', st) := unmarshal_ErrorResponse v e in (e', json.reported st)
end.

(** [CheckResponse(resp)]. *)
Definition CheckResponse (resp : http.Response) : option error :=
let code := http.StatusCode resp in
if (200 <=? code) && (code <=? 299) then None
else
  let errorResponse := mkErrorResponse (mkResponse None None) "" in
  let errorResponse :=
    mkErrorResponse (mkResponse (Some resp) (Pagination_ (Response_ errorResponse)))
      (Message errorResponse) in
  let '(errorResponse, err) := Decode_ErrorResponse (http.Body resp) errorResponse in
  match err with
  | Some err => Some (json_error err)
  | None => Some (api_error errorResponse)
  end.

(** What a caller passes as [obj]: nothing, an [io.Writer] with what was
    written to it so far, or a variable with the way [encoding/json]
    decodes a body into it. *)
Inductive destination (T : Type) :=
| no_obj
| Writer (written : string)
| variable (decode : string -> T -> T * option json.error) (t : T).
Arguments no_obj {T}.
Arguments Writer {T} written.
Arguments variable {T} decode t.

(** [c.Do(req, payload, obj)] from the answer [sent] of
    [c.HttpClient.Do(req)] on: the response and the error returned, and
    [obj] afterwards.  The debugging logs change none of them. *)
Definition Do {T} (sent : http.Response + string) (obj : destination T)
  : option http.Response * option error * destination T :=
match sent with
| inr msg => (None, Some (transport_error msg), obj)
| inl resp =>
    match CheckResponse resp with
    | Some err => (Some resp, Some err, obj)
    | None =>
        match obj with
        | no_obj => (Some resp, None, obj)
        | Writer written => (Some resp, None, Writer (written ++ http.Body resp))
        | variable decode t =>
            let '(t', err) := decode (http.Body resp) t in
            (Some resp, option_map json_error err, variable decode t')
        end
    end
end.

End CheckResponse.

Arguments no_obj {T}.
Arguments Writer {T} written.
Arguments variable {T} decode t.

(** *** Query options *)

(** [isEmptyValue(v)]. *)
Definition isEmptyValue (v : reflect.Value) : bool :=
match reflect.Kind_of v with
| reflect.Array | reflect.Map | reflect.Slice | reflect.String_ =>
    reflect.Len v =? 0
| reflect.Bool =>
    negb (reflect.Bool_of v)
| reflect.Int | reflect.Int8 | reflect.Int16 | reflect.Int32 | reflect.Int64 =>
    reflect.Int_of v =? 0
| reflect.Uint | reflect.Uint8 | reflect.Uint16 | reflect.Uint32 | reflect.Uint64
| reflect.Uintptr =>
    reflect.Uint_of v =? 0
| reflect.Float32 | reflect.Float64 =>
    reflect.Float_is_zero v
| reflect.Interface | reflect.Ptr =>
    reflect.IsNil v
| _ => false
end.

(** [optionsContains(options, option)]. *)
Fixpoint optionsContains (options : list string) (option : string) : bool :=
match options with
| [] => false
| s :: options' => if String.eqb s option then true else optionsContains options' option
end.

Section addURLQueryOptions.

Variable Sprint_other : reflect.Value -> string.

(** One round of the loop over the fields of the options struct: the
    map [qso] afterwards.  [sv.Interface()] panics on a field that is not
    exported. *)
Definition add_field (qso : gmap string string) (f : reflect.StructField * reflect.Value)
  : go (gmap string string) :=
let '(sf, sv) := f in
let tag := reflect.Tag_Get (reflect.Tag sf) "url" in
if String.eqb tag "" then Ret qso
else if String.eqb tag "-" then Ret qso
else
  match strings.Split tag "," with
  | [] => Panic "index out of range"
  | name :: opts =>
      if optionsContains opts "omitempty" && isEmptyValue sv then Ret qso
      else if negb (String.eqb (reflect.PkgPath sf) "") then
        Panic "reflect.Value.Interface: cannot return value obtained from unexported field or method"
      else Ret (<[name := fmt.Sprint Sprint_other sv]> qso)
  end.

(** The loop over the fields, first to last. *)
Fixpoint add_fields (qso : gmap string string)
  (fields : list (reflect.StructField * reflect.Value)) : go (gmap string string) :=
match fields with
| [] => Ret qso
| f :: fields' => qso' <-! add_field qso f ;; add_fields qso' fields'
end.

(** [for k, v := range qso { qs.Add(k, v) }]: the keys of [qso] are
    distinct, so the order of the rounds does not show in the result. *)
Definition add_all (qs : url.Values) (qso : gmap string string) : url.Values :=
map_fold (fun k v qs => url.Add qs k v) qs qso.

(** [addURLQueryOptions(path, options)].  [options] is an [interface{}]:
    [None] is the nil interface. *)
Definition addURLQueryOptions (path : string) (options : option reflect.Value)
  : go (string * option error) :=
match options with
| Some (reflect.VPtr None) => Ret (path, None)
| _ =>
    let val :=
      match options with
      | Some (reflect.VPtr (Some v)) => Some v
      | _ => options
      end in
    match val with
    | None => Panic "reflect: call of reflect.Value.Type on zero Value"
    | Some (reflect.VStruct fields) =>
        qso <-! add_fields ∅ fields ;;
        match url.Parse path with
        | inr err => Ret (path, Some (url_error err))
        | inl u =>
            let qs := url.Query u in
            let qs := add_all qs qso in
            let u := url.with_RawQuery u (url.Encode qs) in
            Ret (url.String_ u, None)
        end
    | Some _ => Panic "reflect: call of reflect.Value.NumField on non-struct Value"
    end
end.

End addURLQueryOptions.

(** [ListOptions], and the value reflection sees for a pointer to one. *)
Record ListOptions := mkListOptions { Page : Z; PerPage_ : Z }.

Definition ListOptions_Value (o : ListOptions) : reflect.Value :=
reflect.VStruct
  [ (reflect.mkStructField "Page" "" [("url", "page,omitempty")],
     reflect.VInt reflect.I (Page o));
    (reflect.mkStructField "PerPage" "" [("url", "per_page,omitempty")],
     reflect.VInt reflect.I (PerPage_ o)) ].

Definition ListOptions_ptr (o : option ListOptions) : option reflect.Value :=
Some (reflect.VPtr (option_map ListOptions_Value o)).

(** *** Credentials *)

Definition httpHeaderDomainToken : string := "X-DNSimple-Domain-Token".
Definition httpHeaderApiToken : string := "X-DNSimple-Token".
Definition httpHeaderAuthorization : string := "Authorization".

(** The three implementations of the interface [Credentials]. *)
Inductive Credentials :=
| domainTokenCredentials (domainToken : string)
| httpBasicCredentials (email password : string)
| oauthTokenCredentials (oauthToken : string).

Definition NewDomainTokenCredentials (domainToken : string) : Credentials :=
domainTokenCredentials domainToken.

Definition NewHttpBasicCredentials (email password : string) : Credentials :=
httpBasicCredentials email password.

Definition NewOauthTokenCredentials (oauthToken : string) : Credentials :=
oauthTokenCredentials oauthToken.

(** [basicAuth(username, password)]. *)
Definition basicAuth (username password : string) : string :=
let auth := username ++ ":" ++ password in
base64.EncodeToString auth.

(** [c.HttpHeader()], one case per implementation. *)
Definition HttpHeader (c : Credentials) : string * string :=
match c with
| domainTokenCredentials domainToken => (httpHeaderDomainToken, domainToken)
| httpBasicCredentials email password =>
    (httpHeaderAuthorization, "Basic " ++ basicAuth email password)
| oauthTokenCredentials oauthToken =>
    (httpHeaderAuthorization, "Bearer " ++ oauthToken)
end.

(** *** Paths *)

Definition libraryVersion : string := "0.10.0-beta".
Definition defaultBaseURL : string := "https://api.dnsimple.com".
Definition defaultUserAgent : string := "dnsimple-go/" ++ libraryVersion.
Definition apiVersion : string := "v2".

(** [versioned(path)]: [fmt.Sprintf] with the verb [%s] writes the two
    strings as they are. *)
Definition versioned (path : string) : string :=
"/" ++ apiVersion ++ "/" ++ strings.Trim path "/".

Section Paths.

Variable Sprint_other : reflect.Value -> string.

(** [contactPath(accountID, contact)]: [contact] is an [interface{}],
    [None] the nil interface; the verb [%v] writes a string as it is and
    an interface value as [fmt.Sprint] does. *)
Definition contactPath (accountID : string) (contact : option reflect.Value) : string :=
match contact with
| Some v => "/" ++ accountID ++ "/contacts/" ++ fmt.Sprint Sprint_other v
| None => "/" ++ accountID ++ "/contacts"
end.

End Paths.

(** [zoneRecordPath(accountID, zoneID, recordID)]. *)
Definition zoneRecordPath (accountID zoneID : string) (recordID : Z) : string :=
let path := "/" ++ accountID ++ "/zones/" ++ zoneID ++ "/records" in
if negb (recordID =? 0) then path ++ "/" ++ strconv.FormatInt recordID else path.

(** *** The text of an error response *)

(** [(r *ErrorResponse) Error()]: the operands are read from left to
    right, the first of them through [r.HttpResponse] and its [Request],
    either of which may be nil.  A [*url.URL] is printed by its method
    [String], the status code in decimal. *)
Definition ErrorResponse_Error (r : ErrorResponse) : go string :=
match HttpResponse (Response_ r) with
| None => nil_dereference
| Some resp =>
    match http.Request_ resp with
    | None => nil_dereference
    | Some req =>
        Ret (http.Method req ++ " " ++ url.String_ (http.URL req) ++ ": "
             ++ strconv.FormatInt (http.StatusCode resp) ++ " " ++ Message r)
    end
end.

(** *** The client *)

(** [Client], with the fields its methods read.  [HttpClient] stands for
    [c.HttpClient.Do]: the response to a request, or the text of the error
    of the transport.  The eight service fields hold nothing but the
    address of the client and are left out: a method of a service takes
    the client itself. *)
Record Client := mkClient {
  HttpClient : http.Outgoing -> http.Response + string;
  Credentials_ : Credentials;
  BaseURL : string;
  UserAgent : string;
  Debug : bool
}.

(** [NewClient(credentials)], where [transport] is what [&http.Client{}]
    does with a request. *)
Definition NewClient (transport : http.Outgoing -> http.Response + string)
  (credentials : Credentials) : Client :=
mkClient transport credentials defaultBaseURL defaultUserAgent false.

(** What a call of the client fails with: the error of the JSON encoder
    or of [http.NewRequest] on the method, or one of the errors above. *)
Inductive failure :=
| encode_failure (msg : string)
| method_failure (method : string)
| an_error (e : error).

(** The payload of a request without one. *)
#[global] Instance Marshaler_nothing : json.Marshaler Empty_set :=
fun p => match p with end.

Section Client.

(** How [encoding/json] decodes into an [http.Response], as above. *)
Variable unmarshal_http_Response : json.decoder http.Response.

(** [c.Credentials.Headers()], which [NewRequest] calls and the source
    files do not define: the entries of the map it returns, in the order
    the loop of [NewRequest] visits them. *)
Variable Headers : Credentials -> list (string * string).

(** [(c *Client) NewRequest(method, path, payload)]; [payload] is an
    [interface{}], [None] the nil interface. *)
Definition NewRequest {P} `{!json.Marshaler P} (c : Client) (method path : string)
  (payload : option P) : http.Outgoing + failure :=
let url := BaseURL c ++ path in
let body :=
  match payload with
  | Some p => json.Encode p
  | None => inl ""
  end in
match body with
| inr msg => inr (encode_failure msg)
| inl body =>
    match http.NewRequest method url body with
    | inr (http.invalid_method m) => inr (method_failure m)
    | inr (http.invalid_URL e) => inr (an_error (url_error e))
    | inl req =>
        let h := http.Set_ (http.Out_Header req) "Content-Type" "application/json" in
        let h := http.Add h "Accept" "application/json" in
        let h := http.Add h "User-Agent" (UserAgent c) in
        let h :=
          fold_left (fun h entry => http.Add h (fst entry) (snd entry))
            (Headers (Credentials_ c)) h in
        inl (http.mkOutgoing (http.Line req) h (http.Out_Body req))
    end
end.

(** [(c *Client) Do(req, payload, obj)]. *)
Definition Client_Do {T} (c : Client) (req : http.Outgoing) (obj : destination T)
  : option http.Response * option failure * destination T :=
let '(resp, err, obj) := Do unmarshal_http_Response (HttpClient c req) obj in
(resp, option_map an_error err, obj).

(** The body the five methods below share: the request is built, and
    sent when it could be built. *)
Definition call {P T} `{!json.Marshaler P} (c : Client) (method path : string)
  (payload : option P) (obj : destination T)
  : option http.Response * option failure * destination T :=
match NewRequest c method path payload with
| inr err => (None, Some err, obj)
| inl req => Client_Do c req obj
end.

(** [(c *Client) get(path, obj)]. *)
Definition get {T} (c : Client) (path : string) (obj : destination T) :=
call c "GET" path (@None Empty_set) obj.

(** [(c *Client) post(path, payload, obj)]. *)
Definition post {P T} `{!json.Marshaler P} (c : Client) (path : string)
  (payload : option P) (obj : destination T) :=
call c "POST" path payload obj.

(** [(c *Client) put(path, payload, obj)]. *)
Definition put {P T} `{!json.Marshaler P} (c : Client) (path : string)
  (payload : option P) (obj : destination T) :=
call c "PUT" path payload obj.

(** [(c *Client) patch(path, payload, obj)]. *)
Definition patch {P T} `{!json.Marshaler P} (c : Client) (path : string)
  (payload : option P) (obj : destination T) :=
call c "PATCH" path payload obj.

(** [(c *Client) delete(path, payload, obj)]. *)
Definition delete {P T} `{!json.Marshaler P} (c : Client) (path : string)
  (payload : option P) (obj : destination T) :=
call c "DELETE" path payload obj.

(** *** The services *)

(** The response structs of the services: each embeds [Response] and
    adds one field [Data], of the type [D]. *)
Record DataResponse (D : Type) := mkDataResponse {
  Embedded : Response;
  Data : D
}.
Arguments mkDataResponse {D} Embedded Data.
Arguments Embedded {D} d.
Arguments Data {D} d.

(** The JSON fields of such a struct: the two promoted from [Response],
    then [data]. *)
Definition DataResponse_fields {D} (d : json.decoder D)
  : list (string * json.decoder (DataResponse D)) :=
[ ("HttpResponse",
   json.field (fun r => HttpResponse (Embedded r))
     (fun h r => mkDataResponse (mkResponse h (Pagination_ (Embedded r))) (Data r))
     (json.into_ptr zero_http_Response unmarshal_http_Response));
  ("pagination",
   json.field (fun r => Pagination_ (Embedded r))
     (fun p r => mkDataResponse (mkResponse (HttpResponse (Embedded r)) p) (Data r))
     (json.into_ptr (mkPagination 0 0 0 0) unmarshal_Pagination));
  ("data", json.field Data (fun x r => mkDataResponse (Embedded r) x) d) ].

Definition unmarshal_DataResponse {D} (type_name : string) (d : json.decoder D)
  : json.decoder (DataResponse D) :=
json.into_struct type_name (DataResponse_fields d).

(** [obj] as a pointer to a fresh struct, to pass to the client. *)
Definition pointer_to {D} (type_name : string) (d : json.decoder D) (r : DataResponse D)
  : destination (DataResponse D) :=
variable (json.Decode (unmarshal_DataResponse type_name d)) r.

(** The struct [obj] points at after the call; [r] when [obj] is not a
    pointer to one. *)
Definition pointee {T} (obj : destination T) (r : T) : T :=
match obj with
| variable _ r' => r'
| _ => r
end.

(** [r.HttpResponse = resp]. *)
Definition with_HttpResponse {D} (r : DataResponse D) (resp : option http.Response)
  : DataResponse D :=
mkDataResponse (mkResponse resp (Pagination_ (Embedded r))) (Data r).

(** [&T{}]: the zero value of a response struct. *)
Definition empty_response {D} (zero : D) : DataResponse D :=
mkDataResponse (mkResponse None None) zero.

(** **** Contacts *)

(** [Contact]. *)
Record Contact := mkContact {
  Contact_ID : Z;
  Contact_AccountID : Z;
  Contact_Label : string;
  Contact_FirstName : string;
  Contact_LastName : string;
  Contact_JobTitle : string;
  Contact_Organization : string;
  Contact_Address1 : string;
  Contact_Address2 : string;
  Contact_City : string;
  Contact_StateProvince : string;
  Contact_PostalCode : string;
  Contact_Country : string;
  Contact_Phone : string;
  Contact_Fax : string;
  Contact_Email : string;
  Contact_CreatedAt : string;
  Contact_UpdatedAt : string
}.

Definition Contact_zero : Contact :=
mkContact 0 0 "" "" "" "" "" "" "" "" "" "" "" "" "" "" "" "".

(** The JSON fields of [Contact], by their tags. *)
Definition Contact_fields : list (string * json.decoder Contact) :=
[
  ("id",
   json.field Contact_ID
     (fun x r => mkContact x (Contact_AccountID r) (Contact_Label r) (Contact_FirstName r) (Contact_LastName r) (Contact_JobTitle r) (Contact_Organization r) (Contact_Address1 r) (Contact_Address2 r) (Contact_City r) (Contact_StateProvince r) (Contact_PostalCode r) (Contact_Country r) (Contact_Phone r) (Contact_Fax r) (Contact_Email r) (Contact_CreatedAt r) (Contact_UpdatedAt r))
     json.into_int);
  ("account_id",
   json.field Contact_AccountID
     (fun x r => mkContact (Contact_ID r) x (Contact_Label r) (Contact_FirstName r) (Contact_LastName r) (Contact_JobTitle r) (Contact_Organization r) (Contact_Address1 r) (Contact_Address2 r) (Contact_City r) (Contact_StateProvince r) (Contact_PostalCode r) (Contact_Country r) (Contact_Phone r) (Contact_Fax r) (Contact_Email r) (Contact_CreatedAt r) (Contact_UpdatedAt r))
     json.into_int);
  ("label",
   json.field Contact_Label
     (fun x r => mkContact (Contact_ID r) (Contact_AccountID r) x (Contact_FirstName r) (Contact_LastName r) (Contact_JobTitle r) (Contact_Organization r) (Contact_Address1 r) (Contact_Address2 r) (Contact_City r) (Contact_StateProvince r) (Contact_PostalCode r) (Contact_Country r) (Contact_Phone r) (Contact_Fax r) (Contact_Email r) (Contact_CreatedAt r) (Contact_UpdatedAt r))
     json.into_string);
  ("first_name",
   json.field Contact_FirstName
     (fun x r => mkContact (Contact_ID r) (Contact_AccountID r) (Contact_Label r) x (Contact_LastName r) (Contact_JobTitle r) (Contact_Organization r) (Contact_Address1 r) (Contact_Address2 r) (Contact_City r) (Contact_StateProvince r) (Contact_PostalCode r) (Contact_Country r) (Contact_Phone r) (Contact_Fax r) (Contact_Email r) (Contact_CreatedAt r) (Contact_UpdatedAt r))
     json.into_string);
  ("last_name",
   json.field Contact_LastName
     (fun x r => mkContact (Contact_ID r) (Contact_AccountID r) (Contact_Label r) (Contact_FirstName r) x (Contact_JobTitle r) (Contact_Organization r) (Contact_Address1 r) (Contact_Address2 r) (Contact_City r) (Contact_StateProvince r) (Contact_PostalCode r) (Contact_Country r) (Contact_Phone r) (Contact_Fax r) (Contact_Email r) (Contact_CreatedAt r) (Contact_UpdatedAt r))
     json.into_string);
  ("job_title",
   json.field Contact_JobTitle
     (fun x r => mkContact (Contact_ID r) (Contact_AccountID r) (Contact_Label r) (Contact_FirstName r) (Contact_LastName r) x (Contact_Organization r) (Contact_Address1 r) (Contact_Address2 r) (Contact_City r) (Contact_StateProvince r) (Contact_PostalCode r) (Contact_Country r) (Contact_Phone r) (Contact_Fax r) (Contact_Email r) (Contact_CreatedAt r) (Contact_UpdatedAt r))
     json.into_string);
  ("organization_name",
   json.field Contact_Organization
     (fun x r => mkContact (Contact_ID r) (Contact_AccountID r) (Contact_Label r) (Contact_FirstName r) (Contact_LastName r) (Contact_JobTitle r) x (Contact_Address1 r) (Contact_Address2 r) (Contact_City r) (Contact_StateProvince r) (Contact_PostalCode r) (Contact_Country r) (Contact_Phone r) (Contact_Fax r) (Contact_Email r) (Contact_CreatedAt r) (Contact_UpdatedAt r))
     json.into_string);
  ("address1",
   json.field Contact_Address1
     (fun x r => mkContact (Contact_ID r) (Contact_AccountID r) (Contact_Label r) (Contact_FirstName r) (Contact_LastName r) (Contact_JobTitle r) (Contact_Organization r) x (Contact_Address2 r) (Contact_City r) (Contact_StateProvince r) (Contact_PostalCode r) (Contact_Country r) (Contact_Phone r) (Contact_Fax r) (Contact_Email r) (Contact_CreatedAt r) (Contact_UpdatedAt r))
     json.into_string);
  ("address2",
   json.field Contact_Address2
     (fun x r => mkContact (Contact_ID r) (Contact_AccountID r) (Contact_Label r) (Contact_FirstName r) (Contact_LastName r) (Contact_JobTitle r) (Contact_Organization r) (Contact_Address1 r) x (Contact_City r) (Contact_StateProvince r) (Contact_PostalCode r) (Contact_Country r) (Contact_Phone r) (Contact_Fax r) (Contact_Email r) (Contact_CreatedAt r) (Contact_UpdatedAt r))
     json.into_string);
  ("city",
   json.field Contact_City
     (fun x r => mkContact (Contact_ID r) (Contact_AccountID r) (Contact_Label r) (Contact_FirstName r) (Contact_LastName r) (Contact_JobTitle r) (Contact_Organization r) (Contact_Address1 r) (Contact_Address2 r) x (Contact_StateProvince r) (Contact_PostalCode r) (Contact_Country r) (Contact_Phone r) (Contact_Fax r) (Contact_Email r) (Contact_CreatedAt r) (Contact_UpdatedAt r))
     json.into_string);
  ("state_province",
   json.field Contact_StateProvince
     (fun x r => mkContact (Contact_ID r) (Contact_AccountID r) (Contact_Label r) (Contact_FirstName r) (Contact_LastName r) (Contact_JobTitle r) (Contact_Organization r) (Contact_Address1 r) (Contact_Address2 r) (Contact_City r) x (Contact_PostalCode r) (Contact_Country r) (Contact_Phone r) (Contact_Fax r) (Contact_Email r) (Contact_CreatedAt r) (Contact_UpdatedAt r))
     json.into_string);
  ("postal_code",
   json.field Contact_PostalCode
     (fun x r => mkContact (Contact_ID r) (Contact_AccountID r) (Contact_Label r) (Contact_FirstName r) (Contact_LastName r) (Contact_JobTitle r) (Contact_Organization r) (Contact_Address1 r) (Contact_Address2 r) (Contact_City r) (Contact_StateProvince r) x (Contact_Country r) (Contact_Phone r) (Contact_Fax r) (Contact_Email r) (Contact_CreatedAt r) (Contact_UpdatedAt r))
     json.into_string);
  ("country",
   json.field Contact_Country
     (fun x r => mkContact (Contact_ID r) (Contact_AccountID r) (Contact_Label r) (Contact_FirstName r) (Contact_LastName r) (Contact_JobTitle r) (Contact_Organization r) (Contact_Address1 r) (Contact_Address2 r) (Contact_City r) (Contact_StateProvince r) (Contact_PostalCode r) x (Contact_Phone r) (Contact_Fax r) (Contact_Email r) (Contact_CreatedAt r) (Contact_UpdatedAt r))
     json.into_string);
  ("phone",
   json.field Contact_Phone
     (fun x r => mkContact (Contact_ID r) (Contact_AccountID r) (Contact_Label r) (Contact_FirstName r) (Contact_LastName r) (Contact_JobTitle r) (Contact_Organization r) (Contact_Address1 r) (Contact_Address2 r) (Contact_City r) (Contact_StateProvince r) (Contact_PostalCode r) (Contact_Country r) x (Contact_Fax r) (Contact_Email r) (Contact_CreatedAt r) (Contact_UpdatedAt r))
     json.into_string);
  ("fax",
   json.field Contact_Fax
     (fun x r => mkContact (Contact_ID r) (Contact_AccountID r) (Contact_Label r) (Contact_FirstName r) (Contact_LastName r) (Contact_JobTitle r) (Contact_Organization r) (Contact_Address1 r) (Contact_Address2 r) (Contact_City r) (Contact_StateProvince r) (Contact_PostalCode r) (Contact_Country r) (Contact_Phone r) x (Contact_Email r) (Contact_CreatedAt r) (Contact_UpdatedAt r))
     json.into_string);
  ("email_address",
   json.field Contact_Email
     (fun x r => mkContact (Contact_ID r) (Contact_AccountID r) (Contact_Label r) (Contact_FirstName r) (Contact_LastName r) (Contact_JobTitle r) (Contact_Organization r) (Contact_Address1 r) (Contact_Address2 r) (Contact_City r) (Contact_StateProvince r) (Contact_PostalCode r) (Contact_Country r) (Contact_Phone r) (Contact_Fax r) x (Contact_CreatedAt r) (Contact_UpdatedAt r))
     json.into_string);
  ("created_at",
   json.field Contact_CreatedAt
     (fun x r => mkContact (Contact_ID r) (Contact_AccountID r) (Contact_Label r) (Contact_FirstName r) (Contact_LastName r) (Contact_JobTitle r) (Contact_Organization r) (Contact_Address1 r) (Contact_Address2 r) (Contact_City r) (Contact_StateProvince r) (Contact_PostalCode r) (Contact_Country r) (Contact_Phone r) (Contact_Fax r) (Contact_Email r) x (Contact_UpdatedAt r))
     json.into_string);
  ("updated_at",
   json.field Contact_UpdatedAt
     (fun x r => mkContact (Contact_ID r) (Contact_AccountID r) (Contact_Label r) (Contact_FirstName r) (Contact_LastName r) (Contact_JobTitle r) (Contact_Organization r) (Contact_Address1 r) (Contact_Address2 r) (Contact_City r) (Contact_StateProvince r) (Contact_PostalCode r) (Contact_Country r) (Contact_Phone r) (Contact_Fax r) (Contact_Email r) (Contact_CreatedAt r) x)
     json.into_string) ].

Definition unmarshal_Contact : json.decoder Contact :=
json.into_struct "dnsimple.Contact" Contact_fields.

Definition ContactResponse := DataResponse (option Contact).
Definition ContactsResponse := DataResponse (option (list Contact)).

Definition ContactResponse_ptr (r : ContactResponse) : destination ContactResponse :=
pointer_to "dnsimple.ContactResponse" (json.into_ptr Contact_zero unmarshal_Contact) r.

Definition ContactsResponse_ptr (r : ContactsResponse) : destination ContactsResponse :=
pointer_to "dnsimple.ContactsResponse"
  (json.into_slice "[]dnsimple.Contact" Contact_zero unmarshal_Contact) r.

Section Contacts.

Variable Sprint_other : reflect.Value -> string.
Context `{!json.Marshaler Contact}.

(** [(s *ContactsService) ListContacts(accountID, options)]. *)
Definition ListContacts (c : Client) (accountID : string) (options : option ListOptions)
  : go (option ContactsResponse * option failure) :=
let path := versioned (contactPath Sprint_other accountID None) in
let contactsResponse : ContactsResponse := empty_response None in
r <-! addURLQueryOptions Sprint_other path (ListOptions_ptr options) ;;
let '(path, err) := r in
match err with
| Some err => Ret (None, Some (an_error err))
| None =>
    let '(resp, err, obj) := get c path (ContactsResponse_ptr contactsResponse) in
    let contactsResponse := pointee obj contactsResponse in
    match err with
    | Some err => Ret (Some contactsResponse, Some err)
    | None => Ret (Some (with_HttpResponse contactsResponse resp), None)
    end
end.

(** [(s *ContactsService) CreateContact(accountID, contactAttributes)]. *)
Definition CreateContact (c : Client) (accountID : string) (contactAttributes : Contact)
  : option ContactResponse * option failure :=
let path := versioned (contactPath Sprint_other accountID None) in
let contactResponse : ContactResponse := empty_response None in
let '(resp, err, obj) :=
  post c path (Some contactAttributes) (ContactResponse_ptr contactResponse) in
let contactResponse := pointee obj contactResponse in
match err with
| Some err => (None, Some err)
| None => (Some (with_HttpResponse contactResponse resp), None)
end.

(** [(s *ContactsService) GetContact(accountID, contactID)]. *)
Definition GetContact (c : Client) (accountID : string) (contactID : Z)
  : option ContactResponse * option failure :=
let path :=
  versioned (contactPath Sprint_other accountID (Some (reflect.VInt reflect.I contactID))) in
let contactResponse : ContactResponse := empty_response None in
let '(resp, err, obj) := get c path (ContactResponse_ptr contactResponse) in
let contactResponse := pointee obj contactResponse in
match err with
| Some err => (None, Some err)
| None => (Some (with_HttpResponse contactResponse resp), None)
end.

(** [(s *ContactsService) UpdateContact(accountID, contactID, contactAttributes)]. *)
Definition UpdateContact (c : Client) (accountID : string) (contactID : Z)
  (contactAttributes : Contact) : option ContactResponse * option failure :=
let path :=
  versioned (contactPath Sprint_other accountID (Some (reflect.VInt reflect.I contactID))) in
let contactResponse : ContactResponse := empty_response None in
let '(resp, err, obj) :=
  patch c path (Some contactAttributes) (ContactResponse_ptr contactResponse) in
let contactResponse := pointee obj contactResponse in
match err with
| Some err => (None, Some err)
| None => (Some (with_HttpResponse contactResponse resp), None)
end.

(** [(s *ContactsService) DeleteContact(accountID, contactID)]: the
    client is given neither a payload nor a place for the answer. *)
Definition DeleteContact (c : Client) (accountID : string) (contactID : Z)
  : option ContactResponse * option failure :=
let path :=
  versioned (contactPath Sprint_other accountID (Some (reflect.VInt reflect.I contactID))) in
let contactResponse : ContactResponse := empty_response None in
let '(resp, err, _) := delete c path (@None Empty_set) (@no_obj ContactResponse) in
match err with
| Some err => (None, Some err)
| None => (Some (with_HttpResponse contactResponse resp), None)
end.

End Contacts.

(** **** Zone records *)

(** [Record]. *)
Record ZoneRecord := mkZoneRecord {
  Record_ID : Z;
  Record_ZoneID : string;
  Record_ParentID : Z;
  Record_Type : string;
  Record_Name : string;
  Record_Content : string;
  Record_TTL : Z;
  Record_Priority : Z;
  Record_SystemRecord : bool;
  Record_CreatedAt : string;
  Record_UpdatedAt : string
}.

Definition ZoneRecord_zero : ZoneRecord :=
mkZoneRecord 0 "" 0 "" "" "" 0 0 false "" "".

(** The JSON fields of [Record], by their tags. *)
Definition ZoneRecord_fields : list (string * json.decoder ZoneRecord) :=
[
  ("id",
   json.field Record_ID
     (fun x r => mkZoneRecord x (Record_ZoneID r) (Record_ParentID r) (Record_Type r) (Record_Name r) (Record_Content r) (Record_TTL r) (Record_Priority r) (Record_SystemRecord r) (Record_CreatedAt r) (Record_UpdatedAt r))
     json.into_int);
  ("zone_id",
   json.field Record_ZoneID
     (fun x r => mkZoneRecord (Record_ID r) x (Record_ParentID r) (Record_Type r) (Record_Name r) (Record_Content r) (Record_TTL r) (Record_Priority r) (Record_SystemRecord r) (Record_CreatedAt r) (Record_UpdatedAt r))
     json.into_string);
  ("parent_id",
   json.field Record_ParentID
     (fun x r => mkZoneRecord (Record_ID r) (Record_ZoneID r) x (Record_Type r) (Record_Name r) (Record_Content r) (Record_TTL r) (Record_Priority r) (Record_SystemRecord r) (Record_CreatedAt r) (Record_UpdatedAt r))
     json.into_int);
  ("type",
   json.field Record_Type
     (fun x r => mkZoneRecord (Record_ID r) (Record_ZoneID r) (Record_ParentID r) x (Record_Name r) (Record_Content r) (Record_TTL r) (Record_Priority r) (Record_SystemRecord r) (Record_CreatedAt r) (Record_UpdatedAt r))
     json.into_string);
  ("name",
   json.field Record_Name
     (fun x r => mkZoneRecord (Record_ID r) (Record_ZoneID r) (Record_ParentID r) (Record_Type r) x (Record_Content r) (Record_TTL r) (Record_Priority r) (Record_SystemRecord r) (Record_CreatedAt r) (Record_UpdatedAt r))
     json.into_string);
  ("content",
   json.field Record_Content
     (fun x r => mkZoneRecord (Record_ID r) (Record_ZoneID r) (Record_ParentID r) (Record_Type r) (Record_Name r) x (Record_TTL r) (Record_Priority r) (Record_SystemRecord r) (Record_CreatedAt r) (Record_UpdatedAt r))
     json.into_string);
  ("ttl",
   json.field Record_TTL
     (fun x r => mkZoneRecord (Record_ID r) (Record_ZoneID r) (Record_ParentID r) (Record_Type r) (Record_Name r) (Record_Content r) x (Record_Priority r) (Record_SystemRecord r) (Record_CreatedAt r) (Record_UpdatedAt r))
     json.into_int);
  ("priority",
   json.field Record_Priority
     (fun x r => mkZoneRecord (Record_ID r) (Record_ZoneID r) (Record_ParentID r) (Record_Type r) (Record_Name r) (Record_Content r) (Record_TTL r) x (Record_SystemRecord r) (Record_CreatedAt r) (Record_UpdatedAt r))
     json.into_int);
  ("system_record",
   json.field Record_SystemRecord
     (fun x r => mkZoneRecord (Record_ID r) (Record_ZoneID r) (Record_ParentID r) (Record_Type r) (Record_Name r) (Record_Content r) (Record_TTL r) (Record_Priority r) x (Record_CreatedAt r) (Record_UpdatedAt r))
     json.into_bool);
  ("created_at",
   json.field Record_CreatedAt
     (fun x r => mkZoneRecord (Record_ID r) (Record_ZoneID r) (Record_ParentID r) (Record_Type r) (Record_Name r) (Record_Content r) (Record_TTL r) (Record_Priority r) (Record_SystemRecord r) x (Record_UpdatedAt r))
     json.into_string);
  ("updated_at",
   json.field Record_UpdatedAt
     (fun x r => mkZoneRecord (Record_ID r) (Record_ZoneID r) (Record_ParentID r) (Record_Type r) (Record_Name r) (Record_Content r) (Record_TTL r) (Record_Priority r) (Record_SystemRecord r) (Record_CreatedAt r) x)
     json.into_string) ].

Definition unmarshal_ZoneRecord : json.decoder ZoneRecord :=
json.into_struct "dnsimple.Record" ZoneRecord_fields.

Definition ZoneRecordResponse := DataResponse (option ZoneRecord).
Definition ZoneRecordsResponse := DataResponse (option (list ZoneRecord)).

Definition ZoneRecordResponse_ptr (r : ZoneRecordResponse) : destination ZoneRecordResponse :=
pointer_to "dnsimple.ZoneRecordResponse" (json.into_ptr ZoneRecord_zero unmarshal_ZoneRecord) r.

Definition ZoneRecordsResponse_ptr (r : ZoneRecordsResponse)
  : destination ZoneRecordsResponse :=
pointer_to "dnsimple.ZoneRecordsResponse"
  (json.into_slice "[]dnsimple.Record" ZoneRecord_zero unmarshal_ZoneRecord) r.

Section Zones.

Context `{!json.Marshaler ZoneRecord}.

(** [(s *ZonesService) ListRecords(accountID, zoneID)]. *)
Definition ListRecords (c : Client) (accountID zoneID : string)
  : option ZoneRecordsResponse * option failure :=
let path := versioned (zoneRecordPath accountID zoneID 0) in
let recordsResponse : ZoneRecordsResponse := empty_response None in
let '(resp, err, obj) := get c path (ZoneRecordsResponse_ptr recordsResponse) in
let recordsResponse := pointee obj recordsResponse in
match err with
| Some err => (None, Some err)
| None => (Some (with_HttpResponse recordsResponse resp), None)
end.

(** [(s *ZonesService) CreateRecord(accountID, zoneID, recordAttributes)]. *)
Definition CreateRecord (c : Client) (accountID zoneID : string) (recordAttributes : ZoneRecord)
  : option ZoneRecordResponse * option failure :=
let path := versioned (zoneRecordPath accountID zoneID 0) in
let recordResponse : ZoneRecordResponse := empty_response None in
let '(resp, err, obj) :=
  post c path (Some recordAttributes) (ZoneRecordResponse_ptr recordResponse) in
let recordResponse := pointee obj recordResponse in
match err with
| Some err => (None, Some err)
| None => (Some (with_HttpResponse recordResponse resp), None)
end.

(** [(s *ZonesService) GetRecord(accountID, zoneID, recordID)]. *)
Definition GetRecord (c : Client) (accountID zoneID : string) (recordID : Z)
  : option ZoneRecordResponse * option failure :=
let path := versioned (zoneRecordPath accountID zoneID recordID) in
let recordResponse : ZoneRecordResponse := empty_response None in
let '(resp, err, obj) := get c path (ZoneRecordResponse_ptr recordResponse) in
let recordResponse := pointee obj recordResponse in
match err with
| Some err => (None, Some err)
| None => (Some (with_HttpResponse recordResponse resp), None)
end.

(** [(s *ZonesService) UpdateRecord(accountID, zoneID, recordID, recordAttributes)]. *)
Definition UpdateRecord (c : Client) (accountID zoneID : string) (recordID : Z)
  (recordAttributes : ZoneRecord) : option ZoneRecordResponse * option failure :=
let path := versioned (zoneRecordPath accountID zoneID recordID) in
let recordResponse : ZoneRecordResponse := empty_response None in
let '(resp, err, obj) :=
  patch c path (Some recordAttributes) (ZoneRecordResponse_ptr recordResponse) in
let recordResponse := pointee obj recordResponse in
match err with
| Some err => (None, Some err)
| None => (Some (with_HttpResponse recordResponse resp), None)
end.

(** [(s *ZonesService) DeleteRecord(accountID, zoneID, recordID)]. *)
Definition DeleteRecord (c : Client) (accountID zoneID : string) (recordID : Z)
  : option ZoneRecordResponse * option failure :=
let path := versioned (zoneRecordPath accountID zoneID recordID) in
let recordResponse : ZoneRecordResponse := empty_response None in
let '(resp, err, _) := delete c path (@None Empty_set) (@no_obj ZoneRecordResponse) in
match err with
| Some err => (None, Some err)
| None => (Some (with_HttpResponse recordResponse resp), None)
end.

End Zones.

(** **** The registrar *)

(** [DomainCheck]. *)
Record DomainCheck := mkDomainCheck {
  Check_Domain : string;
  Check_Available : bool;
  Check_Premium : bool
}.

Definition DomainCheck_zero : DomainCheck :=
mkDomainCheck "" false false.

(** The JSON fields of [DomainCheck], by their tags. *)
Definition DomainCheck_fields : list (string * json.decoder DomainCheck) :=
[
  ("domain",
   json.field Check_Domain
     (fun x r => mkDomainCheck x (Check_Available r) (Check_Premium r))
     json.into_string);
  ("available",
   json.field Check_Available
     (fun x r => mkDomainCheck (Check_Domain r) x (Check_Premium r))
     json.into_bool);
  ("premium",
   json.field Check_Premium
     (fun x r => mkDomainCheck (Check_Domain r) (Check_Available r) x)
     json.into_bool) ].

Definition unmarshal_DomainCheck : json.decoder DomainCheck :=
json.into_struct "dnsimple.DomainCheck" DomainCheck_fields.

(** [DomainRegisterRequest], [DomainTransferRequest] and [DomainRenewRequest]. *)
Record DomainRegisterRequest := mkDomainRegisterRequest {
  Register_RegistrantID : Z;
  Register_EnableWhoisPrivacy : bool;
  Register_EnableAutoRenewal : bool
}.

Record DomainTransferRequest := mkDomainTransferRequest {
  Transfer_RegistrantID : Z;
  Transfer_AuthInfo : string;
  Transfer_EnableWhoisPrivacy : bool;
  Transfer_EnableAutoRenewal : bool
}.

Record DomainRenewRequest := mkDomainRenewRequest {
  Renew_Period : Z
}.

Definition DomainCheckResponse := DataResponse (option DomainCheck).

Definition DomainCheckResponse_ptr (r : DomainCheckResponse)
  : destination DomainCheckResponse :=
pointer_to "dnsimple.DomainCheckResponse" (json.into_ptr DomainCheck_zero unmarshal_DomainCheck) r.

Section Registrar.

(** [Domain], which the responses below point at and the source files
    do not declare: its zero value and how [encoding/json] decodes into
    it. *)
Context {Domain : Type} (Domain_zero : Domain) (unmarshal_Domain : json.decoder Domain).
Context `{!json.Marshaler (option DomainRegisterRequest)}
  `{!json.Marshaler (option DomainTransferRequest)}
  `{!json.Marshaler (option DomainRenewRequest)}.

Definition DomainRegistrationResponse := DataResponse (option Domain).
Definition DomainTransferResponse := DataResponse (option Domain).
Definition DomainTransferOutResponse := DataResponse (option Domain).
Definition DomainRenewalResponse := DataResponse (option Domain).

Definition Domain_ptr (type_name : string) (r : DataResponse (option Domain))
  : destination (DataResponse (option Domain)) :=
pointer_to type_name (json.into_ptr Domain_zero unmarshal_Domain) r.

(** [(s *RegistrarService) CheckDomain(accountID, domainName)]. *)
Definition CheckDomain (c : Client) (accountID domainName : string)
  : option DomainCheckResponse * option failure :=
let path :=
  versioned ("/" ++ accountID ++ "/registrar/domains/" ++ domainName ++ "/check") in
let checkResponse : DomainCheckResponse := empty_response None in
let '(resp, err, obj) := get c path (DomainCheckResponse_ptr checkResponse) in
let checkResponse := pointee obj checkResponse in
match err with
| Some err => (None, Some err)
| None => (Some (with_HttpResponse checkResponse resp), None)
end.

(** [(s *RegistrarService) RegisterDomain(accountID, domainName, request)];
    [request] is a pointer, and a nil pointer is a payload too. *)
Definition RegisterDomain (c : Client) (accountID domainName : string)
  (request : option DomainRegisterRequest)
  : option DomainRegistrationResponse * option failure :=
let path :=
  versioned ("/" ++ accountID ++ "/registrar/domains/" ++ domainName ++ "/registration") in
let registrationResponse : DomainRegistrationResponse := empty_response None in
let '(resp, err, obj) :=
  post c path (Some request)
    (Domain_ptr "dnsimple.DomainRegistrationResponse" registrationResponse) in
let registrationResponse := pointee obj registrationResponse in
match err with
| Some err => (None, Some err)
| None => (Some (with_HttpResponse registrationResponse resp), None)
end.

(** [(s *RegistrarService) TransferDomain(accountID, domainName, request)]. *)
Definition TransferDomain (c : Client) (accountID domainName : string)
  (request : option DomainTransferRequest)
  : option DomainTransferResponse * option failure :=
let path :=
  versioned ("/" ++ accountID ++ "/registrar/domains/" ++ domainName ++ "/transfer") in
let transferResponse : DomainTransferResponse := empty_response None in
let '(resp, err, obj) :=
  post c path (Some request) (Domain_ptr "dnsimple.DomainTransferResponse" transferResponse) in
let transferResponse := pointee obj transferResponse in
match err with
| Some err => (None, Some err)
| None => (Some (with_HttpResponse transferResponse resp), None)
end.

(** [(s *RegistrarService) TransferDomainOut(accountID, domainName)]. *)
Definition TransferDomainOut (c : Client) (accountID domainName : string)
  : option DomainTransferOutResponse * option failure :=
let path :=
  versioned ("/" ++ accountID ++ "/registrar/domains/" ++ domainName ++ "/transfer_out") in
let transferResponse : DomainTransferOutResponse := empty_response None in
let '(resp, err, _) :=
  post c path (@None Empty_set) (@no_obj DomainTransferOutResponse) in
match err with
| Some err => (None, Some err)
| None => (Some (with_HttpResponse transferResponse resp), None)
end.

(** [(s *RegistrarService) RenewDomain(accountID, domainName, request)]. *)
Definition RenewDomain (c : Client) (accountID domainName : string)
  (request : option DomainRenewRequest)
  : option DomainRenewalResponse * option failure :=
let path :=
  versioned ("/" ++ accountID ++ "/registrar/domains/" ++ domainName ++ "/renewal") in
let renewalResponse : DomainRenewalResponse := empty_response None in
let '(resp, err, obj) :=
  post c path (Some request) (Domain_ptr "dnsimple.DomainRenewalResponse" renewalResponse) in
let renewalResponse := pointee obj renewalResponse in
match err with
| Some err => (None, Some err)
| None => (Some (with_HttpResponse renewalResponse resp), None)
end.

End Registrar.

End Client.

Arguments mkDataResponse {D} Embedded Data.
Arguments Embedded {D} d.
Arguments Data {D} d.

End dnsimple.

(** ** Package webhook *)

Module webhook.

(** A pointer field of an event that may point back at the event that
    holds it: [Data] in [DomainEvent] and [WebhookEvent].  [parse] stores
    the address of the event in its own [Data], so what is decoded through
    [Data] lands in the event itself. *)
#[warnings="-register-all"]
Inductive ptr (T : Type) :=
| nil
| self
| other (target : T).
Arguments nil {T}.
Arguments self {T}.
Arguments other {T} target.

(** The declarations the events rest on that are not among the source
    files: the exported fields of [Event_Header], the type
    [dnsimple.Domain], and what the empty interface of
    [GenericEvent.Data] can hold; each with its zero value. *)
Class Declarations := {
  Header : Type;
  Header_zero : Header;
  Domain : Type;
  Domain_zero : Domain;
  Any : Type;
  Any_nil : Any
}.

Section Events.
Context `{Declarations}.

(** [Event_Header]: the exported fields, and the field [payload] that
    [parse] assigns. *)
Record Event_Header := mkEvent_Header { exported : Header; payload : string }.

Definition Event_Header_zero : Event_Header := mkEvent_Header Header_zero "".

(** [GenericEvent]. *)
Record GenericEvent := mkGenericEvent {
  G_Header : Event_Header;
  G_Data : Any
}.

(** [DomainEvent]. *)
#[warnings="-register-all"]
Inductive DomainEvent :=
| mkDomainEvent (D_Header : Event_Header) (D_Data : ptr DomainEvent) (D_Domain : option Domain).

Definition D_Header (e : DomainEvent) : Event_Header :=
match e with mkDomainEvent h _ _ => h end.
Definition D_Data (e : DomainEvent) : ptr DomainEvent :=
match e with mkDomainEvent _ d _ => d end.
Definition D_Domain (e : DomainEvent) : option Domain :=
match e with mkDomainEvent _ _ d => d end.

(** [WebhookEvent]. *)
#[warnings="-register-all"]
Inductive WebhookEvent :=
| mkWebhookEvent (W_Header : Event_Header) (W_Data : ptr WebhookEvent).

Definition W_Header (e : WebhookEvent) : Event_Header :=
match e with mkWebhookEvent h _ => h end.
Definition W_Data (e : WebhookEvent) : ptr WebhookEvent :=
match e with mkWebhookEvent _ d => d end.

(** The interface [Event] with its three implementations. *)
Inductive Event :=
| IsDomainEvent (e : DomainEvent)
| IsWebhookEvent (e : WebhookEvent)
| IsGenericEvent (e : GenericEvent).

(** [e.Payload()]. *)
Definition Payload (event : Event) : string :=
match event with
| IsDomainEvent e => payload (D_Header e)
| IsWebhookEvent e => payload (W_Header e)
| IsGenericEvent e => payload (G_Header e)
end.

Definition with_payload (h : Event_Header) (p : string) : Event_Header :=
mkEvent_Header (exported h) p.

(** [unmashalEvent(data, v)], which the source files call and do not
    define, for each type of [v]: the event afterwards and the error
    returned. *)
Class Unmarshaler := {
  unmashalEvent_Generic : string -> GenericEvent -> GenericEvent * option json.error;
  unmashalEvent_Domain : string -> DomainEvent -> DomainEvent * option json.error;
  unmashalEvent_Webhook : string -> WebhookEvent -> WebhookEvent * option json.error
}.

Section Dispatch.
Context `{Unmarshaler}.

(** [(e *GenericEvent) parse(payload)]. *)
Definition GenericEvent_parse (e : GenericEvent) (payload : string)
  : GenericEvent * option json.error :=
let e := mkGenericEvent (with_payload (G_Header e) payload) (G_Data e) in
unmashalEvent_Generic payload e.

(** [(e *DomainEvent) parse(payload)]. *)
Definition DomainEvent_parse (e : DomainEvent) (payload : string)
  : DomainEvent * option json.error :=
let e := mkDomainEvent (with_payload (D_Header e) payload) self (D_Domain e) in
unmashalEvent_Domain payload e.

(** [(e *WebhookEvent) parse(payload)]. *)
Definition WebhookEvent_parse (e : WebhookEvent) (payload : string)
  : WebhookEvent * option json.error :=
let e := mkWebhookEvent (with_payload (W_Header e) payload) self in
unmashalEvent_Webhook payload e.

(** [event.parse(payload)] through the interface. *)
Definition parse (event : Event) (payload : string) : Event * option json.error :=
match event with
| IsDomainEvent e => let '(e', err) := DomainEvent_parse e payload in (IsDomainEvent e', err)
| IsWebhookEvent e => let '(e', err) := WebhookEvent_parse e payload in (IsWebhookEvent e', err)
| IsGenericEvent e => let '(e', err) := GenericEvent_parse e payload in (IsGenericEvent e', err)
end.

Definition new_DomainEvent : DomainEvent := mkDomainEvent Event_Header_zero nil None.
Definition new_WebhookEvent : WebhookEvent := mkWebhookEvent Event_Header_zero nil.
Definition new_GenericEvent : GenericEvent := mkGenericEvent Event_Header_zero Any_nil.

(** The [switch] of [switchEvent]: a fresh event of the type the name
    selects. *)
Definition event_for (name : string) : Event :=
if String.eqb name "domain.create" then IsDomainEvent new_DomainEvent
else if String.eqb name "domain.delete" then IsDomainEvent new_DomainEvent
else if String.eqb name "domain.token_reset" then IsDomainEvent new_DomainEvent
else if String.eqb name "domain.auto_renew_enable" then IsDomainEvent new_DomainEvent
else if String.eqb name "domain.auto_renew_disable" then IsDomainEvent new_DomainEvent
else if String.eqb name "webhook.create" then IsWebhookEvent new_WebhookEvent
else IsGenericEvent new_GenericEvent.

(** [switchEvent(name, payload)]: the event, an interface value that is
    never nil here, is returned as [parse] left it, with the error of
    [parse]. *)
Definition switchEvent (name payload : string) : option Event * option json.error :=
let event := event_for name in
let '(event, err) := parse event payload in
(Some event, err).

End Dispatch.

(** *** Decoding a payload into an event *)

(** How [encoding/json] decodes into the declarations left open above:
    the JSON fields of [Event_Header] with their decoders, and the
    decoders of a [dnsimple.Domain] and of the empty interface. *)
Class Decoders := {
  Header_fields : list (string * json.decoder Header);
  unmarshal_Domain : json.decoder Domain;
  unmarshal_Any : json.decoder Any
}.

Section Decoding.
Context `{Decoders}.

(** The fields of an event struct: those promoted from [Event_Header],
    or one of the event's own. *)
Inductive event_field :=
| header_field (d : json.decoder Header)
| Data_field
| Domain_field.

Definition promoted : list (string * event_field) :=
(fun '(name, d) => (name, header_field d)) <$> Header_fields.

(** The fields of an event with the given fields of its own: a promoted
    field that one of the event's own hides is dropped. *)
Definition visible (own : list (string * event_field)) : list (string * event_field) :=
(filter (fun '(name, _) => json.find_exact own name = None) promoted ++ own)%list.

Definition into_Header (d : json.decoder Header) : json.decoder Event_Header :=
json.field exported (fun h e => mkEvent_Header h (payload e)) d.

(** The fields of a [DomainEvent] and of a [WebhookEvent]. *)
Definition DomainEvent_fields : list (string * event_field) :=
visible [("data", Data_field); ("domain", Domain_field)].

Definition WebhookEvent_fields : list (string * event_field) :=
visible [("data", Data_field)].

(** One member of an object decoded into a [DomainEvent], where
    [unmarshal] decodes into the [DomainEvent] a pointer leads to.  A
    [data] member is decoded through the pointer [Data]: into the event
    itself when [Data] points back at it, into a fresh event when it is
    nil. *)
Definition DomainEvent_member (unmarshal : json.decoder DomainEvent)
  (acc : DomainEvent * json.status) (member : string * json.value)
  : DomainEvent * json.status :=
let '(e, st) := acc in
let '(key, v') := member in
match st with
| json.Aborted _ => (e, st)
| _ =>
    match json.find_field DomainEvent_fields key with
    | None => (e, st)
    | Some (header_field d) =>
        let '(h, st') := into_Header d v' (D_Header e) in
        (mkDomainEvent h (D_Data e) (D_Domain e), json.after st st')
    | Some Domain_field =>
        let '(dom, st') := json.into_ptr Domain_zero unmarshal_Domain v' (D_Domain e) in
        (mkDomainEvent (D_Header e) (D_Data e) dom, json.after st st')
    | Some Data_field =>
        match v' with
        | json.Null => (mkDomainEvent (D_Header e) nil (D_Domain e), st)
        | _ =>
            match D_Data e with
            | self =>
                let '(e', st') := unmarshal v' e in
                (e', json.after st st')
            | nil =>
                let '(t, st') := unmarshal v' (mkDomainEvent Event_Header_zero nil None) in
                (mkDomainEvent (D_Header e) (other t) (D_Domain e), json.after st st')
            | other t =>
                let '(t', st') := unmarshal v' t in
                (mkDomainEvent (D_Header e) (other t') (D_Domain e), json.after st st')
            end
        end
    end
end.

(** [json.Unmarshal] into a [*DomainEvent], after the syntax check. *)
Fixpoint unmarshal_DomainEvent (v : json.value) (e : DomainEvent) {struct v}
  : DomainEvent * json.status :=
match v with
| json.Null => (e, json.Fine)
| json.Object members =>
    fold_left (DomainEvent_member unmarshal_DomainEvent) members (e, json.Fine)
| _ => (e, json.mismatch v "webhook.DomainEvent")
end.

(** One member of an object decoded into a [WebhookEvent]. *)
Definition WebhookEvent_member (unmarshal : json.decoder WebhookEvent)
  (acc : WebhookEvent * json.status) (member : string * json.value)
  : WebhookEvent * json.status :=
let '(e, st) := acc in
let '(key, v') := member in
match st with
| json.Aborted _ => (e, st)
| _ =>
    match json.find_field WebhookEvent_fields key with
    | None | Some Domain_field => (e, st)
    | Some (header_field d) =>
        let '(h, st') := into_Header d v' (W_Header e) in
        (mkWebhookEvent h (W_Data e), json.after st st')
    | Some Data_field =>
        match v' with
        | json.Null => (mkWebhookEvent (W_Header e) nil, st)
        | _ =>
            match W_Data e with
            | self =>
                let '(e', st') := unmarshal v' e in
                (e', json.after st st')
            | nil =>
                let '(t, st') := unmarshal v' (mkWebhookEvent Event_Header_zero nil) in
                (mkWebhookEvent (W_Header e) (other t), json.after st st')
            | other t =>
                let '(t', st') := unmarshal v' t in
                (mkWebhookEvent (W_Header e) (other t'), json.after st st')
            end
        end
    end
end.

(** [json.Unmarshal] into a [*WebhookEvent], after the syntax check. *)
Fixpoint unmarshal_WebhookEvent (v : json.value) (e : WebhookEvent) {struct v}
  : WebhookEvent * json.status :=
match v with
| json.Null => (e, json.Fine)
| json.Object members =>
    fold_left (WebhookEvent_member unmarshal_WebhookEvent) members (e, json.Fine)
| _ => (e, json.mismatch v "webhook.WebhookEvent")
end.

(** The decoder of a field of a [GenericEvent]. *)
Definition Generic_field (f : event_field) : json.decoder GenericEvent :=
match f with
| header_field d =>
    json.field G_Header (fun h e => mkGenericEvent h (G_Data e)) (into_Header d)
| _ => json.field G_Data (fun a e => mkGenericEvent (G_Header e) a) unmarshal_Any
end.

(** [json.Unmarshal] into a [*GenericEvent], after the syntax check. *)
Definition unmarshal_GenericEvent : json.decoder GenericEvent :=
json.into_struct "webhook.GenericEvent"
  ((fun '(name, f) => (name, Generic_field f)) <$> visible [("data", Data_field)]).

(** [json.Unmarshal(data, v)]: nothing is decoded unless the whole of
    [data] is one JSON value. *)
Definition Unmarshal {T} (d : json.decoder T) (data : string) (t : T) : T * option json.error :=
match json.valid_document data with
| inr err => (t, Some err)
| inl v => let '(t', st) := d v t in (t', json.reported st)
end.

(** Modelled from the spec: [unmashalEvent], which the source files call
    and do not define.  The spec has the selected shape populated by
    decoding the raw payload as JSON into it: [json.Unmarshal(data, v)]. *)
Definition unmashalEvent_json : Unmarshaler := {|
  unmashalEvent_Generic := Unmarshal unmarshal_GenericEvent;
  unmashalEvent_Domain := Unmarshal unmarshal_DomainEvent;
  unmashalEvent_Webhook := Unmarshal unmarshal_WebhookEvent
|}.

End Decoding.

End Events.

End webhook.
(** ** Vocabulary of the specification *)

Module spec.

(** A header value is numeric when it is an optional sign followed by
    one or more decimal digits. *)
Definition numeric (s : string) : bool :=
let body :=
  match s with
  | String c rest => if Ascii.eqb c "+" || Ascii.eqb c "-" then rest else s
  | "" => ""
  end in
match strings.span_digits body with
| (String _ _, "") => true
| _ => false
end.

(** The number a string of decimal digits denotes, continuing from [n]. *)
Fixpoint digits_value (n : Z) (d : string) : Z :=
match d with
| "" => n
| String c d' => digits_value (n * 10 + (byte.val c - byte.val "0")) d'
end.

(** The number denoted by the digits a value starts with, after its
    sign if it has one. *)
Definition leading_number (s : string) : Z :=
let body :=
  match s with
  | String c rest => if Ascii.eqb c "+" || Ascii.eqb c "-" then rest else s
  | "" => ""
  end in
digits_value 0 (fst (strings.span_digits body)).

(** The bytes the URL printer leaves as they are in a path. *)
Fixpoint path_bytes (s : string) : bool :=
match s with
| "" => true
| String c s' => negb (url.shouldEscape c url.encodePath) && path_bytes s'
end.

(** A plain rooted path: a slash, not followed by a second one, and then
    only bytes that need no escaping in a path.  It has no scheme, host,
    query or fragment. *)
Definition plain_path (p : string) : bool :=
match p with
| String "/" (String "/" _) => false
| String "/" rest => path_bytes rest
| _ => false
end.

(** The url tag of a field. *)
Definition url_tag (sf : reflect.StructField) : string :=
reflect.Tag_Get (reflect.Tag sf) "url".

(** A field takes part in query encoding under [name]: it has a url tag
    other than the dash, and [name] is the tag up to its first comma. *)
Definition tagged_as (sf : reflect.StructField) (name : string) : Prop :=
url_tag sf <> "" /\ url_tag sf <> "-" /\ hd "" (strings.Split (url_tag sf) ",") = name.

(** The tag of the field asks for empty values to be left out. *)
Definition omitempty (sf : reflect.StructField) : bool :=
dnsimple.optionsContains (tl (strings.Split (url_tag sf) ",")) "omitempty".

(** The default of a type: the empty string or collection, a zero number,
    false, a null reference.  Among the numbers this covers integers and
    floats, among the references pointers and interfaces. *)
Definition is_default (v : reflect.Value) : bool :=
match v with
| reflect.VString s => String.eqb s ""
| reflect.VArray l => match l with [] => true | _ => false end
| reflect.VSlice l => match l with None | Some [] => true | _ => false end
| reflect.VMap l => match l with None | Some [] => true | _ => false end
| reflect.VInt _ n => n =? 0
| reflect.VUint _ n => n =? 0
| reflect.VFloat reflect.F32 bits => (bits mod 2 ^ 32 =? 0) || (bits mod 2 ^ 32 =? 2 ^ 31)
| reflect.VFloat reflect.F64 bits => (bits mod 2 ^ 64 =? 0) || (bits mod 2 ^ 64 =? 2 ^ 63)
| reflect.VBool b => negb b
| reflect.VPtr None | reflect.VInterface None => true
| _ => false
end.

(** The field is sent as the query parameter [name]: it is tagged as
    [name], and its tag does not ask to leave out empty values or its
    value is not the default. *)
Definition sent (f : reflect.StructField * reflect.Value) (name : string) : Prop :=
tagged_as (fst f) name /\ (omitempty (fst f) = false \/ is_default (snd f) = false).

(** A plain path followed by the canonical encoding of a map of query
    values: the paths in canonical encoded form. *)
Definition canonical (path : string) (v : url.Values) : string :=
path ++ (if String.eqb (url.Encode v) "" then "" else "?" ++ url.Encode v).


(** The [ErrorResponse] that [CheckResponse] decodes the body into: the
    zero value with the response attached. *)
Definition error_shape (resp : http.Response) : dnsimple.ErrorResponse :=
dnsimple.mkErrorResponse (dnsimple.mkResponse (Some resp) None) "".

(** A struct that [addURLQueryOptions] can read: every field is exported. *)
Definition exported (fields : list (reflect.StructField * reflect.Value)) : Prop :=
Forall (fun f => reflect.PkgPath (fst f) = "") fields.

(** The fields of an options bundle that is not nil: of a struct, or of
    the struct a pointer leads to. *)
Definition bundle (options : option reflect.Value)
  : option (list (reflect.StructField * reflect.Value)) :=
match options with
| Some (reflect.VStruct fields) => Some fields
| Some (reflect.VPtr (Some (reflect.VStruct fields))) => Some fields
| _ => None
end.

(** The three shapes of the event union. *)
Inductive shape := DomainShape | WebhookShape | GenericShape.

Definition shape_of `{webhook.Declarations} (event : webhook.Event) : shape :=
match event with
| webhook.IsDomainEvent _ => DomainShape
| webhook.IsWebhookEvent _ => WebhookShape
| webhook.IsGenericEvent _ => GenericShape
end.

(** The five names of the domain lifecycle. *)
Definition domain_names : list string :=
[ "domain.create"; "domain.delete"; "domain.token_reset";
  "domain.auto_renew_enable"; "domain.auto_renew_disable" ].

(** The lookup table of the dispatcher: the shape an event name stands
    for, the generic one for a name the table does not hold. *)
Definition selected (name : string) : shape :=
if existsb (String.eqb name) domain_names then DomainShape
else if String.eqb name "webhook.create" then WebhookShape
else GenericShape.

(** Members of a payload object that select neither [data] nor [domain]
    in a domain event: header members, and members the event has no
    field for. *)
Definition beside_domain `{webhook.Declarations} `{!webhook.Decoders}
  (members : list (string * json.value)) : Prop :=
Forall
  (fun m =>
     match json.find_field webhook.DomainEvent_fields (fst m) with
     | Some webhook.Data_field | Some webhook.Domain_field => False
     | _ => True
     end)
  members.

(** The payload's [domain] object: the value of its [domain] member, at
    the top of the payload or inside its [data] member, where the
    members around it select neither [data] nor [domain]. *)
Definition domain_object `{webhook.Declarations} `{!webhook.Decoders}
  (members : list (string * json.value)) (d : json.value) : Prop :=
(exists before after,
   members = (before ++ ("domain", d) :: after)%list /\
   beside_domain before /\ beside_domain after)
\/
(exists before after inner_before inner_after,
   members =
     (before ++ ("data", json.Object (inner_before ++ ("domain", d) :: inner_after)) :: after)%list /\
   beside_domain before /\ beside_domain after /\
   beside_domain inner_before /\ beside_domain inner_after).

(** The Go type of each shape, as a decoding error names it. *)
Definition type_name (s : shape) : string :=
match s with
| DomainShape => "webhook.DomainEvent"
| WebhookShape => "webhook.WebhookEvent"
| GenericShape => "webhook.GenericEvent"
end.

(** The dispatcher as the specification has it: the table selects the
    shape, and the event of that shape, holding the raw payload, is
    populated by decoding the payload as JSON into it.  The event comes
    with the error of the decoder.  A domain event and a webhook event
    start with [Data] pointing back at them. *)
Definition dispatch `{webhook.Declarations} `{!webhook.Decoders} (name payload : string)
  : webhook.Event * option json.error :=
let header := webhook.mkEvent_Header webhook.Header_zero payload in
match selected name with
| DomainShape =>
    let '(e, err) :=
      webhook.Unmarshal webhook.unmarshal_DomainEvent payload
        (webhook.mkDomainEvent header webhook.self None) in
    (webhook.IsDomainEvent e, err)
| WebhookShape =>
    let '(e, err) :=
      webhook.Unmarshal webhook.unmarshal_WebhookEvent payload
        (webhook.mkWebhookEvent header webhook.self) in
    (webhook.IsWebhookEvent e, err)
| GenericShape =>
    let '(e, err) :=
      webhook.Unmarshal webhook.unmarshal_GenericEvent payload
        (webhook.mkGenericEvent header webhook.Any_nil) in
    (webhook.IsGenericEvent e, err)
end.

(** A text with each apostrophe replaced by a double quote, to write
    JSON documents down. *)
Fixpoint dq (s : string) : string :=
match s with
| "" => ""
| String c s' => String (if Ascii.eqb c "'" then "034"%char else c) (dq s')
end.

End spec.
(** ** Auxiliary definitions for the proofs *)

(** The table checks behind the lemmas on base64 symbols and hexadecimal
    digits. *)
Definition sextet_ok (n : Z) : bool :=
match base64.decodeMap (base64.encode n) with
| Some m => m =? n
| None => false
end
&& negb (Ascii.eqb (base64.encode n) base64.padChar)
&& negb (Ascii.eqb (base64.encode n) "010")
&& negb (Ascii.eqb (base64.encode n) "013").

Definition hex_ok (n : Z) : bool :=
url.ishex (url.hexdigit n) && (url.unhex (url.hexdigit n) =? n)
&& negb (Ascii.eqb (url.hexdigit n) "&") && negb (Ascii.eqb (url.hexdigit n) ";")
&& negb (Ascii.eqb (url.hexdigit n) "=")
&& negb (Ascii.eqb (url.hexdigit n) "?") && negb (Ascii.eqb (url.hexdigit n) "#").

(** No byte of [s] is one of [cs]. *)
Fixpoint lacks (cs : list ascii) (s : string) : bool :=
match s with
| "" => true
| String c s' => negb (existsb (Ascii.eqb c) cs) && lacks cs s'
end.

(** The bytes that delimit the parts of a query, and those among them
    that separate its parameters. *)
Definition delimiters : list ascii := ["&"; ";"; "="; "?"; "#"]%char.
Definition separators : list ascii := ["&"; ";"]%char.

(** The URL that is a plain path and a query. *)
Definition path_url (p q : string) : url.URL :=
url.mkURL "" "" None "" p "" false q "".

(** A parameter as [Encode] writes it. *)
Definition item (kx : string * string) : string :=
url.QueryEscape (fst kx) ++ "=" ++ url.QueryEscape (snd kx).

Definition add_pair (m : url.Values) (kx : string * string) : url.Values :=
url.Add m (fst kx) (snd kx).

(** The pairs of a map of values, in the order [Encode] writes them. *)
Definition pairs (v : url.Values) : list (string * string) :=
k ← url.sorted_keys v; (fun x => (k, x)) <$> default [] (v !! k).

(** [w] is [v] without the keys whose list of values is empty. *)
Definition nonempty_lists (v w : url.Values) : Prop :=
forall k, w !! k = match v !! k with
                   | Some (x :: l) => Some (x :: l)
                   | _ => None
                   end.

Definition has_values (v : url.Values) (k : string) : Prop :=
default [] (v !! k) <> [].

#[local] Instance has_values_dec (v : url.Values) (k : string) : Decision (has_values v k).
Proof. unfold has_values. apply _. Defined.

(** The fields of a [GenericEvent] with their decoders. *)
Definition GenericEvent_fields `{webhook.Declarations} `{!webhook.Decoders}
  : list (string * json.decoder webhook.GenericEvent) :=
(fun '(name, f) => (name, webhook.Generic_field f))
  <$> webhook.visible [("data", webhook.Data_field)].

(** A JSON value that a struct takes: [null] or an object. *)
Definition structured (v : json.value) : bool :=
match v with
| json.Null | json.Object _ => true
| _ => false
end.

(** A JSON value that fits a struct with the given fields: [null], or an
    object each member of which is decoded without an error by the field
    it selects, if it selects one. *)
Definition fits {T} (fields : list (string * json.decoder T)) (v : json.value) : Prop :=
match v with
| json.Null => True
| json.Object members =>
    Forall
      (fun m => forall d, json.find_field fields (fst m) = Some d ->
                          forall t, snd (d (snd m) t) = json.Fine)
      members
| _ => False
end.
(** ** Declarations for the examples *)

(** Modelled from the spec: [Event_Header] and [dnsimple.Domain], which
    the events embed and point at and the source files do not declare,
    cut down to the name of the event and to the id and the name of a
    domain; the empty interface of a generic event holds the JSON value
    it was given. *)
Definition example_Declarations : webhook.Declarations := {|
  webhook.Header := string;
  webhook.Header_zero := "";
  webhook.Domain := Z * string;
  webhook.Domain_zero := (0, "");
  webhook.Any := option json.value;
  webhook.Any_nil := None
|}.

(** Modelled from the spec: how [encoding/json] decodes into them, the
    header under [name], the domain under [id] and [name]. *)
Definition example_Header_fields : list (string * json.decoder string) :=
[("name", json.into_string)].

Definition example_unmarshal_Domain : json.decoder (Z * string) :=
json.into_struct "dnsimple.Domain"
  [ ("id", json.field fst (fun n d => (n, snd d)) json.into_int);
    ("name", json.field snd (fun s d => (fst d, s)) json.into_string) ].

Definition example_unmarshal_Any : json.decoder (option json.value) :=
fun v _ => (match v with json.Null => None | _ => Some v end, json.Fine).

Definition example_Decoders : @webhook.Decoders example_Declarations :=
@webhook.Build_Decoders example_Declarations
  example_Header_fields example_unmarshal_Domain example_unmarshal_Any.

(** [switchEvent] on the example declarations, with [unmashalEvent]
    decoding JSON. *)
Definition example_switchEvent (name payload : string)
  : option (@webhook.Event example_Declarations) * option json.error :=
@webhook.switchEvent example_Declarations
  (@webhook.unmashalEvent_json example_Declarations example_Decoders) name payload.

(** A decoder of [http.Response] for the examples: the field is left as
    it is. *)
Definition example_unmarshal_http_Response : json.decoder http.Response :=
fun _ resp => (resp, json.Fine).

(** What [%v] prints outside the model, for the examples. *)
Definition example_Sprint_other : reflect.Value -> string := fun _ => "?".
(** ** Auxiliary definitions for the properties of the client *)

(** [n] bytes [c]. *)
Fixpoint run (c : ascii) (n : nat) : string :=
match n with
| O => ""
| S n' => String c (run c n')
end.

(** The URL of a request to the default base: the scheme and the host
    of the API, a path and a query. *)
Definition api_url (p q : string) : url.URL :=
url.mkURL "https" "" None "api.dnsimple.com" p "" false q "".

(** The transport of [c] answered a request of the given method with
    [resp], a response of the success range. *)
Definition sent_with (c : dnsimple.Client) (method : string) (resp : http.Response) : Prop :=
exists req,
  http.Method (http.Line req) = method /\
  dnsimple.HttpClient c req = inl resp /\
  200 <= http.StatusCode resp <= 299.

(** The three headers [NewRequest] sets itself, under their canonical
    keys. *)
Definition fixed_headers : list string := ["Content-Type"; "Accept"; "User-Agent"].

(** A call of a service that ended without an error: the struct
    returned is the body of the response decoded into the zero struct,
    with the response attached. *)
Definition answered {D} (c : dnsimple.Client) (method : string)
  (decode : string -> dnsimple.DataResponse (option D) ->
            dnsimple.DataResponse (option D) * option json.error)
  (out : option (dnsimple.DataResponse (option D)) * option dnsimple.failure) : Prop :=
snd out = None ->
exists resp decoded,
  sent_with c method resp /\
  decode (http.Body resp) (dnsimple.empty_response None) = (decoded, None) /\
  fst out = Some (dnsimple.with_HttpResponse decoded (Some resp)).

(** The same for a call that gives the client no place for the answer:
    nothing is decoded. *)
Definition acknowledged {D} (c : dnsimple.Client) (method : string)
  (out : option (dnsimple.DataResponse (option D)) * option dnsimple.failure) : Prop :=
snd out = None ->
exists resp,
  sent_with c method resp /\
  fst out = Some (dnsimple.with_HttpResponse (dnsimple.empty_response None) (Some resp)).

(** A JSON value without a member for the field [HttpResponse]: the
    field keeps what it holds when the value is decoded. *)
Definition spares_HttpResponse (v : json.value) : Prop :=
match v with
| json.Object members =>
    Forall (fun member => json.equalFold "HttpResponse" (fst member) = false) members
| _ => True
end.

(** An identifier that makes one segment of a path: not empty, without a
    slash, and of bytes that a path holds unescaped. *)
Definition segment (s : string) : bool :=
negb (String.eqb s "") && lacks ["/"]%char s && spec.path_bytes s.

(** A call that returns nil whenever it returns an error. *)
Definition nil_with_error {T} (out : option T * option dnsimple.failure) : Prop :=
snd out <> None -> fst out = None.

(** The decoder behind a pointer handed to the client. *)
Definition decoder_of {T} (obj : dnsimple.destination T) : string -> T -> T * option json.error :=
match obj with
| dnsimple.variable decode _ => decode
| _ => fun _ t => (t, None)
end.

(** The transport of [c] never answers with a response of the success
    range. *)
Definition refuses (c : dnsimple.Client) : Prop :=
forall req,
  match dnsimple.HttpClient c req with
  | inl resp => ~ 200 <= http.StatusCode resp <= 299
  | inr _ => True
  end.

(** The header [NewRequest] gives a request of [c]. *)
Definition request_header (Headers : dnsimple.Credentials -> list (string * string))
  (c : dnsimple.Client) : http.Header :=
fold_left (fun h entry => http.Add h (fst entry) (snd entry))
  (Headers (dnsimple.Credentials_ c))
  (http.Add (http.Add (http.Set_ ∅ "Content-Type" "application/json")
               "Accept" "application/json") "User-Agent" (dnsimple.UserAgent c)).


(** The body [NewRequest] writes for a payload, or the text of the error
    of the encoder: nothing for the nil interface. *)
Definition encoded {P} `{!json.Marshaler P} (payload : option P) : string + string :=
match payload with
| Some p => json.Encode p
| None => inl ""
end.

(** ** A client for the examples *)

(** A transport that answers every request with the same status code and
    body, and names the request in its answer. *)
Definition example_transport (code : Z) (body : string) : http.Outgoing -> http.Response + string :=
fun req => inl (http.mkResponse code ∅ body (Some (http.Line req))).

(** Credentials that bring the one header of [HttpHeader]. *)
Definition example_Headers (credentials : dnsimple.Credentials) : list (string * string) :=
[dnsimple.HttpHeader credentials].

Definition example_client (code : Z) (body : string) : dnsimple.Client :=
dnsimple.NewClient (example_transport code body) (dnsimple.NewOauthTokenCredentials "token").

(** An encoder for the examples, which writes every payload as the
    empty object. *)
Definition example_Marshaler (P : Type) : json.Marshaler P :=
fun _ => inl "{}".

(** * Properties *)

(** ** Bytes and strings *)

Lemma byte_val_range (c : ascii) : 0 <= byte.val c < 256.
Proof.
  unfold byte.val. pose proof (N_ascii_bounded c). lia.
Qed.

Lemma byte_of_val (c : ascii) : byte.of_Z (byte.val c) = c.
Proof.
  unfold byte.of_Z, byte.val. rewrite N2Z.id. apply ascii_N_embedding.
Qed.

Lemma str_app_nil_r (s : string) : s ++ "" = s.
Proof.
  induction s as [|c s IH]; [reflexivity|].
  change (String c s ++ "") with (String c (s ++ "")). now rewrite IH.
Qed.

Lemma str_app_assoc (s t u : string) : (s ++ t) ++ u = s ++ t ++ u.
Proof.
  induction s as [|c s IH]; [reflexivity|].
  change ((String c s ++ t) ++ u) with (String c ((s ++ t) ++ u)). now rewrite IH.
Qed.

Lemma string_eqb_refl' (s : string) : String.eqb s s = true.
Proof. apply String.eqb_eq. reflexivity. Qed.

(** Strings by blocks of three bytes. *)
Lemma string_triples (P : string -> Prop) :
  P "" ->
  (forall a, P (String a "")) ->
  (forall a b, P (String a (String b ""))) ->
  (forall a b c s, P s -> P (String a (String b (String c s)))) ->
  forall s, P s.
Proof.
  intros H0 H1 H2 H3. fix IH 1.
  intros [|a [|b [|c s]]]; [exact H0 | apply H1 | apply H2 | apply H3, IH].
Qed.

Lemma lacks_app (cs : list ascii) (s t : string) :
  lacks cs (s ++ t) = lacks cs s && lacks cs t.
Proof.
  induction s as [|c s IH]; [reflexivity|].
  change (String c s ++ t) with (String c (s ++ t)). cbn [lacks].
  rewrite IH, andb_assoc. reflexivity.
Qed.

Lemma lacks_weaken (cs ds : list ascii) (s : string) :
  (forall c, existsb (Ascii.eqb c) ds = true -> existsb (Ascii.eqb c) cs = true) ->
  lacks cs s = true -> lacks ds s = true.
Proof.
  intros Hsub. induction s as [|c s IH]; [reflexivity|]. cbn [lacks]. intros H.
  apply andb_prop in H as [Hc Hs]. rewrite (IH Hs), andb_true_r.
  apply negb_true_iff in Hc. apply negb_true_iff.
  destruct (existsb (Ascii.eqb c) ds) eqn:E; [|reflexivity].
  rewrite (Hsub c E) in Hc. discriminate.
Qed.

Lemma lacks_eqb (cs : list ascii) (c d : ascii) (s : string) :
  lacks cs (String c s) = true -> existsb (Ascii.eqb d) cs = true -> Ascii.eqb c d = false.
Proof.
  cbn [lacks]. intros H Hd. apply andb_prop in H as [Hc _]. apply negb_true_iff in Hc.
  destruct (Ascii.eqb c d) eqn:E; [|reflexivity].
  apply Ascii.eqb_eq in E. subst d. congruence.
Qed.

(** Cutting at a byte that the part before it lacks. *)
Lemma cut_app (c : ascii) (a b : string) :
  lacks [c] a = true -> strings.cut c (a ++ String c b) = Some (a, b).
Proof.
  induction a as [|x a IH]; intros Ha.
  - change ("" ++ String c b) with (String c b).
    cbn [strings.cut]. rewrite Ascii.eqb_refl. reflexivity.
  - change (String x a ++ String c b) with (String x (a ++ String c b)).
    cbn [strings.cut].
    rewrite (lacks_eqb [c] x c a Ha) by (cbn [existsb]; now rewrite Ascii.eqb_refl).
    cbn [lacks] in Ha. apply andb_prop in Ha as [_ Ha]. rewrite (IH Ha). reflexivity.
Qed.

Lemma cut_lacks (c : ascii) (s : string) : lacks [c] s = true -> strings.cut c s = None.
Proof.
  induction s as [|x s IH]; intros Hs; [reflexivity|].
  cbn [strings.cut].
  rewrite (lacks_eqb [c] x c s Hs) by (cbn [existsb]; now rewrite Ascii.eqb_refl).
  cbn [lacks] in Hs. apply andb_prop in Hs as [_ Hs]. rewrite (IH Hs). reflexivity.
Qed.

Lemma strip_last_lacks (c : ascii) (a b : string) :
  lacks [c] b = true -> b <> "" -> strings.strip_last c (a ++ b) = None.
Proof.
  intros Hb Hne. induction a as [|x a IH].
  - change ("" ++ b) with b. revert Hb Hne.
    induction b as [|y b IHb]; intros Hb Hne; [congruence|].
    cbn [strings.strip_last].
    pose proof (lacks_eqb [c] y c b Hb) as Hy.
    rewrite Hy by (cbn [existsb]; now rewrite Ascii.eqb_refl).
    cbn [lacks] in Hb. apply andb_prop in Hb as [_ Hb].
    destruct b as [|z b]; [reflexivity|].
    rewrite IHb by (try assumption; congruence). reflexivity.
  - change (String x a ++ b) with (String x (a ++ b)).
    cbn [strings.strip_last]. rewrite IH.
    destruct (a ++ b) eqn:E; [|reflexivity].
    destruct a; [|discriminate]. change ("" ++ b) with b in E. congruence.
Qed.

(** Inclusion between two explicit lists of bytes, as [lacks_weaken] asks. *)
Ltac sub_bytes :=
  let c := fresh "c" in
  intros c; unfold delimiters, separators; cbn [existsb];
  repeat match goal with |- context [Ascii.eqb c ?d] => destruct (Ascii.eqb c d) end;
  cbn; intros; solve [reflexivity | discriminate | assumption].
(** ** base64: decoding what was encoded *)

Lemma sextet_table : forallb sextet_ok (Z.of_nat <$> seq 0 64) = true.
Proof. vm_compute. reflexivity. Qed.

Lemma sextet_ok_range (n : Z) : 0 <= n < 64 -> sextet_ok n = true.
Proof.
  intros Hn. pose proof sextet_table as Ht.
  rewrite forallb_forall in Ht. apply Ht.
  apply in_map_iff. exists (Z.to_nat n). split; [lia|].
  apply in_seq. lia.
Qed.

Lemma decodeMap_encode (n : Z) : 0 <= n < 64 -> base64.decodeMap (base64.encode n) = Some n.
Proof.
  intros Hn. pose proof (sextet_ok_range n Hn) as H. unfold sextet_ok in H.
  repeat (apply andb_prop in H; destruct H as [H ?]).
  destruct (base64.decodeMap (base64.encode n)); [|discriminate].
  apply Z.eqb_eq in H. congruence.
Qed.

Lemma encode_not_pad (n : Z) : 0 <= n < 64 -> Ascii.eqb (base64.encode n) base64.padChar = false.
Proof.
  intros Hn. pose proof (sextet_ok_range n Hn) as H. unfold sextet_ok in H.
  repeat (apply andb_prop in H; destruct H as [H ?]).
  now apply negb_true_iff.
Qed.

Lemma encode_not_newline (n : Z) :
  0 <= n < 64 ->
  Ascii.eqb (base64.encode n) "010" || Ascii.eqb (base64.encode n) "013" = false.
Proof.
  intros Hn. pose proof (sextet_ok_range n Hn) as H. unfold sextet_ok in H.
  repeat (apply andb_prop in H; destruct H as [H ?]).
  apply orb_false_iff. split; now apply negb_true_iff.
Qed.

Lemma land_63_range (x : Z) : 0 <= Z.land x 63 < 64.
Proof.
  change 63 with (Z.ones 6). rewrite Z.land_ones by lia.
  apply Z.mod_pos_bound. lia.
Qed.

(** A bit-wise or of numbers with no bit in common is their sum. *)
Lemma lor_disjoint (y x n : Z) :
  0 <= n -> 0 <= x < 2 ^ n -> y mod 2 ^ n = 0 -> Z.lor y x = y + x.
Proof.
  intros Hn Hx Hy.
  rewrite <- (Z.add_lor_land y x).
  assert (Z.land y x = 0) as ->; [|lia].
  apply Z.bits_inj'; intros i Hi. rewrite Z.land_spec, Z.bits_0.
  destruct (Z.lt_ge_cases i n) as [Hlt|Hge].
  - rewrite <- (Z.mod_pow2_bits_low y n i Hlt), Hy, Z.bits_0. reflexivity.
  - assert (Z.testbit x i = false) as ->; [|apply andb_false_r].
    destruct (Z.eq_dec x 0) as [->|Hne]; [apply Z.bits_0|].
    apply Z.bits_above_log2; [lia|].
    assert (Z.log2 x < n) by (apply Z.log2_lt_pow2; lia). lia.
Qed.

Ltac arith := unfold byte.val in *; Z.div_mod_to_equations; lia.

Ltac unbit :=
  change 63 with (Z.ones 6);
  rewrite ?Z.land_ones, ?Z.shiftl_mul_pow2, ?Z.shiftr_div_pow2 by lia;
  change (2 ^ 18) with 262144; change (2 ^ 16) with 65536; change (2 ^ 12) with 4096;
  change (2 ^ 8) with 256; change (2 ^ 6) with 64; change (2 ^ 0) with 1.

Lemma val3 (a b c : Z) :
  0 <= a < 256 -> 0 <= b < 256 -> 0 <= c < 256 ->
  Z.lor (Z.lor (Z.shiftl a 16) (Z.shiftl b 8)) c = a * 65536 + b * 256 + c.
Proof.
  intros Ha Hb Hc. unbit.
  rewrite (lor_disjoint (a * 65536) (b * 256) 16) by (change (2 ^ 16) with 65536; arith).
  rewrite (lor_disjoint _ c 8) by (change (2 ^ 8) with 256; arith).
  reflexivity.
Qed.

Lemma quantum_sum (d0 d1 d2 d3 : Z) :
  0 <= d0 < 64 -> 0 <= d1 < 64 -> 0 <= d2 < 64 -> 0 <= d3 < 64 ->
  base64.quantum d0 d1 d2 d3 = d0 * 262144 + d1 * 4096 + d2 * 64 + d3.
Proof.
  intros H0 H1 H2 H3. unfold base64.quantum. unbit.
  rewrite (lor_disjoint (d0 * 262144) (d1 * 4096) 18) by (change (2 ^ 18) with 262144; arith).
  rewrite (lor_disjoint _ (d2 * 64) 12) by (change (2 ^ 12) with 4096; arith).
  rewrite (lor_disjoint _ d3 6) by (change (2 ^ 6) with 64; arith).
  reflexivity.
Qed.

(** The four symbols of a quantum decode to the six-bit values they
    stand for. *)
Lemma decode_quantum (d0 d1 d2 d3 : Z) (rest : string) :
  0 <= d0 < 64 -> 0 <= d1 < 64 -> 0 <= d2 < 64 -> 0 <= d3 < 64 ->
  base64.decode
    (String (base64.encode d0) (String (base64.encode d1)
       (String (base64.encode d2) (String (base64.encode d3) rest)))) =
  let val := base64.quantum d0 d1 d2 d3 in
  let '(out, err) := base64.decode rest in
  (String (base64.byte_at val 16) (String (base64.byte_at val 8)
     (String (base64.byte_at val 0) out)), err).
Proof.
  intros H0 H1 H2 H3.
  cbn [base64.decode].
  rewrite !decodeMap_encode, !encode_not_pad by assumption.
  reflexivity.
Qed.

Lemma decode_quantum_pad1 (d0 d1 d2 : Z) :
  0 <= d0 < 64 -> 0 <= d1 < 64 -> 0 <= d2 < 64 ->
  base64.decode
    (String (base64.encode d0) (String (base64.encode d1)
       (String (base64.encode d2) (String base64.padChar "")))) =
  let val := base64.quantum d0 d1 d2 0 in
  (String (base64.byte_at val 16) (String (base64.byte_at val 8) ""), None).
Proof.
  intros H0 H1 H2.
  cbn [base64.decode].
  rewrite !decodeMap_encode, !encode_not_pad by assumption.
  reflexivity.
Qed.

Lemma decode_quantum_pad2 (d0 d1 : Z) :
  0 <= d0 < 64 -> 0 <= d1 < 64 ->
  base64.decode
    (String (base64.encode d0) (String (base64.encode d1)
       (String base64.padChar (String base64.padChar "")))) =
  (String (base64.byte_at (base64.quantum d0 d1 0 0) 16) "", None).
Proof.
  intros H0 H1.
  cbn [base64.decode].
  rewrite !decodeMap_encode by assumption.
  reflexivity.
Qed.

Lemma byte_at_of (val k : Z) (c : ascii) :
  0 <= k -> (val / 2 ^ k) mod 256 = byte.val c -> base64.byte_at val k = c.
Proof.
  intros Hk H. unfold base64.byte_at.
  rewrite Z.shiftr_div_pow2, H by lia. apply byte_of_val.
Qed.

(** Decoding what was encoded gives the bytes back. *)
Lemma decode_EncodeToString (s : string) :
  base64.decode (base64.EncodeToString s) = (s, None).
Proof.
  induction s as [|a|a b|a b c s IH] using string_triples.
  - reflexivity.
  - cbn [base64.EncodeToString].
    pose proof (byte_val_range a) as Ha.
    rewrite decode_quantum_pad2 by apply land_63_range.
    rewrite quantum_sum by (try apply land_63_range; lia).
    f_equal. f_equal. apply byte_at_of; [lia|].
    unbit. change (2 ^ 16) with 65536. Z.div_mod_to_equations; lia.
  - cbn [base64.EncodeToString].
    pose proof (byte_val_range a) as Ha. pose proof (byte_val_range b) as Hb.
    rewrite decode_quantum_pad1 by apply land_63_range. cbv zeta.
    rewrite quantum_sum by (try apply land_63_range; lia).
    replace (Z.lor (Z.shiftl (byte.val a) 16) (Z.shiftl (byte.val b) 8))
      with (byte.val a * 65536 + byte.val b * 256 + 0)
      by (rewrite <- (val3 _ _ 0), Z.lor_0_r by lia; reflexivity).
    f_equal. f_equal; [|f_equal]; (apply byte_at_of; [lia|]);
      unbit; change (2 ^ 16) with 65536; change (2 ^ 8) with 256;
      Z.div_mod_to_equations; lia.
  - cbn [base64.EncodeToString].
    pose proof (byte_val_range a) as Ha. pose proof (byte_val_range b) as Hb.
    pose proof (byte_val_range c) as Hc.
    rewrite decode_quantum by apply land_63_range. cbv zeta.
    rewrite IH.
    rewrite quantum_sum by apply land_63_range.
    rewrite val3 by assumption.
    f_equal. f_equal; [|f_equal; [|f_equal]]; (apply byte_at_of; [lia|]);
      unbit; change (2 ^ 16) with 65536; change (2 ^ 8) with 256;
      Z.div_mod_to_equations; lia.
Qed.

Lemma strip_newlines_EncodeToString (s : string) :
  base64.strip_newlines (base64.EncodeToString s) = base64.EncodeToString s.
Proof.
  induction s as [|a|a b|a b c s IH] using string_triples;
    cbn [base64.EncodeToString base64.strip_newlines];
    rewrite ?encode_not_newline by apply land_63_range;
    rewrite ?IH; reflexivity.
Qed.

(** [DecodeString] undoes [EncodeToString]. *)
Lemma DecodeString_EncodeToString (s : string) :
  base64.DecodeString (base64.EncodeToString s) = (s, None).
Proof.
  unfold base64.DecodeString.
  rewrite strip_newlines_EncodeToString. apply decode_EncodeToString.
Qed.
(** ** strconv: values that are not numeric *)

Lemma is_digit_val (c : ascii) :
  byte.is_digit c = true -> 0 <= byte.val c - byte.val "0" <= 9.
Proof.
  unfold byte.is_digit, byte.between. intros H.
  apply andb_prop in H as [H1 H2]. apply Z.leb_le in H1, H2.
  change (byte.val "0") with 48 in *. change (byte.val "9") with 57 in *. lia.
Qed.

Lemma digits_value_mono (d : string) (n : Z) : 0 <= n ->
  Forall (fun c => byte.is_digit c = true) (list_ascii_of_string d) ->
  n <= spec.digits_value n d.
Proof.
  revert n. induction d as [|c d IH]; intros n Hn Hd; cbn; [lia|].
  cbn in Hd. inversion Hd as [|? ? Hc Hd']; subst.
  pose proof (is_digit_val c Hc).
  etransitivity; [|apply IH; [lia|assumption]]. lia.
Qed.

Lemma span_digits_digits (s : string) :
  Forall (fun c => byte.is_digit c = true)
    (list_ascii_of_string (fst (strings.span_digits s))).
Proof.
  induction s as [|c s IH]; cbn; [constructor|].
  destruct (byte.is_digit c) eqn:Hc; [|constructor].
  destruct (strings.span_digits s) as [d r]. cbn in *. constructor; assumption.
Qed.

(** The digit loop on input whose leading digits stay below [2 ^ 64]:
    the number when the digits are all there is, a syntax error at the
    first other byte. *)
Lemma ParseUint_loop_below (s : string) (n : Z) :
  0 <= n ->
  spec.digits_value n (fst (strings.span_digits s)) < 2 ^ 64 ->
  strconv.ParseUint_loop 64 s n =
  match snd (strings.span_digits s) with
  | "" => (spec.digits_value n (fst (strings.span_digits s)), None)
  | _ => (0, Some strconv.ErrSyntax)
  end.
Proof.
  revert n. induction s as [|c s IH]; intros n Hn Hlt; [reflexivity|].
  cbn [strconv.ParseUint_loop strings.span_digits] in *.
  destruct (byte.is_digit c) eqn:Hc; [|reflexivity].
  pose proof (is_digit_val c Hc) as Hv.
  pose proof (span_digits_digits s) as Hds.
  destruct (strings.span_digits s) as [d r] eqn:Hsp. cbn [fst snd] in *.
  cbn [spec.digits_value] in Hlt.
  pose proof (digits_value_mono d (n * 10 + (byte.val c - byte.val "0")) ltac:(lia) Hds) as Hmono.
  change (strconv.maxUint64 / 10 + 1) with 1844674407370955162.
  change (strconv.wrap64 (strconv.wrap64 (2 ^ 64) - 1)) with 18446744073709551615.
  change (2 ^ 64) with 18446744073709551616 in *.
  destruct (1844674407370955162 <=? n) eqn:Hcut; [apply Z.leb_le in Hcut; lia|].
  apply Z.leb_gt in Hcut.
  unfold strconv.wrap64. change (2 ^ 64) with 18446744073709551616.
  rewrite (Z.mod_small (n * 10)) by lia.
  rewrite (Z.mod_small (n * 10 + _)) by lia.
  replace (n * 10 + (byte.val c - byte.val "0") <? n * 10) with false
    by (symmetry; apply Z.ltb_ge; lia).
  replace (18446744073709551615 <? n * 10 + (byte.val c - byte.val "0")) with false
    by (symmetry; apply Z.ltb_ge; lia).
  cbn [orb]. rewrite IH by (cbn [fst]; lia). reflexivity.
Qed.

Lemma span_digits_nil (s : string) : strings.span_digits s = ("", "") -> s = "".
Proof.
  destruct s as [|c s]; [reflexivity|]. cbn.
  destruct (byte.is_digit c); [|discriminate].
  destruct (strings.span_digits s). discriminate.
Qed.

(** [ParseUint] on a value that is not a run of digits and whose leading
    digits stay below [2 ^ 64]. *)
Lemma ParseUint_not_digits (body : string) :
  match strings.span_digits body with (String _ _, "") => false | _ => true end = true ->
  spec.digits_value 0 (fst (strings.span_digits body)) < 2 ^ 64 ->
  strconv.ParseUint body 64 = (0, Some (strconv.mkNumError "ParseUint" body strconv.ErrSyntax)).
Proof.
  intros Hnum Hlead. unfold strconv.ParseUint. change (if 64 =? 0 then _ else _) with 64.
  destruct body as [|b body'] eqn:Hbody; [reflexivity|]. rewrite <- Hbody in *.
  rewrite ParseUint_loop_below by (try assumption; lia).
  destruct (strings.span_digits body) as [d r] eqn:Hsp.
  cbn [fst snd] in *. destruct r; [|reflexivity].
  destruct d; [|discriminate].
  apply span_digits_nil in Hsp. congruence.
Qed.

(** A value that is not numeric and whose leading digits stay below
    [2 ^ 64] is a syntax error, and the number returned with it is 0. *)
Lemma ParseInt_not_numeric (s : string) (bitSize : Z) :
  bitSize = 0 \/ bitSize = 64 ->
  spec.numeric s = false ->
  spec.leading_number s < 2 ^ 64 ->
  strconv.ParseInt s bitSize = (0, Some (strconv.mkNumError "ParseInt" s strconv.ErrSyntax)).
Proof.
  intros Hb Hnum Hlead.
  assert ((if bitSize =? 0 then strconv.IntSize else bitSize) = 64) as Hbits
    by (destruct Hb as [-> | ->]; reflexivity).
  unfold strconv.ParseInt. rewrite Hbits.
  destruct s as [|c rest]; [reflexivity|].
  unfold spec.numeric, spec.leading_number in *.
  assert (forall body,
            body = (if Ascii.eqb c "+" || Ascii.eqb c "-" then rest else String c rest) ->
            strconv.ParseUint body 64 =
            (0, Some (strconv.mkNumError "ParseUint" body strconv.ErrSyntax))) as Hu.
  { intros body ->. apply ParseUint_not_digits; [|assumption].
    destruct (strings.span_digits _) as [[|? ?] [|? ?]]; try reflexivity. discriminate. }
  destruct (Ascii.eqb c "+") eqn:Hplus; [rewrite (Hu rest eq_refl); reflexivity|].
  destruct (Ascii.eqb c "-") eqn:Hminus; [rewrite (Hu rest eq_refl); reflexivity|].
  rewrite (Hu (String c rest) eq_refl). reflexivity.
Qed.
(** ** net/url: parsing and printing plain paths *)

(** A byte that needs no escaping in a path is none of those that do. *)
Lemma path_byte_not (c d : ascii) :
  url.shouldEscape c url.encodePath = false ->
  url.shouldEscape d url.encodePath = true ->
  Ascii.eqb c d = false.
Proof.
  intros Hc Hd. destruct (Ascii.eqb c d) eqn:E; [|reflexivity].
  apply Ascii.eqb_eq in E. congruence.
Qed.

Lemma path_bytes_lacks (c : ascii) (s : string) :
  url.shouldEscape c url.encodePath = true ->
  spec.path_bytes s = true -> lacks [c] s = true.
Proof.
  intros Hc. induction s as [|a s IH]; intros Hs; [reflexivity|].
  cbn [spec.path_bytes lacks existsb] in *. apply andb_prop in Hs as [Ha Hs].
  apply negb_true_iff in Ha.
  rewrite (path_byte_not a c Ha Hc), (IH Hs). reflexivity.
Qed.

Lemma path_bytes_unescape (s : string) :
  spec.path_bytes s = true -> url.unescape s url.encodePath = inl s.
Proof.
  induction s as [|a s IH]; intros Hs; [reflexivity|].
  cbn in Hs. apply andb_prop in Hs as [Ha Hs]. apply negb_true_iff in Ha.
  assert (Ascii.eqb a "%" = false) as Hpct by (apply (path_byte_not a "%" Ha); reflexivity).
  apply Ascii.eqb_neq in Hpct.
  cbn [url.unescape].
  destruct a as [[] [] [] [] [] [] [] []]; try congruence;
    cbn [url.is_host_mode andb]; rewrite ?andb_false_r; rewrite (IH Hs); reflexivity.
Qed.

Lemma path_bytes_escape (s : string) :
  spec.path_bytes s = true -> url.escape s url.encodePath = s.
Proof.
  induction s as [|a s IH]; intros Hs; [reflexivity|].
  cbn in Hs. apply andb_prop in Hs as [Ha Hs]. apply negb_true_iff in Ha.
  cbn [url.escape]. rewrite andb_false_r, Ha, (IH Hs). reflexivity.
Qed.

Lemma plain_path_inv (p : string) :
  spec.plain_path p = true ->
  exists rest, p = String "/" rest /\ spec.path_bytes p = true /\
               strings.HasPrefix p "//" = false.
Proof.
  unfold spec.plain_path. intros H.
  destruct p as [|c rest]; [discriminate|].
  destruct (Ascii.eqb c "/") eqn:Hc.
  - apply Ascii.eqb_eq in Hc. subst c. exists rest. split; [reflexivity|].
    destruct rest as [|d rest']; [split; reflexivity|].
    destruct (Ascii.eqb d "/") eqn:Hd.
    + apply Ascii.eqb_eq in Hd. subst d. discriminate.
    + split.
      * cbn [spec.path_bytes]. cbn in H |- *.
        destruct d as [[] [] [] [] [] [] [] []]; cbn in Hd |- *; try discriminate; exact H.
      * cbn. rewrite Hd. reflexivity.
  - exfalso. destruct c as [[] [] [] [] [] [] [] []]; cbn in Hc, H; discriminate.
Qed.

Lemma EscapedPath_plain (p q : string) :
  spec.plain_path p = true -> url.EscapedPath (path_url p q) = p.
Proof.
  intros Hp. destruct (plain_path_inv p Hp) as (rest & -> & Hb & _).
  unfold url.EscapedPath, path_url. cbn [url.RawPath url.Path].
  change (String.eqb "" "") with true. cbn [negb andb].
  rewrite (path_bytes_escape _ Hb).
  destruct rest; reflexivity.
Qed.

(** A plain path, with a query or without one, parses to a URL that is
    only that path and that query. *)
Lemma Parse_plain_query (p q : string) :
  spec.plain_path p = true ->
  lacks ["?"; "#"]%char q = true ->
  url.Parse (p ++ (if String.eqb q "" then "" else "?" ++ q)) = inl (path_url p q).
Proof.
  intros Hp Hq.
  pose proof (EscapedPath_plain p q Hp) as Hesc.
  destruct (plain_path_inv p Hp) as (rest & Hpe & Hb & Hnn).
  pose proof (path_bytes_lacks "?" p eq_refl Hb) as Hpq.
  pose proof (path_bytes_lacks "#" p eq_refl Hb) as Hph.
  assert (lacks ["?"]%char q = true) as Hq1.
  { revert Hq. apply lacks_weaken. sub_bytes. }
  assert (lacks ["#"]%char q = true) as Hq2.
  { revert Hq. apply lacks_weaken. sub_bytes. }
  set (s := p ++ (if String.eqb q "" then "" else "?" ++ q)).
  assert (strings.cut "#" s = None) as Hcut_hash.
  { apply cut_lacks. subst s. rewrite lacks_app, Hph.
    destruct (String.eqb q ""); [reflexivity|].
    change ("?" ++ q) with (String "?" q). cbn [lacks existsb]. rewrite Hq2. reflexivity. }
  assert (strings.strip_last "?" s = None /\ url.split s "?" true = (p, q)) as [Hstrip Hsplit].
  { subst s. unfold url.split. destruct (String.eqb q "") eqn:Eq.
    - apply String.eqb_eq in Eq. subst q. rewrite str_app_nil_r.
      rewrite (cut_lacks "?" p Hpq). split; [|reflexivity].
      rewrite <- (str_app_nil_r p) at 1.
      destruct p as [|c p']; [discriminate|].
      rewrite Hpe in *. clear -Hpq.
      change (String "/" rest ++ "") with ("" ++ String "/" rest ++ "").
      rewrite str_app_nil_r. apply strip_last_lacks; [assumption|discriminate].
    - apply String.eqb_neq in Eq. change ("?" ++ q) with (String "?" q).
      rewrite (cut_app "?" p q Hpq). split; [|reflexivity].
      change (p ++ String "?" q) with (p ++ "?" ++ q). rewrite <- str_app_assoc.
      apply strip_last_lacks; assumption. }
  unfold url.Parse. unfold url.split at 1. rewrite Hcut_hash.
  assert (url.parse s = inl (path_url p q)) as ->; [|reflexivity].
  unfold url.parse.
  assert (String.eqb s "*" = false) as ->.
  { subst s. rewrite Hpe. destruct rest; [destruct (String.eqb q "")|]; reflexivity. }
  assert (url.getscheme s = inl ("", s)) as -> by (subst s; rewrite Hpe; reflexivity).
  cbn [strings.ToLower]. rewrite Hstrip, Hsplit. rewrite Hpe in *.
  change (strings.HasPrefix (String "/" rest) "/") with true.
  change (String.eqb "" "") with true. cbn [negb andb orb].
  assert (strings.HasPrefix (String "/" rest) "///" = false) as Hn3.
  { cbn in Hnn |- *. destruct rest as [|d r]; [reflexivity|].
    cbn in Hnn |- *. destruct (Ascii.eqb d "/"); [discriminate|reflexivity]. }
  rewrite Hn3, Hnn. cbn [negb andb orb]. cbv iota beta.
  rewrite (path_bytes_unescape _ Hb).
  fold (path_url (String "/" rest) q). rewrite Hesc, string_eqb_refl'. reflexivity.
Qed.

Lemma Parse_plain (p : string) :
  spec.plain_path p = true -> url.Parse p = inl (path_url p "").
Proof.
  intros Hp. pose proof (Parse_plain_query p "" Hp eq_refl) as H.
  change (if String.eqb "" "" then "" else "?" ++ "") with "" in H.
  rewrite str_app_nil_r in H. exact H.
Qed.

(** Printing a URL that is a plain path and a query. *)
Lemma String_plain (p q : string) :
  spec.plain_path p = true ->
  url.String_ (path_url p q) = p ++ (if String.eqb q "" then "" else "?" ++ q).
Proof.
  intros Hp. unfold url.String_. rewrite (EscapedPath_plain p q Hp).
  destruct (plain_path_inv p Hp) as (rest & -> & _ & _).
  cbn [path_url url.Scheme url.Opaque url.User url.Host url.ForceQuery url.RawQuery url.Fragment].
  change (String.eqb "" "") with true. cbn [negb orb].
  change (Ascii.eqb "/" "/") with true. cbn [negb andb].
  destruct (String.eqb q ""); cbn [negb]; cbn;
    change (String.append "") with (fun s : string => s); cbv beta;
    rewrite !str_app_nil_r; reflexivity.
Qed.
(** ** The order of strings *)

Lemma ascii_compare_refl (a : ascii) : Ascii.compare a a = Eq.
Proof. unfold Ascii.compare. apply N.compare_refl. Qed.

Lemma string_leb_trans (s t u : string) :
  String.leb s t = true -> String.leb t u = true -> String.leb s u = true.
Proof.
  unfold String.leb.
  revert t u. induction s as [|a s IH]; intros [|b t] [|c u]; cbn; try congruence.
  unfold Ascii.compare.
  destruct (N.compare_spec (N_of_ascii a) (N_of_ascii b)) as [Hab|Hab|Hab]; try congruence.
  - rewrite Hab. destruct (N.compare_spec (N_of_ascii b) (N_of_ascii c)); try congruence.
    apply IH.
  - destruct (N.compare_spec (N_of_ascii b) (N_of_ascii c)) as [Hbc|Hbc|Hbc]; try congruence.
    + rewrite <- Hbc. apply N.compare_lt_iff in Hab. rewrite Hab. reflexivity.
    + assert (N_of_ascii a < N_of_ascii c)%N as Hac by lia.
      apply N.compare_lt_iff in Hac. rewrite Hac. reflexivity.
Qed.

#[local] Instance strings_le_trans : Transitive strings.le.
Proof. intros s t u. apply string_leb_trans. Qed.

#[local] Instance strings_le_total : Total strings.le.
Proof. intros s t. apply String.leb_total. Qed.

#[local] Instance strings_le_antisym : AntiSymm eq strings.le.
Proof. intros s t. apply String.leb_antisym. Qed.

(** ** Escaping a query component and back *)

Lemma hex_table : forallb hex_ok (Z.of_nat <$> seq 0 16) = true.
Proof. vm_compute. reflexivity. Qed.

Lemma hex_ok_range (n : Z) : 0 <= n < 16 -> hex_ok n = true.
Proof.
  intros Hn. pose proof hex_table as Ht.
  rewrite forallb_forall in Ht. apply Ht.
  apply in_map_iff. exists (Z.to_nat n). split; [lia|].
  apply in_seq. lia.
Qed.

Lemma hexdigit_facts (n : Z) :
  0 <= n < 16 ->
  url.ishex (url.hexdigit n) = true /\ url.unhex (url.hexdigit n) = n /\
  Ascii.eqb (url.hexdigit n) "&" = false /\ Ascii.eqb (url.hexdigit n) ";" = false /\
  Ascii.eqb (url.hexdigit n) "=" = false /\ Ascii.eqb (url.hexdigit n) "?" = false /\
  Ascii.eqb (url.hexdigit n) "#" = false.
Proof.
  intros Hn. pose proof (hex_ok_range n Hn) as H. unfold hex_ok in H.
  apply andb_prop in H as [H H7]. apply andb_prop in H as [H H6].
  apply andb_prop in H as [H H5]. apply andb_prop in H as [H H4].
  apply andb_prop in H as [H H3]. apply andb_prop in H as [H1 H2].
  apply Z.eqb_eq in H2. apply negb_true_iff in H3, H4, H5, H6, H7. tauto.
Qed.

Lemma byte_nibbles (c : ascii) :
  0 <= byte.val c / 16 < 16 /\ 0 <= byte.val c mod 16 < 16 /\
  byte.val c / 16 * 16 + byte.val c mod 16 = byte.val c.
Proof. pose proof (byte_val_range c). repeat split; Z.div_mod_to_equations; lia. Qed.

(** The bytes of an escaped query component: none of them delimits a
    part of a query. *)
Lemma shouldEscape_query_cases (c : ascii) :
  url.shouldEscape c url.encodeQueryComponent = false ->
  Ascii.eqb c "%" = false /\ Ascii.eqb c "+" = false /\ Ascii.eqb c "&" = false /\
  Ascii.eqb c ";" = false /\ Ascii.eqb c "=" = false /\ Ascii.eqb c "?" = false /\
  Ascii.eqb c "#" = false /\ Ascii.eqb c " " = false.
Proof.
  intros H. repeat split;
    match goal with |- Ascii.eqb c ?d = false =>
      destruct (Ascii.eqb c d) eqn:E; [|reflexivity];
      apply Ascii.eqb_eq in E; subst c; discriminate
    end.
Qed.

Lemma QueryEscape_lacks_delimiters (s : string) : lacks delimiters (url.QueryEscape s) = true.
Proof.
  unfold url.QueryEscape. induction s as [|c s IH]; [reflexivity|].
  cbn [url.escape]. rewrite andb_true_r.
  destruct (Ascii.eqb c " ") eqn:Hsp; [cbn; exact IH|].
  destruct (url.shouldEscape c url.encodeQueryComponent) eqn:Hc.
  - destruct (byte_nibbles c) as (Hhi & Hlo & _).
    destruct (hexdigit_facts _ Hhi) as (_ & _ & H1 & H2 & H3 & H4 & H5).
    destruct (hexdigit_facts _ Hlo) as (_ & _ & H6 & H7 & H8 & H9 & H10).
    cbn [lacks delimiters existsb].
    rewrite H1, H2, H3, H4, H5, H6, H7, H8, H9, H10, IH. reflexivity.
  - destruct (shouldEscape_query_cases c Hc) as (_ & _ & H1 & H2 & H3 & H4 & H5 & _).
    cbn [lacks delimiters existsb]. rewrite H1, H2, H3, H4, H5, IH. reflexivity.
Qed.

Lemma QueryEscape_lacks (cs : list ascii) (s : string) :
  (forall c, existsb (Ascii.eqb c) cs = true -> existsb (Ascii.eqb c) delimiters = true) ->
  lacks cs (url.QueryEscape s) = true.
Proof. intros Hsub. apply (lacks_weaken delimiters); [exact Hsub|apply QueryEscape_lacks_delimiters]. Qed.

Lemma unescape_percent (h1 h2 : ascii) (s : string) :
  url.ishex h1 = true -> url.ishex h2 = true ->
  url.unescape (String "%" (String h1 (String h2 s))) url.encodeQueryComponent =
  match url.unescape s url.encodeQueryComponent with
  | inl t => inl (String (byte.of_Z (url.unhex h1 * 16 + url.unhex h2)) t)
  | inr e => inr e
  end.
Proof. intros H1 H2. cbn [url.unescape]. rewrite H1, H2. reflexivity. Qed.

Lemma unescape_plain (c : ascii) (s : string) :
  Ascii.eqb c "%" = false ->
  url.unescape (String c s) url.encodeQueryComponent =
  match url.unescape s url.encodeQueryComponent with
  | inl t => inl (String (if Ascii.eqb c "+" then " "%char else c) t)
  | inr e => inr e
  end.
Proof.
  intros Hc. apply Ascii.eqb_neq in Hc.
  destruct c as [[] [] [] [] [] [] [] []]; try congruence; cbn [url.unescape];
    cbn [url.is_host_mode andb]; rewrite ?andb_true_r; reflexivity.
Qed.

(** Unescaping what was escaped gives the component back. *)
Lemma QueryUnescape_QueryEscape (s : string) :
  url.QueryUnescape (url.QueryEscape s) = inl s.
Proof.
  unfold url.QueryUnescape, url.QueryEscape. induction s as [|c s IH]; [reflexivity|].
  cbn [url.escape]. rewrite andb_true_r.
  destruct (Ascii.eqb c " ") eqn:Hsp.
  - apply Ascii.eqb_eq in Hsp. subst c.
    rewrite unescape_plain by reflexivity. rewrite IH. reflexivity.
  - destruct (url.shouldEscape c url.encodeQueryComponent) eqn:Hc.
    + destruct (byte_nibbles c) as (Hhi & Hlo & Hsum).
      destruct (hexdigit_facts _ Hhi) as (X1 & U1 & _).
      destruct (hexdigit_facts _ Hlo) as (X2 & U2 & _).
      rewrite unescape_percent by assumption.
      rewrite IH, U1, U2, Hsum, byte_of_val. reflexivity.
    + destruct (shouldEscape_query_cases c Hc) as (Hpct & Hplus & _).
      rewrite unescape_plain by assumption. rewrite IH, Hplus. reflexivity.
Qed.

(** ** Parsing an encoded query *)

Lemma pieces_lacks (x : string) : lacks separators x = true -> url.pieces x = [x].
Proof.
  induction x as [|c x IH]; [reflexivity|]. cbn [lacks separators existsb url.pieces]. intros H.
  apply andb_prop in H as [H Hx]. apply negb_true_iff in H.
  rewrite orb_false_r in H. rewrite H. rewrite (IH Hx). reflexivity.
Qed.

Lemma pieces_app (x r : string) :
  lacks separators x = true -> url.pieces (x ++ String "&" r) = x :: url.pieces r.
Proof.
  induction x as [|c x IH]; [reflexivity|]. cbn [lacks separators existsb]. intros H.
  apply andb_prop in H as [H Hx]. apply negb_true_iff in H. rewrite orb_false_r in H.
  change (String c x ++ String "&" r) with (String c (x ++ String "&" r)).
  cbn [url.pieces]. rewrite H. rewrite (IH Hx). reflexivity.
Qed.

Lemma parsePair_empty (acc : url.Values * option url.cause) :
  url.parsePair acc "" = acc.
Proof. destruct acc. reflexivity. Qed.

(** The pieces of parameters joined by [&] are the parameters. *)
Lemma fold_pieces_concat (items : list string) (acc : url.Values * option url.cause) :
  Forall (fun x => lacks separators x = true) items ->
  fold_left url.parsePair (url.pieces (String.concat "&" items)) acc
  = fold_left url.parsePair items acc.
Proof.
  intros Hitems. revert acc. induction Hitems as [|x items Hx Hitems IH]; intros acc.
  - cbn. apply parsePair_empty.
  - destruct items as [|y items].
    + cbn [String.concat]. rewrite (pieces_lacks x Hx). reflexivity.
    + change (String.concat "&" (x :: y :: items))
        with (x ++ String "&" (String.concat "&" (y :: items))).
      rewrite (pieces_app x _ Hx). cbn [fold_left]. apply IH.
Qed.

(** An item has no byte that ends it: neither a separator, nor the marks
    of a query and of a fragment. *)
Lemma item_lacks (cs : list ascii) (kx : string * string) :
  (forall c, existsb (Ascii.eqb c) cs = true -> existsb (Ascii.eqb c) delimiters = true) ->
  existsb (Ascii.eqb "=") cs = false ->
  lacks cs (item kx) = true.
Proof.
  intros Hsub Heq. unfold item. rewrite lacks_app.
  change ("=" ++ url.QueryEscape (snd kx)) with (String "=" (url.QueryEscape (snd kx))).
  cbn [lacks]. rewrite Heq, !QueryEscape_lacks by exact Hsub. reflexivity.
Qed.

Lemma concat_lacks (cs : list ascii) (sep : string) (l : list string) :
  lacks cs sep = true -> Forall (fun x => lacks cs x = true) l ->
  lacks cs (String.concat sep l) = true.
Proof.
  intros Hsep Hl. induction Hl as [|x l Hx Hl IH]; [reflexivity|].
  destruct l as [|y l]; [exact Hx|].
  change (String.concat sep (x :: y :: l)) with (x ++ sep ++ String.concat sep (y :: l)).
  rewrite !lacks_app, Hx, Hsep, IH. reflexivity.
Qed.

Lemma item_not_empty (kx : string * string) : String.eqb (item kx) "" = false.
Proof.
  unfold item. destruct (url.QueryEscape (fst kx)); reflexivity.
Qed.

Lemma parsePair_item (m : url.Values) (err : option url.cause) (kx : string * string) :
  url.parsePair (m, err) (item kx) = (add_pair m kx, err).
Proof.
  unfold url.parsePair. rewrite item_not_empty.
  unfold item at 1.
  change ("=" ++ url.QueryEscape (snd kx)) with (String "=" (url.QueryEscape (snd kx))).
  rewrite cut_app by (apply QueryEscape_lacks; sub_bytes).
  rewrite !QueryUnescape_QueryEscape. reflexivity.
Qed.

Lemma fold_parsePair_items (ps : list (string * string)) (m : url.Values) :
  fold_left url.parsePair (item <$> ps) (m, None) = (fold_left add_pair ps m, None).
Proof.
  revert m. induction ps as [|kx ps IH]; intros m; [reflexivity|].
  cbn [fmap list_fmap fold_left]. rewrite parsePair_item. apply IH.
Qed.

Lemma Encode_pairs (v : url.Values) :
  url.Encode v = String.concat "&" (item <$> pairs v).
Proof.
  unfold url.Encode, pairs. f_equal.
  induction (url.sorted_keys v) as [|k ks IH]; [reflexivity|].
  cbn [mbind list_bind]. rewrite fmap_app, <- IH. f_equal.
  rewrite <- list_fmap_compose. reflexivity.
Qed.

Lemma ParseQuery_fold (q : string) :
  url.ParseQuery q = fold_left url.parsePair (url.pieces q) (∅, None).
Proof. destruct q; reflexivity. Qed.

(** Parsing an encoded map adds its pairs one by one. *)
Lemma ParseQuery_Encode (v : url.Values) :
  url.ParseQuery (url.Encode v) = (fold_left add_pair (pairs v) ∅, None).
Proof.
  rewrite ParseQuery_fold, Encode_pairs, fold_pieces_concat.
  - apply fold_parsePair_items.
  - apply Forall_fmap, Forall_forall. intros kx _. apply item_lacks; [sub_bytes|reflexivity].
Qed.

(** ** From the pairs back to the map *)

Lemma fold_add_key (k : string) (l : list string) (m : url.Values) :
  fold_left add_pair ((fun x => (k, x)) <$> l) m =
  match l with
  | [] => m
  | _ => <[k := (default [] (m !! k) ++ l)%list]> m
  end.
Proof.
  revert m. induction l as [|x l IH]; intros m; [reflexivity|].
  cbn [fmap list_fmap fold_left]. rewrite IH.
  unfold add_pair, url.Add. cbn [fst snd].
  destruct l as [|y l]; [reflexivity|].
  rewrite lookup_insert_eq. cbn [default].
  rewrite insert_insert_eq. unfold id.
  rewrite <- app_assoc. reflexivity.
Qed.

Lemma fold_add_keys (vs : string -> list string) (ks : list string) :
  NoDup ks ->
  forall (m : url.Values) (j : string),
    fold_left add_pair (k ← ks; (fun x => (k, x)) <$> vs k) m !! j =
    if decide (j ∈ ks) then
      match vs j with
      | [] => m !! j
      | l => Some (default [] (m !! j) ++ l)%list
      end
    else m !! j.
Proof.
  induction 1 as [|k ks Hk Hks IH]; intros m j.
  - cbn. destruct (decide (j ∈ [])) as [Hin|]; [|reflexivity].
    apply elem_of_nil in Hin. contradiction.
  - cbn [mbind list_bind]. rewrite fold_left_app, IH, fold_add_key.
    destruct (decide (j ∈ ks)) as [Hj|Hj].
    + assert (j <> k) as Hne by (intros ->; contradiction).
      rewrite decide_True by (apply elem_of_cons; auto).
      assert ((match vs k with
               | [] => m
               | _ => <[k := (default [] (m !! k) ++ vs k)%list]> m
               end) !! j = m !! j) as ->; [|reflexivity].
      destruct (vs k); [reflexivity|]. rewrite lookup_insert_ne by congruence. reflexivity.
    + destruct (decide (j = k)) as [->|Hne].
      * rewrite decide_True by (apply elem_of_cons; auto).
        destruct (vs k); [reflexivity|]. apply lookup_insert_eq.
      * rewrite decide_False by (rewrite elem_of_cons; tauto).
        destruct (vs k); [reflexivity|]. rewrite lookup_insert_ne by congruence. reflexivity.
Qed.

Lemma sorted_keys_Permutation (v : url.Values) :
  url.sorted_keys v ≡ₚ (map_to_list v).*1.
Proof. apply merge_sort_Permutation. Qed.

Lemma sorted_keys_NoDup (v : url.Values) : NoDup (url.sorted_keys v).
Proof. rewrite sorted_keys_Permutation. apply NoDup_fst_map_to_list. Qed.

Lemma elem_of_keys (v : url.Values) (k : string) :
  k ∈ (map_to_list v).*1 <-> is_Some (v !! k).
Proof.
  rewrite list_elem_of_fmap. split.
  - intros ([k' l] & -> & Hin). apply elem_of_map_to_list in Hin. eauto.
  - intros [l Hl]. exists (k, l). split; [reflexivity|]. now apply elem_of_map_to_list.
Qed.

Lemma elem_of_sorted_keys (v : url.Values) (k : string) :
  k ∈ url.sorted_keys v <-> is_Some (v !! k).
Proof. rewrite sorted_keys_Permutation. apply elem_of_keys. Qed.

Lemma pairs_to_map (v : url.Values) :
  nonempty_lists v (fold_left add_pair (pairs v) ∅).
Proof.
  intros k. unfold pairs.
  rewrite (fold_add_keys (fun k => default [] (v !! k)) _ (sorted_keys_NoDup v)).
  rewrite lookup_empty.
  destruct (decide (k ∈ url.sorted_keys v)) as [Hin|Hin].
  - apply elem_of_sorted_keys in Hin as [l Hl]. rewrite Hl. destruct l; reflexivity.
  - rewrite elem_of_sorted_keys in Hin.
    destruct (v !! k) as [l|]; [exfalso; eauto|reflexivity].
Qed.

Lemma StronglySorted_filter {A} (R : relation A) (P : A -> Prop) `{!forall x, Decision (P x)}
  (l : list A) :
  StronglySorted R l -> StronglySorted R (filter P l).
Proof.
  induction 1 as [|x l Hl IH Hx]; [constructor|].
  rewrite filter_cons. destruct (decide (P x)); [|exact IH].
  constructor; [exact IH|]. rewrite Forall_forall in *.
  intros y Hy. apply list_elem_of_filter in Hy as [_ Hy]. auto.
Qed.

Lemma sorted_keys_nonempty (v w : url.Values) :
  nonempty_lists v w ->
  url.sorted_keys w = filter (has_values v) (url.sorted_keys v).
Proof.
  intros Hw. apply (StronglySorted_unique strings.le).
  - apply StronglySorted_merge_sort; apply _.
  - apply StronglySorted_filter, StronglySorted_merge_sort; apply _.
  - apply NoDup_Permutation.
    + apply sorted_keys_NoDup.
    + apply NoDup_filter, sorted_keys_NoDup.
    + intros k. rewrite list_elem_of_filter, !elem_of_sorted_keys.
      unfold has_values. rewrite (Hw k).
      destruct (v !! k) as [[|x l]|]; cbn; split.
      * intros [? ?]; discriminate.
      * intros [? _]; congruence.
      * intros _. split; [discriminate|eauto].
      * eauto.
      * intros [? ?]; discriminate.
      * intros [? _]; congruence.
Qed.

(** Lists of values that are empty do not show in the encoding. *)
Lemma Encode_nonempty (v w : url.Values) :
  nonempty_lists v w -> url.Encode w = url.Encode v.
Proof.
  intros Hw. unfold url.Encode. f_equal.
  rewrite (sorted_keys_nonempty v w Hw).
  induction (url.sorted_keys v) as [|k ks IH]; [reflexivity|].
  rewrite filter_cons. destruct (decide (has_values v k)) as [Hk|Hk].
  - cbn [mbind list_bind]. rewrite IH. f_equal.
    unfold has_values in Hk. rewrite (Hw k).
    destruct (v !! k) as [[|x l]|]; cbn in *; congruence.
  - cbn [mbind list_bind]. rewrite IH.
    unfold has_values in Hk. apply dec_stable in Hk. rewrite Hk. reflexivity.
Qed.

(** An encoded query is a fixed point of parsing and encoding again. *)
Lemma Encode_ParseQuery_Encode (v : url.Values) :
  url.Encode (fst (url.ParseQuery (url.Encode v))) = url.Encode v.
Proof.
  rewrite ParseQuery_Encode. cbn [fst]. apply Encode_nonempty, pairs_to_map.
Qed.

(** ** The query-options encoder on the list options *)

Section Encoder.
Variable Sprint_other : reflect.Value -> string.

Lemma add_fields_zero :
  dnsimple.add_fields Sprint_other ∅
    [ (reflect.mkStructField "Page" "" [("url", "page,omitempty")], reflect.VInt reflect.I 0);
      (reflect.mkStructField "PerPage" "" [("url", "per_page,omitempty")], reflect.VInt reflect.I 0) ]
  = Ret ∅.
Proof. reflexivity. Qed.

Lemma encode_zero (p : string) :
  spec.plain_path p = true ->
  dnsimple.addURLQueryOptions Sprint_other p
    (dnsimple.ListOptions_ptr (Some (dnsimple.mkListOptions 0 0))) = Ret (p, None).
Proof.
  intros Hp.
  unfold dnsimple.addURLQueryOptions, dnsimple.ListOptions_ptr, dnsimple.ListOptions_Value.
  cbn [option_map dnsimple.Page dnsimple.PerPage_].
  rewrite add_fields_zero. cbn [go_bind].
  rewrite (Parse_plain p Hp).
  change (url.Query (path_url p "")) with (∅ : url.Values).
  change (dnsimple.add_all ∅ ∅) with (∅ : url.Values).
  change (url.Encode ∅) with "".
  change (url.with_RawQuery (path_url p "") "") with (path_url p "").
  rewrite (String_plain p "" Hp). cbn. now rewrite str_app_nil_r.
Qed.

Lemma encode_2_50 (p : string) :
  spec.plain_path p = true ->
  dnsimple.addURLQueryOptions Sprint_other p
    (dnsimple.ListOptions_ptr (Some (dnsimple.mkListOptions 2 50)))
  = Ret (p ++ "?page=2&per_page=50", None).
Proof.
  intros Hp.
  unfold dnsimple.addURLQueryOptions, dnsimple.ListOptions_ptr, dnsimple.ListOptions_Value.
  cbn [option_map dnsimple.Page dnsimple.PerPage_].
  match goal with |- context [dnsimple.add_fields ?s ?m ?l] =>
    let r := eval vm_compute in (dnsimple.add_fields s m l) in
    change (dnsimple.add_fields s m l) with r end.
  cbn [go_bind].
  rewrite (Parse_plain p Hp).
  change (url.Query (path_url p "")) with (∅ : url.Values).
  match goal with |- context [url.Encode ?m] =>
    let r := eval vm_compute in (url.Encode m) in
    change (url.Encode m) with r end.
  change (url.with_RawQuery (path_url p "") ?q) with (path_url p q).
  rewrite (String_plain p _ Hp). reflexivity.
Qed.

End Encoder.

(** ** isEmptyValue is the default test of the specification *)

Lemma isEmptyValue_is_default (v : reflect.Value) :
  dnsimple.isEmptyValue v = spec.is_default v.
Proof.
  destruct v as [b|k n|k n|k bits|k re im|s|l|l|l|l|c|a|d|t|fs];
    try reflexivity.
  - destruct k; reflexivity.
  - destruct k; reflexivity.
  - destruct k; cbn -[Z.pow].
    + change (2 ^ 32) with (2 * 2 ^ 31).
      destruct (bits mod 2 ^ 31 =? 0) eqn:E; symmetry.
      * apply Z.eqb_eq in E. apply orb_true_iff.
        destruct (Z.eq_dec (bits mod (2 * 2 ^ 31)) 0) as [H0|H0];
          [left|right]; apply Z.eqb_eq; [assumption|].
        change (2 ^ 31) with 2147483648 in *. Z.div_mod_to_equations. lia.
      * apply Z.eqb_neq in E. apply orb_false_iff. split; apply Z.eqb_neq;
          change (2 ^ 31) with 2147483648 in *; Z.div_mod_to_equations; lia.
    + change (2 ^ 64) with (2 * 2 ^ 63).
      destruct (bits mod 2 ^ 63 =? 0) eqn:E; symmetry.
      * apply Z.eqb_eq in E. apply orb_true_iff.
        destruct (Z.eq_dec (bits mod (2 * 2 ^ 63)) 0) as [H0|H0];
          [left|right]; apply Z.eqb_eq; [assumption|].
        change (2 ^ 63) with 9223372036854775808 in *. Z.div_mod_to_equations. lia.
      * apply Z.eqb_neq in E. apply orb_false_iff. split; apply Z.eqb_neq;
          change (2 ^ 63) with 9223372036854775808 in *; Z.div_mod_to_equations; lia.
  - destruct k; reflexivity.
  - destruct s; reflexivity.
  - destruct l; reflexivity.
  - destruct l as [[|? ?]|]; reflexivity.
  - destruct l as [[|? ?]|]; reflexivity.
Qed.

(** ** The loop over the fields *)

Lemma Split_cons (s : string) (sep : ascii) :
  exists p ps, strings.Split s sep = p :: ps.
Proof.
  induction s as [|a s (p & ps & IH)]; cbn; [eauto|].
  destruct (Ascii.eqb a sep); [eauto|]. rewrite IH. eauto.
Qed.

Section Loop.
Variable Sprint_other : reflect.Value -> string.

Lemma add_field_exported (qso : gmap string string) (f : reflect.StructField * reflect.Value) :
  reflect.PkgPath (fst f) = "" ->
  exists qso',
    dnsimple.add_field Sprint_other qso f = Ret qso' /\
    forall name,
      is_Some (qso' !! name) <-> is_Some (qso !! name) \/ spec.sent f name.
Proof.
  destruct f as [sf sv]. cbn [fst snd]. intros Hexp.
  unfold dnsimple.add_field, spec.sent, spec.tagged_as, spec.omitempty, spec.url_tag.
  cbn [fst snd].
  set (tag := reflect.Tag_Get (reflect.Tag sf) "url").
  destruct (String.eqb tag "") eqn:He.
  { apply String.eqb_eq in He. exists qso. split; [reflexivity|].
    intros name. split; [tauto|]. intros [H|[[H _] _]]; [assumption|congruence]. }
  destruct (String.eqb tag "-") eqn:Hd.
  { apply String.eqb_eq in Hd. exists qso. split; [reflexivity|].
    intros name. split; [tauto|]. intros [H|[(_ & H & _) _]]; [assumption|congruence]. }
  apply String.eqb_neq in He, Hd.
  destruct (Split_cons tag ",") as (nm & opts & Hsplit). rewrite Hsplit. cbn [hd tl].
  rewrite isEmptyValue_is_default.
  destruct (dnsimple.optionsContains opts "omitempty" && spec.is_default sv) eqn:Hom.
  { exists qso. split; [reflexivity|].
    intros name. split; [tauto|]. intros [H|[_ H]]; [assumption|].
    apply andb_prop in Hom as [H1 H2]. destruct H; congruence. }
  rewrite Hexp. cbn [String.eqb negb].
  eexists. split; [reflexivity|].
  intros name. rewrite lookup_insert_is_Some. split.
  - intros [<-|[_ H]]; [right|left; assumption].
    split; [auto|]. apply andb_false_iff in Hom. tauto.
  - intros [H|[(_ & _ & ->) _]]; [|left; reflexivity].
    destruct (decide (nm = name)); [left|right]; auto.
Qed.

Lemma add_fields_exported (fields : list (reflect.StructField * reflect.Value))
  (qso : gmap string string) :
  spec.exported fields ->
  exists qso',
    dnsimple.add_fields Sprint_other qso fields = Ret qso' /\
    forall name,
      is_Some (qso' !! name) <-> is_Some (qso !! name) \/ Exists (fun f => spec.sent f name) fields.
Proof.
  intros Hexp. revert qso. induction Hexp as [|f fields Hf _ IH]; intros qso.
  - exists qso. split; [reflexivity|]. intros name. rewrite Exists_nil. tauto.
  - destruct (add_field_exported qso f Hf) as (q1 & Hq1 & Hl1).
    destruct (IH q1) as (q2 & Hq2 & Hl2).
    exists q2. cbn [dnsimple.add_fields]. rewrite Hq1. cbn [go_bind]. split; [assumption|].
    intros name. rewrite Hl2, Hl1, Exists_cons. tauto.
Qed.

(** What the loop [for k, v := range qso] leaves under each key. *)
Lemma add_all_lookup (qs : url.Values) (qso : gmap string string) (k : string) :
  dnsimple.add_all qs qso !! k =
  match qso !! k with
  | Some v => Some (default [] (qs !! k) ++ [v])%list
  | None => qs !! k
  end.
Proof.
  unfold dnsimple.add_all. revert k.
  apply (map_fold_weak_ind
           (fun r (m : gmap string string) =>
              forall k, r !! k = match m !! k with
                                 | Some v => Some (default [] (qs !! k) ++ [v])%list
                                 | None => qs !! k
                                 end)).
  - intros k. rewrite lookup_empty. reflexivity.
  - intros i x m r Hi IH k. unfold url.Add.
    destruct (decide (i = k)) as [->|Hne].
    + rewrite !lookup_insert_eq, IH, Hi. reflexivity.
    + rewrite !lookup_insert_ne by assumption. apply IH.
Qed.

End Loop.

(** ** Paths in canonical encoded form *)

Lemma Encode_lacks_marks (v : url.Values) : lacks ["?"; "#"]%char (url.Encode v) = true.
Proof.
  rewrite Encode_pairs. apply concat_lacks; [reflexivity|].
  apply Forall_fmap, Forall_forall. intros kx _. apply item_lacks; [sub_bytes|reflexivity].
Qed.

Lemma Parse_canonical (p : string) (v : url.Values) :
  spec.plain_path p = true ->
  url.Parse (spec.canonical p v) = inl (path_url p (url.Encode v)).
Proof. intros Hp. apply Parse_plain_query; [exact Hp|apply Encode_lacks_marks]. Qed.

Lemma String_canonical (p : string) (v : url.Values) :
  spec.plain_path p = true ->
  url.String_ (path_url p (url.Encode v)) = spec.canonical p v.
Proof. intros Hp. apply String_plain, Hp. Qed.

Lemma canonical_Encode (p : string) (v w : url.Values) :
  url.Encode v = url.Encode w -> spec.canonical p v = spec.canonical p w.
Proof. unfold spec.canonical. intros ->. reflexivity. Qed.

Lemma add_all_empty (qs : url.Values) : dnsimple.add_all qs ∅ = qs.
Proof. unfold dnsimple.add_all. apply map_fold_empty. Qed.

Section Canonical.
Variable Sprint_other : reflect.Value -> string.

(** On a canonical path the encoder parses the query, adds the options
    and writes a canonical path again. *)
Lemma encode_canonical (p : string) (v : url.Values)
  (fields : list (reflect.StructField * reflect.Value)) (qso : gmap string string) :
  spec.plain_path p = true ->
  dnsimple.add_fields Sprint_other ∅ fields = Ret qso ->
  dnsimple.addURLQueryOptions Sprint_other (spec.canonical p v) (Some (reflect.VStruct fields))
  = Ret (spec.canonical p (dnsimple.add_all (fst (url.ParseQuery (url.Encode v))) qso), None).
Proof.
  intros Hp Hq. unfold dnsimple.addURLQueryOptions. rewrite Hq. cbn [go_bind].
  rewrite (Parse_canonical p v Hp).
  change (url.Query (path_url p (url.Encode v))) with (fst (url.ParseQuery (url.Encode v))).
  change (url.with_RawQuery (path_url p (url.Encode v)) ?q) with (path_url p q).
  rewrite (String_canonical p _ Hp). reflexivity.
Qed.

(** A pointer to a struct is read as the struct. *)
Lemma addURLQueryOptions_bundle (path : string) (options : option reflect.Value)
  (fields : list (reflect.StructField * reflect.Value)) :
  spec.bundle options = Some fields ->
  dnsimple.addURLQueryOptions Sprint_other path options
  = dnsimple.addURLQueryOptions Sprint_other path (Some (reflect.VStruct fields)).
Proof.
  unfold spec.bundle. intros H.
  destruct options as [[| | | | | | | | | | | |?|[[]|]|?]|]; try discriminate;
    injection H as <-; reflexivity.
Qed.


End Canonical.

(** ** What the encoded query holds *)

Lemma Encode_holds (qs : url.Values) (k x : string) (l : list string) :
  qs !! k = Some l -> In x l -> In (item (k, x)) (item <$> pairs qs).
Proof.
  intros Hk Hx. apply list_elem_of_In, list_elem_of_fmap. exists (k, x). split; [reflexivity|].
  unfold pairs. apply list_elem_of_bind. exists k. split.
  - rewrite Hk. cbn [default]. apply list_elem_of_fmap. exists x. split; [reflexivity|].
    apply list_elem_of_In, Hx.
  - apply elem_of_sorted_keys. eauto.
Qed.

Section Sent.
Variable Sprint_other : reflect.Value -> string.


(** The list options of page 2 with 50 entries a page on a path that
    parses. *)
Lemma encode_2_50_parsed (path : string) (u : url.URL) :
  url.Parse path = inl u ->
  exists items,
    dnsimple.addURLQueryOptions Sprint_other path
      (dnsimple.ListOptions_ptr (Some (dnsimple.mkListOptions 2 50)))
    = Ret (url.String_ (url.with_RawQuery u (String.concat "&" items)), None) /\
    In "page=2" items /\ In "per_page=50" items.
Proof.
  intros Hparse.
  set (qso := <["per_page" := "50"]> (<["page" := "2"]> (∅ : gmap string string))).
  exists (item <$> pairs (dnsimple.add_all (url.Query u) qso)). split.
  - unfold dnsimple.addURLQueryOptions, dnsimple.ListOptions_ptr, dnsimple.ListOptions_Value.
    cbn [option_map dnsimple.Page dnsimple.PerPage_].
    match goal with |- context [dnsimple.add_fields ?s ?m ?l] =>
      assert (dnsimple.add_fields s m l = Ret qso) as -> by reflexivity end.
    cbn [go_bind]. rewrite Hparse, Encode_pairs. reflexivity.
  - split.
    + change "page=2" with (item ("page", "2")).
      eapply Encode_holds; [rewrite add_all_lookup; reflexivity|].
      apply in_or_app. right. left. reflexivity.
    + change "per_page=50" with (item ("per_page", "50")).
      eapply Encode_holds; [rewrite add_all_lookup; reflexivity|].
      apply in_or_app. right. left. reflexivity.
Qed.

End Sent.
(** ** Decoding JSON objects into structs *)

Lemma after_not_Fine (st st' : json.status) : st <> json.Fine -> json.after st st' <> json.Fine.
Proof. destruct st, st'; cbn; congruence. Qed.

Lemma after_Fine_l (st : json.status) : json.after json.Fine st = st.
Proof. destruct st; reflexivity. Qed.

Lemma after_Fine_inv (st st' : json.status) :
  json.after st st' = json.Fine -> st = json.Fine /\ st' = json.Fine.
Proof. destruct st, st'; cbn; intros H; try discriminate; auto. Qed.

Section Steps.
Context {T B : Type} (step : T * json.status -> B -> T * json.status).
Hypothesis step_not_Fine :
  forall t st m, st <> json.Fine -> snd (step (t, st) m) <> json.Fine.

Lemma fold_steps_not_Fine (ms : list B) (acc : T * json.status) :
  snd acc <> json.Fine -> snd (fold_left step ms acc) <> json.Fine.
Proof.
  revert acc. induction ms as [|m ms IH]; intros [t st] Hst; [assumption|].
  cbn [fold_left]. apply IH.
  destruct (step (t, st) m) as [t' st'] eqn:E.
  pose proof (step_not_Fine t st m Hst) as H. rewrite E in H. exact H.
Qed.

(** When decoding ends without an error, it was without an error after
    every member. *)
Lemma fold_steps_Fine_prefix (before after : list B) (acc : T * json.status) :
  snd (fold_left step (before ++ after) acc) = json.Fine ->
  snd (fold_left step before acc) = json.Fine.
Proof.
  rewrite fold_left_app. intros H.
  destruct (fold_left step before acc) as [t st] eqn:E.
  destruct st; [reflexivity| |];
    exfalso; revert H; apply fold_steps_not_Fine; cbn; congruence.
Qed.

End Steps.

Section Members.
Context {T : Type} (fields : list (string * json.decoder T)).

Lemma into_member_not_Fine (t : T) (st : json.status) (m : string * json.value) :
  st <> json.Fine -> snd (json.into_member fields (t, st) m) <> json.Fine.
Proof.
  intros Hst. destruct m as [k v]. cbn.
  destruct st as [|e|e]; [congruence| |cbn; congruence].
  destruct (json.find_field fields k) as [d|]; [|cbn; congruence].
  destruct (d v t) as [t' st']. cbn. destruct st'; congruence.
Qed.

Lemma fold_members_Fine_prefix (before after : list (string * json.value)) (acc : T * json.status) :
  snd (fold_left (json.into_member fields) (before ++ after) acc) = json.Fine ->
  snd (fold_left (json.into_member fields) before acc) = json.Fine.
Proof. apply fold_steps_Fine_prefix, into_member_not_Fine. Qed.

(** A property of the variable that every member keeps is kept by the
    whole object. *)
Lemma fold_members_invariant (P : T -> Prop) (ms : list (string * json.value)) :
  Forall (fun m => forall t st, P t -> P (fst (json.into_member fields (t, st) m))) ms ->
  forall acc, P (fst acc) -> P (fst (fold_left (json.into_member fields) ms acc)).
Proof.
  induction 1 as [|m ms Hm _ IH]; intros [t st] Hacc; [assumption|].
  cbn [fold_left]. apply IH.
  specialize (Hm t st Hacc).
  destruct (json.into_member fields (t, st) m). exact Hm.
Qed.

End Members.

Lemma reported_None (st : json.status) : json.reported st = None -> st = json.Fine.
Proof. destruct st; cbn; congruence. Qed.

(** ** CheckResponse *)

Section Check.
Variable um : json.decoder http.Response.

Lemma CheckResponse_unfold (resp : http.Response) :
  dnsimple.CheckResponse um resp =
  if (200 <=? http.StatusCode resp) && (http.StatusCode resp <=? 299) then None
  else match snd (dnsimple.Decode_ErrorResponse um (http.Body resp) (spec.error_shape resp)) with
       | Some err => Some (dnsimple.json_error err)
       | None => Some (dnsimple.api_error
                         (fst (dnsimple.Decode_ErrorResponse um (http.Body resp) (spec.error_shape resp))))
       end.
Proof.
  unfold dnsimple.CheckResponse, spec.error_shape. cbn [dnsimple.Pagination_ dnsimple.Response_ dnsimple.Message].
  destruct ((200 <=? http.StatusCode resp) && (http.StatusCode resp <=? 299)); [reflexivity|].
  destruct (dnsimple.Decode_ErrorResponse um _ _) as [e [err|]]; reflexivity.
Qed.

Lemma in_range_iff (code : Z) :
  (200 <=? code) && (code <=? 299) = true <-> 200 <= code <= 299.
Proof. rewrite andb_true_iff, !Z.leb_le. tauto. Qed.

(** A member whose key does not match [message] leaves the message as it
    is. *)
Lemma other_member_keeps_Message (k : string) (v : json.value)
  (e : dnsimple.ErrorResponse) (st : json.status) :
  json.equalFold "message" k = false ->
  dnsimple.Message (fst (json.into_member (dnsimple.ErrorResponse_fields um) (e, st) (k, v)))
  = dnsimple.Message e.
Proof.
  intros Hk. unfold json.into_member. destruct st; try reflexivity.
  all: unfold json.find_field, dnsimple.ErrorResponse_fields; cbn [json.find_exact json.find_fold].
  all: assert (String.eqb "message" k = false) as Hne
      by (destruct (String.eqb "message" k) eqn:E; [|reflexivity];
          apply String.eqb_eq in E; subst k; discriminate).
  all: rewrite Hne, Hk.
  all: destruct (String.eqb "HttpResponse" k);
    [|destruct (String.eqb "pagination" k);
      [|destruct (json.equalFold "HttpResponse" k);
        [|destruct (json.equalFold "pagination" k); [|reflexivity]]]].
  all: unfold json.field; cbn [dnsimple.Message dnsimple.Response_];
    match goal with |- context [json.into_ptr ?z ?d ?w ?o] =>
      destruct (json.into_ptr z d w o) end; reflexivity.
Qed.

Lemma message_member_sets_Message (m : string) (e : dnsimple.ErrorResponse) :
  json.into_member (dnsimple.ErrorResponse_fields um) (e, json.Fine) ("message", json.String_ m)
  = (dnsimple.mkErrorResponse (dnsimple.Response_ e) m, json.Fine).
Proof. reflexivity. Qed.

(** The message of the error is the message member of the body. *)
Lemma Decode_ErrorResponse_message (body : string) (e0 : dnsimple.ErrorResponse)
  (before after : list (string * json.value)) (m : string) :
  json.Decoder_next body = inl (json.Object (before ++ ("message", json.String_ m) :: after)) ->
  Forall (fun kv => json.equalFold "message" (fst kv) = false) after ->
  snd (dnsimple.Decode_ErrorResponse um body e0) = None ->
  dnsimple.Message (fst (dnsimple.Decode_ErrorResponse um body e0)) = m.
Proof.
  intros Hbody Hafter Hok. unfold dnsimple.Decode_ErrorResponse in *. rewrite Hbody in *.
  unfold dnsimple.unmarshal_ErrorResponse, json.into_struct in *.
  set (fields := dnsimple.ErrorResponse_fields um) in *.
  destruct (fold_left (json.into_member fields) _ (e0, json.Fine)) as [e st] eqn:Hfold.
  cbn [fst snd] in *. apply reported_None in Hok. subst st.
  rewrite fold_left_app in Hfold. cbn [fold_left] in Hfold.
  pose proof (fold_members_Fine_prefix fields before (("message", json.String_ m) :: after) (e0, json.Fine)) as Hpre.
  rewrite fold_left_app in Hpre. cbn [fold_left] in Hpre. rewrite Hfold in Hpre.
  specialize (Hpre eq_refl).
  destruct (fold_left (json.into_member fields) before (e0, json.Fine)) as [e1 st1].
  cbn [snd] in Hpre. subst st1.
  subst fields. rewrite message_member_sets_Message in Hfold.
  pose proof (fold_members_invariant (dnsimple.ErrorResponse_fields um)
                (fun e => dnsimple.Message e = m) after) as Hinv.
  apply (f_equal fst) in Hfold. cbn [fst] in Hfold. rewrite <- Hfold.
  apply Hinv; [|reflexivity].
  eapply Forall_impl; [exact Hafter|].
  intros [k v] Hk t st Ht. cbn [fst] in Hk.
  rewrite other_member_keeps_Message by assumption. exact Ht.
Qed.

End Check.

(** ** Webhook events *)

(** Induction on JSON values, with the hypothesis for the values inside an
    array or an object. *)
Lemma json_value_ind (P : json.value -> Prop) :
  P json.Null ->
  (forall b, P (json.Bool b)) ->
  (forall lit, P (json.Number lit)) ->
  (forall s, P (json.String_ s)) ->
  (forall elems, Forall P elems -> P (json.Array elems)) ->
  (forall members, Forall (fun m => P (snd m)) members -> P (json.Object members)) ->
  forall v, P v.
Proof.
  intros Hnull Hbool Hnum Hstr Harr Hobj. fix IH 1.
  intros [|b|lit|s|elems|members].
  - exact Hnull.
  - apply Hbool.
  - apply Hnum.
  - apply Hstr.
  - apply Harr. induction elems as [|x elems IHe]; constructor; [apply IH|exact IHe].
  - apply Hobj. induction members as [|[k x] members IHm]; constructor; [apply IH|exact IHm].
Qed.

Lemma fold_invariant {A B} (f : A -> B -> A) (P : A -> Prop) (l : list B) :
  Forall (fun x => forall a, P a -> P (f a x)) l ->
  forall a, P a -> P (fold_left f l a).
Proof.
  induction 1 as [|x l Hx _ IH]; intros a Ha; [assumption|].
  cbn [fold_left]. apply IH, Hx, Ha.
Qed.

(** Members that their fields decode without an error leave no error. *)
Lemma fold_members_Fine {T} (fields : list (string * json.decoder T))
  (ms : list (string * json.value)) :
  Forall (fun m => forall d, json.find_field fields (fst m) = Some d ->
                             forall t, snd (d (snd m) t) = json.Fine) ms ->
  forall t, snd (fold_left (json.into_member fields) ms (t, json.Fine)) = json.Fine.
Proof.
  induction 1 as [|[k v] ms Hm _ IH]; intros t; [reflexivity|].
  cbn [fold_left json.into_member].
  destruct (json.find_field fields k) as [d|] eqn:Hd; [|apply IH].
  specialize (Hm d Hd t). cbn [snd] in Hm.
  destruct (d v t) as [t' st']. cbn [snd] in Hm. subst st'. apply IH.
Qed.

Lemma reported_mismatch (v : json.value) (type_name : string) :
  json.reported (json.mismatch v type_name) = Some (json.UnmarshalTypeError type_name).
Proof. destruct v; reflexivity. Qed.

Section Webhook.
Context `{webhook.Declarations} `{!webhook.Decoders}.

Lemma unmarshal_DomainEvent_Object (members : list (string * json.value)) (e : webhook.DomainEvent) :
  webhook.unmarshal_DomainEvent (json.Object members) e =
  fold_left (webhook.DomainEvent_member webhook.unmarshal_DomainEvent) members (e, json.Fine).
Proof. reflexivity. Qed.

Lemma unmarshal_WebhookEvent_Object (members : list (string * json.value)) (e : webhook.WebhookEvent) :
  webhook.unmarshal_WebhookEvent (json.Object members) e =
  fold_left (webhook.WebhookEvent_member webhook.unmarshal_WebhookEvent) members (e, json.Fine).
Proof. reflexivity. Qed.

(** Decoding never touches the raw payload an event holds. *)
Lemma unmarshal_DomainEvent_payload (v : json.value) :
  forall e : webhook.DomainEvent,
    webhook.payload (webhook.D_Header (fst (webhook.unmarshal_DomainEvent v e)))
    = webhook.payload (webhook.D_Header e).
Proof.
  induction v as [|b|lit|s|elems _|members IH] using json_value_ind; intros e;
    try reflexivity.
  rewrite unmarshal_DomainEvent_Object.
  apply (fold_invariant _
           (fun acc => webhook.payload (webhook.D_Header (fst acc))
                       = webhook.payload (webhook.D_Header e)));
    [|reflexivity].
  eapply Forall_impl; [exact IH|]. clear IH.
  intros [k v'] IHv [e1 st] He1. cbn [fst snd] in *.
  unfold webhook.DomainEvent_member. destruct st; try exact He1.
  all: destruct (json.find_field webhook.DomainEvent_fields k) as [[d| |]|]; try exact He1.
  all: try (unfold webhook.into_Header, json.field;
            destruct (d v' _) as [h st']; cbn; exact He1).
  all: try (destruct (json.into_ptr _ _ _ _) as [dom st']; cbn; exact He1).
  all: destruct v'; try exact He1;
    (destruct (webhook.D_Data e1) as [| |t];
     [ destruct (webhook.unmarshal_DomainEvent _ _) as [t' st'] eqn:E; cbn; exact He1
     | specialize (IHv e1); destruct (webhook.unmarshal_DomainEvent _ e1) as [e' st'] eqn:E;
       cbn [fst] in *; congruence
     | destruct (webhook.unmarshal_DomainEvent _ t) as [t' st'] eqn:E; cbn; exact He1 ]).
Qed.

Lemma unmarshal_WebhookEvent_payload (v : json.value) :
  forall e : webhook.WebhookEvent,
    webhook.payload (webhook.W_Header (fst (webhook.unmarshal_WebhookEvent v e)))
    = webhook.payload (webhook.W_Header e).
Proof.
  induction v as [|b|lit|s|elems _|members IH] using json_value_ind; intros e;
    try reflexivity.
  rewrite unmarshal_WebhookEvent_Object.
  apply (fold_invariant _
           (fun acc => webhook.payload (webhook.W_Header (fst acc))
                       = webhook.payload (webhook.W_Header e)));
    [|reflexivity].
  eapply Forall_impl; [exact IH|]. clear IH.
  intros [k v'] IHv [e1 st] He1. cbn [fst snd] in *.
  unfold webhook.WebhookEvent_member. destruct st; try exact He1.
  all: destruct (json.find_field webhook.WebhookEvent_fields k) as [[d| |]|]; try exact He1.
  all: try (unfold webhook.into_Header, json.field;
            destruct (d v' _) as [h st']; cbn; exact He1).
  all: destruct v'; try exact He1;
    (destruct (webhook.W_Data e1) as [| |t];
     [ destruct (webhook.unmarshal_WebhookEvent _ _) as [t' st'] eqn:E; cbn; exact He1
     | specialize (IHv e1); destruct (webhook.unmarshal_WebhookEvent _ e1) as [e' st'] eqn:E;
       cbn [fst] in *; congruence
     | destruct (webhook.unmarshal_WebhookEvent _ t) as [t' st'] eqn:E; cbn; exact He1 ]).
Qed.

Lemma unmarshal_GenericEvent_payload (v : json.value) (e : webhook.GenericEvent) :
  webhook.payload (webhook.G_Header (fst (webhook.unmarshal_GenericEvent v e)))
  = webhook.payload (webhook.G_Header e).
Proof.
  unfold webhook.unmarshal_GenericEvent, json.into_struct.
  destruct v as [|b|lit|s|elems|members]; try reflexivity.
  apply (fold_members_invariant _
           (fun t => webhook.payload (webhook.G_Header t) = webhook.payload (webhook.G_Header e)));
    [|reflexivity].
  apply Forall_forall. intros [k v'] _ t st Ht.
  unfold json.into_member. destruct st; try exact Ht.
  all: destruct (json.find_field _ k) as [d|] eqn:Hd; try exact Ht.
  all: unfold json.find_field in Hd.
  all: assert (exists f, d = webhook.Generic_field f) as [f ->].
  1,3: clear -Hd;
    assert (forall l, (json.find_exact ((fun '(name, f) => (name, webhook.Generic_field f)) <$> l) k = Some d
                       \/ json.find_fold ((fun '(name, f) => (name, webhook.Generic_field f)) <$> l) k = Some d)
                      -> exists f, d = webhook.Generic_field f) as Hl;
    [ induction l as [|[n f] l IHl]; cbn; [intros [?|?]; discriminate|];
      intros [Hx|Hx];
      [ destruct (String.eqb n k); [injection Hx as <-; eauto|apply IHl; auto]
      | destruct (json.equalFold n k); [injection Hx as <-; eauto|apply IHl; auto] ]
    | apply (Hl (webhook.visible [("data", webhook.Data_field)]));
      destruct (json.find_exact _ k); [left; congruence|right; exact Hd] ].
  all: destruct f as [d| |]; unfold webhook.Generic_field, webhook.into_Header, json.field.
  all: try (destruct (d v' _) as [h st']; cbn; exact Ht).
  all: destruct (webhook.unmarshal_Any v' _) as [a st']; cbn; exact Ht.
Qed.

(** [json.Unmarshal] keeps the payload too, whether or not the document
    is valid. *)
Lemma Unmarshal_keeps {T} (d : json.decoder T) (P : T -> Prop) (data : string) (t : T) :
  (forall v, P (fst (d v t))) -> P t -> P (fst (webhook.Unmarshal d data t)).
Proof.
  intros Hd Ht. unfold webhook.Unmarshal.
  destruct (json.valid_document data) as [v|err]; [|exact Ht].
  specialize (Hd v). destruct (d v t). exact Hd.
Qed.

(** The shape of the event depends on the name alone, whatever
    [unmashalEvent] does. *)
Lemma switchEvent_shape `{!webhook.Unmarshaler} (name payload : string) :
  exists event,
    fst (webhook.switchEvent name payload) = Some event /\
    spec.shape_of event = spec.selected name.
Proof.
  unfold webhook.switchEvent, webhook.event_for, spec.selected, spec.domain_names.
  cbn [existsb].
  destruct (String.eqb name "domain.create"); cbn [orb];
    [|destruct (String.eqb name "domain.delete"); cbn [orb];
      [|destruct (String.eqb name "domain.token_reset"); cbn [orb];
        [|destruct (String.eqb name "domain.auto_renew_enable"); cbn [orb];
          [|destruct (String.eqb name "domain.auto_renew_disable"); cbn [orb];
            [|destruct (String.eqb name "webhook.create")]]]]].
  all: unfold webhook.parse;
    repeat match goal with
      | |- context [webhook.DomainEvent_parse ?e ?p] => destruct (webhook.DomainEvent_parse e p)
      | |- context [webhook.WebhookEvent_parse ?e ?p] => destruct (webhook.WebhookEvent_parse e p)
      | |- context [webhook.GenericEvent_parse ?e ?p] => destruct (webhook.GenericEvent_parse e p)
      end;
    eexists; split; reflexivity.
Qed.

(** With [unmashalEvent] decoding JSON, the event returned holds the raw
    payload, with or without an error. *)
Lemma switchEvent_json_payload (name payload : string) :
  exists event,
    fst (@webhook.switchEvent _ webhook.unmashalEvent_json name payload) = Some event /\
    webhook.Payload event = payload.
Proof.
  unfold webhook.switchEvent.
  destruct (webhook.event_for name) as [e|e|e]; unfold webhook.parse.
  - pose proof (Unmarshal_keeps webhook.unmarshal_DomainEvent
                  (fun t => webhook.payload (webhook.D_Header t) = payload) payload
                  (webhook.mkDomainEvent (webhook.with_payload (webhook.D_Header e) payload)
                     webhook.self (webhook.D_Domain e))) as Hk.
    unfold webhook.DomainEvent_parse. cbn [webhook.unmashalEvent_Domain webhook.unmashalEvent_json].
    destruct (webhook.Unmarshal _ _ _) as [e' err]. eexists; split; [reflexivity|].
    apply Hk; [|reflexivity]. intros v. rewrite unmarshal_DomainEvent_payload. reflexivity.
  - pose proof (Unmarshal_keeps webhook.unmarshal_WebhookEvent
                  (fun t => webhook.payload (webhook.W_Header t) = payload) payload
                  (webhook.mkWebhookEvent (webhook.with_payload (webhook.W_Header e) payload)
                     webhook.self)) as Hk.
    unfold webhook.WebhookEvent_parse. cbn [webhook.unmashalEvent_Webhook webhook.unmashalEvent_json].
    destruct (webhook.Unmarshal _ _ _) as [e' err]. eexists; split; [reflexivity|].
    apply Hk; [|reflexivity]. intros v. rewrite unmarshal_WebhookEvent_payload. reflexivity.
  - pose proof (Unmarshal_keeps webhook.unmarshal_GenericEvent
                  (fun t => webhook.payload (webhook.G_Header t) = payload) payload
                  (webhook.mkGenericEvent (webhook.with_payload (webhook.G_Header e) payload)
                     (webhook.G_Data e))) as Hk.
    unfold webhook.GenericEvent_parse. cbn [webhook.unmashalEvent_Generic webhook.unmashalEvent_json].
    destruct (webhook.Unmarshal _ _ _) as [e' err]. eexists; split; [reflexivity|].
    apply Hk; [|reflexivity]. intros v. rewrite unmarshal_GenericEvent_payload. reflexivity.
Qed.

(** *** The domain of a domain event *)

Abbreviation D_step := (webhook.DomainEvent_member webhook.unmarshal_DomainEvent).

Lemma D_step_not_Fine (e : webhook.DomainEvent) (st : json.status) (m : string * json.value) :
  st <> json.Fine -> snd (D_step (e, st) m) <> json.Fine.
Proof.
  intros Hst. destruct m as [k v]. unfold webhook.DomainEvent_member.
  destruct st as [|err|err]; [congruence| |cbn; congruence].
  destruct (json.find_field webhook.DomainEvent_fields k) as [[d| |]|]; [| | |cbn; congruence].
  - destruct (webhook.into_Header d v _) as [h st']. cbn. destruct st'; congruence.
  - destruct v; try (cbn; congruence);
      destruct (webhook.D_Data e);
      destruct (webhook.unmarshal_DomainEvent _ _) as [t' st'];
      cbn; destruct st'; congruence.
  - destruct (json.into_ptr _ _ v _) as [dom st']. cbn. destruct st'; congruence.
Qed.

(** A member beside [data] and [domain] leaves both fields alone. *)
Lemma D_step_beside (e : webhook.DomainEvent) (st : json.status) (m : string * json.value) :
  spec.beside_domain [m] ->
  webhook.D_Data (fst (D_step (e, st) m)) = webhook.D_Data e /\
  webhook.D_Domain (fst (D_step (e, st) m)) = webhook.D_Domain e.
Proof.
  intros Hm. apply Forall_inv in Hm. destruct m as [k v]. cbn [fst] in Hm.
  unfold webhook.DomainEvent_member.
  destruct st; [| |split; reflexivity].
  all: destruct (json.find_field webhook.DomainEvent_fields k) as [[d| |]|];
    try contradiction; try (split; reflexivity).
  all: destruct (webhook.into_Header d v _) as [h st']; split; reflexivity.
Qed.

Lemma D_fold_beside (ms : list (string * json.value)) (acc : webhook.DomainEvent * json.status) :
  spec.beside_domain ms ->
  webhook.D_Data (fst (fold_left D_step ms acc)) = webhook.D_Data (fst acc) /\
  webhook.D_Domain (fst (fold_left D_step ms acc)) = webhook.D_Domain (fst acc).
Proof.
  intros Hms. revert acc. induction Hms as [|m ms Hm _ IH]; intros [e st]; [split; reflexivity|].
  cbn [fold_left]. destruct (IH (D_step (e, st) m)) as [-> ->].
  apply D_step_beside. constructor; [exact Hm|constructor].
Qed.

(** The event's own fields are found under their names: a promoted field
    of the same name is hidden. *)
Lemma find_exact_visible (own : list (string * webhook.event_field)) (k : string)
  (f : webhook.event_field) :
  json.find_exact own k = Some f ->
  json.find_field (webhook.visible own) k = Some f.
Proof.
  intros Hown. unfold json.find_field, webhook.visible.
  assert (json.find_exact
            (filter (fun '(name, _) => json.find_exact own name = None) webhook.promoted ++ own) k
          = Some f) as ->; [|reflexivity].
  induction webhook.promoted as [|[n g] l IH]; [exact Hown|].
  rewrite filter_cons. destruct (decide _) as [Hn|Hn]; [|exact IH].
  cbn [app json.find_exact]. destruct (String.eqb n k) eqn:E; [|exact IH].
  apply String.eqb_eq in E. subst n. congruence.
Qed.

Lemma find_field_domain :
  json.find_field webhook.DomainEvent_fields "domain" = Some webhook.Domain_field.
Proof. apply find_exact_visible. reflexivity. Qed.

Lemma find_field_data :
  json.find_field webhook.DomainEvent_fields "data" = Some webhook.Data_field.
Proof. apply find_exact_visible. reflexivity. Qed.

(** A [domain] member among members beside it: when decoding ends without
    an error, the domain of the event is that member decoded. *)
Lemma domain_member_decoded (before after : list (string * json.value)) (d : json.value)
  (e : webhook.DomainEvent) :
  spec.beside_domain before -> spec.beside_domain after -> d <> json.Null ->
  snd (fold_left D_step (before ++ ("domain", d) :: after) (e, json.Fine)) = json.Fine ->
  webhook.D_Domain (fst (fold_left D_step (before ++ ("domain", d) :: after) (e, json.Fine)))
  = Some (fst (webhook.unmarshal_Domain d (default webhook.Domain_zero (webhook.D_Domain e))))
  /\ webhook.D_Data (fst (fold_left D_step (before ++ ("domain", d) :: after) (e, json.Fine)))
     = webhook.D_Data e.
Proof.
  intros Hb Ha Hd Hfine.
  pose proof (fold_steps_Fine_prefix D_step D_step_not_Fine before _ _ Hfine) as Hpre.
  rewrite fold_left_app in *. cbn [fold_left] in *.
  destruct (D_fold_beside before (e, json.Fine) Hb) as [HData HDom]. cbn [fst] in *.
  destruct (fold_left D_step before (e, json.Fine)) as [e1 st1]. cbn [fst snd] in *. subst st1.
  destruct (D_fold_beside after (D_step (e1, json.Fine) ("domain", d)) Ha) as [-> ->].
  unfold webhook.DomainEvent_member. rewrite find_field_domain.
  unfold json.into_ptr. rewrite HDom.
  destruct d; try congruence;
    destruct (webhook.unmarshal_Domain _ _) as [dom st']; cbn; auto.
Qed.

(** The same inside a [data] member, which is decoded into the event
    itself when [Data] points back at it. *)
Lemma data_domain_member_decoded (before after inner_before inner_after : list (string * json.value))
  (d : json.value) (e : webhook.DomainEvent) :
  spec.beside_domain before -> spec.beside_domain after ->
  spec.beside_domain inner_before -> spec.beside_domain inner_after ->
  d <> json.Null -> webhook.D_Data e = webhook.self ->
  let members :=
    (before ++ ("data", json.Object (inner_before ++ ("domain", d) :: inner_after)) :: after)%list in
  snd (fold_left D_step members (e, json.Fine)) = json.Fine ->
  webhook.D_Domain (fst (fold_left D_step members (e, json.Fine)))
  = Some (fst (webhook.unmarshal_Domain d (default webhook.Domain_zero (webhook.D_Domain e)))).
Proof.
  intros Hb Ha Hib Hia Hd Hself members Hfine. subst members.
  pose proof (fold_steps_Fine_prefix D_step D_step_not_Fine before _ _ Hfine) as Hpre.
  rewrite fold_left_app in *. cbn [fold_left] in *.
  destruct (D_fold_beside before (e, json.Fine) Hb) as [HData HDom]. cbn [fst] in *.
  destruct (fold_left D_step before (e, json.Fine)) as [e1 st1]. cbn [fst snd] in *. subst st1.
  set (inner := (inner_before ++ ("domain", d) :: inner_after)%list) in *.
  assert (D_step (e1, json.Fine) ("data", json.Object inner)
          = fold_left D_step inner (e1, json.Fine)) as Hstep.
  { unfold webhook.DomainEvent_member at 1. rewrite find_field_data, HData, Hself.
    rewrite unmarshal_DomainEvent_Object.
    destruct (fold_left D_step inner (e1, json.Fine)) as [e' st'].
    rewrite after_Fine_l. reflexivity. }
  rewrite Hstep in *.
  destruct (fold_left D_step inner (e1, json.Fine)) as [e2 st2] eqn:Hinner.
  destruct (D_fold_beside after (e2, st2) Ha) as [_ ->]. cbn [fst].
  assert (st2 = json.Fine) as ->.
  { destruct st2; [reflexivity| |]; exfalso; revert Hfine;
      apply (fold_steps_not_Fine D_step D_step_not_Fine); cbn; congruence. }
  pose proof (domain_member_decoded inner_before inner_after d e1 Hib Hia Hd) as Hdm.
  fold inner in Hdm. rewrite Hinner in Hdm. cbn [fst snd] in Hdm.
  destruct (Hdm eq_refl) as [-> _]. rewrite HDom. reflexivity.
Qed.

(** The names of the domain lifecycle start from a fresh domain event. *)
Lemma event_for_domain (name : string) :
  spec.selected name = spec.DomainShape ->
  webhook.event_for name = webhook.IsDomainEvent webhook.new_DomainEvent.
Proof.
  unfold spec.selected, spec.domain_names, webhook.event_for. cbn [existsb].
  destruct (String.eqb name "domain.create"); [reflexivity|].
  destruct (String.eqb name "domain.delete"); [reflexivity|].
  destruct (String.eqb name "domain.token_reset"); [reflexivity|].
  destruct (String.eqb name "domain.auto_renew_enable"); [reflexivity|].
  destruct (String.eqb name "domain.auto_renew_disable"); [reflexivity|].
  cbn [orb]. destruct (String.eqb name "webhook.create"); discriminate.
Qed.

Lemma selected_cases (name : string) :
  (In name spec.domain_names -> spec.selected name = spec.DomainShape) /\
  (name = "webhook.create" -> spec.selected name = spec.WebhookShape) /\
  (~ In name spec.domain_names -> name <> "webhook.create" ->
   spec.selected name = spec.GenericShape).
Proof.
  unfold spec.selected. split; [|split].
  - intros Hin.
    assert (existsb (String.eqb name) spec.domain_names = true) as ->; [|reflexivity].
    apply existsb_exists. exists name. split; [exact Hin|apply String.eqb_refl].
  - intros ->. reflexivity.
  - intros Hnot Hne.
    assert (existsb (String.eqb name) spec.domain_names = false) as ->.
    { apply not_true_is_false. intros Hex. apply existsb_exists in Hex as (x & Hx & Heq).
      apply String.eqb_eq in Heq. subst x. contradiction. }
    apply String.eqb_neq in Hne. rewrite Hne. reflexivity.
Qed.

(** With [unmashalEvent] decoding JSON, a domain event decoded without
    an error has the payload's domain object decoded into [Domain]. *)
Lemma switchEvent_json_domain (name payload : string)
  (members : list (string * json.value)) (d : json.value) :
  spec.selected name = spec.DomainShape ->
  json.valid_document payload = inl (json.Object members) ->
  spec.domain_object members d ->
  d <> json.Null ->
  snd (@webhook.switchEvent _ webhook.unmashalEvent_json name payload) = None ->
  exists e,
    fst (@webhook.switchEvent _ webhook.unmashalEvent_json name payload)
    = Some (webhook.IsDomainEvent e) /\
    webhook.D_Domain e = Some (fst (webhook.unmarshal_Domain d webhook.Domain_zero)).
Proof.
  intros Hsel Hvalid Hobj Hd.
  unfold webhook.switchEvent. rewrite (event_for_domain name Hsel).
  unfold webhook.parse, webhook.DomainEvent_parse.
  cbn [webhook.unmashalEvent_Domain webhook.unmashalEvent_json].
  unfold webhook.Unmarshal. rewrite Hvalid, unmarshal_DomainEvent_Object.
  set (e0 := webhook.mkDomainEvent _ webhook.self _).
  destruct (fold_left D_step members (e0, json.Fine)) as [e st] eqn:Hfold.
  cbn [fst snd]. intros Hok. apply reported_None in Hok. subst st.
  exists e. split; [reflexivity|].
  destruct Hobj as [(before & after & -> & Hb & Ha)
                   |(before & after & ib & ia & -> & Hb & Ha & Hib & Hia)].
  - pose proof (domain_member_decoded before after d e0 Hb Ha Hd) as Hdec.
    rewrite Hfold in Hdec. destruct (Hdec eq_refl) as [Hdom _]. exact Hdom.
  - pose proof (data_domain_member_decoded before after ib ia d e0 Hb Ha Hib Hia Hd eq_refl)
      as Hdec.
    cbv zeta in Hdec. rewrite Hfold in Hdec. exact (Hdec eq_refl).
Qed.

(** *** The dispatcher of the specification *)

Lemma event_for_selected (name : string) :
  webhook.event_for name =
  match spec.selected name with
  | spec.DomainShape => webhook.IsDomainEvent webhook.new_DomainEvent
  | spec.WebhookShape => webhook.IsWebhookEvent webhook.new_WebhookEvent
  | spec.GenericShape => webhook.IsGenericEvent webhook.new_GenericEvent
  end.
Proof.
  unfold spec.selected, spec.domain_names, webhook.event_for. cbn [existsb].
  destruct (String.eqb name "domain.create"); [reflexivity|].
  destruct (String.eqb name "domain.delete"); [reflexivity|].
  destruct (String.eqb name "domain.token_reset"); [reflexivity|].
  destruct (String.eqb name "domain.auto_renew_enable"); [reflexivity|].
  destruct (String.eqb name "domain.auto_renew_disable"); [reflexivity|].
  cbn [orb]. destruct (String.eqb name "webhook.create"); reflexivity.
Qed.

(** [switchEvent] with [unmashalEvent] decoding JSON is the dispatcher
    of the specification. *)
Lemma switchEvent_dispatch (name payload : string) :
  @webhook.switchEvent _ webhook.unmashalEvent_json name payload
  = (Some (fst (spec.dispatch name payload)), snd (spec.dispatch name payload)).
Proof.
  unfold webhook.switchEvent, spec.dispatch. rewrite event_for_selected.
  destruct (spec.selected name); unfold webhook.parse.
  - unfold webhook.DomainEvent_parse, webhook.new_DomainEvent, webhook.with_payload,
      webhook.Event_Header_zero.
    cbn [webhook.unmashalEvent_Domain webhook.unmashalEvent_json webhook.D_Header
         webhook.D_Domain webhook.exported].
    destruct (webhook.Unmarshal _ _ _). reflexivity.
  - unfold webhook.WebhookEvent_parse, webhook.new_WebhookEvent, webhook.with_payload,
      webhook.Event_Header_zero.
    cbn [webhook.unmashalEvent_Webhook webhook.unmashalEvent_json webhook.W_Header
         webhook.exported].
    destruct (webhook.Unmarshal _ _ _). reflexivity.
  - unfold webhook.GenericEvent_parse, webhook.new_GenericEvent, webhook.with_payload,
      webhook.Event_Header_zero.
    cbn [webhook.unmashalEvent_Generic webhook.unmashalEvent_json webhook.G_Header
         webhook.G_Data webhook.exported].
    destruct (webhook.Unmarshal _ _ _). reflexivity.
Qed.

(** A payload that is not one JSON value gives the error of the syntax
    check, whatever the name. *)
Lemma dispatch_invalid (name payload : string) (err : json.error) :
  json.valid_document payload = inr err -> snd (spec.dispatch name payload) = Some err.
Proof.
  intros Hv. unfold spec.dispatch, webhook.Unmarshal. rewrite Hv.
  destruct (spec.selected name); reflexivity.
Qed.

(** A payload that is neither an object nor [null] gives a type error
    that names the selected shape. *)
Lemma dispatch_mismatch (name payload : string) (v : json.value) :
  json.valid_document payload = inl v ->
  structured v = false ->
  snd (spec.dispatch name payload)
  = Some (json.UnmarshalTypeError (spec.type_name (spec.selected name))).
Proof.
  intros Hv Hs. unfold spec.dispatch, webhook.Unmarshal. rewrite Hv.
  destruct (spec.selected name); cbn [spec.type_name].
  - destruct v; try discriminate; cbn; reflexivity.
  - destruct v; try discriminate; cbn; reflexivity.
  - unfold webhook.unmarshal_GenericEvent, json.into_struct.
    destruct v; try discriminate; cbn; reflexivity.
Qed.

(** A payload that fits the generic event gives no error. *)
Lemma dispatch_generic_fits (name payload : string) (v : json.value) :
  spec.selected name = spec.GenericShape ->
  json.valid_document payload = inl v ->
  fits GenericEvent_fields v ->
  snd (spec.dispatch name payload) = None.
Proof.
  intros Hsel Hv Hfit. unfold spec.dispatch, webhook.Unmarshal. rewrite Hsel, Hv.
  unfold webhook.unmarshal_GenericEvent, json.into_struct.
  destruct v as [|b|lit|s|elems|members]; try contradiction; [reflexivity|].
  fold GenericEvent_fields.
  pose proof (fold_members_Fine GenericEvent_fields members Hfit
                (webhook.mkGenericEvent (webhook.mkEvent_Header webhook.Header_zero payload)
                   webhook.Any_nil)) as Hfine.
  destruct (fold_left _ members _) as [e st]. cbn [snd] in *. subst st. reflexivity.
Qed.

End Webhook.
(** * The claims of the specification *)

(** ** Credentials *)

(** C7: each of the three credential variants returns the documented
    header pair from [HttpHeader]: the domain token under
    [X-DNSimple-Domain-Token]; under [Authorization], [Basic] and a space
    followed by the base64 encoding of [email:password], which decodes
    back to [email:password]; and under [Authorization], [Bearer] and a
    space followed by the token. *)
Theorem C7_HttpHeader_of_credentials :
  (forall token,
     dnsimple.HttpHeader (dnsimple.NewDomainTokenCredentials token)
     = ("X-DNSimple-Domain-Token", token)) /\
  (forall email password,
     exists value,
       dnsimple.HttpHeader (dnsimple.NewHttpBasicCredentials email password)
       = ("Authorization", "Basic " ++ value) /\
       value = base64.EncodeToString (email ++ ":" ++ password) /\
       base64.DecodeString value = (email ++ ":" ++ password, None)) /\
  (forall token,
     dnsimple.HttpHeader (dnsimple.NewOauthTokenCredentials token)
     = ("Authorization", "Bearer " ++ token)).
Proof.
  split; [|split].
  - intros token. reflexivity.
  - intros email password. exists (dnsimple.basicAuth email password).
    split; [reflexivity|]. split; [reflexivity|].
    unfold dnsimple.basicAuth. apply DecodeString_EncodeToString.
  - intros token. reflexivity.
Qed.

(** ** Rate limits *)

(** C8, as the code has it: on a response with its HTTP response
    attached, the three accessors return 2400, 2399 and the time of epoch
    second 1400000000 for the header values 2400, 2399 and 1400000000;
    and they return 0, 0 and the time of epoch second 0 for a header that
    is missing, and for a value that is not numeric when the digits it
    starts with stay below 2^64. *)
Theorem C8_rate_limit_accessors (r : dnsimple.Response) (resp : http.Response) :
  dnsimple.HttpResponse r = Some resp ->
  let value := http.Get (http.Header_ resp) in
  let missing key := http.Header_ resp !! http.CanonicalMIMEHeaderKey key = None in
  let unreadable key :=
    spec.numeric (value key) = false /\ spec.leading_number (value key) < 2 ^ 64 in
  (value "X-RateLimit-Limit" = "2400" -> dnsimple.RateLimit r = Ret 2400) /\
  (value "X-RateLimit-Remaining" = "2399" -> dnsimple.RateLimitRemaining r = Ret 2399) /\
  (value "X-RateLimit-Reset" = "1400000000" ->
   dnsimple.RateLimitReset r = Ret (time.Unix 1400000000 0) /\
   time.Time_Unix (time.Unix 1400000000 0) = 1400000000) /\
  (missing "X-RateLimit-Limit" \/ unreadable "X-RateLimit-Limit" ->
   dnsimple.RateLimit r = Ret 0) /\
  (missing "X-RateLimit-Remaining" \/ unreadable "X-RateLimit-Remaining" ->
   dnsimple.RateLimitRemaining r = Ret 0) /\
  (missing "X-RateLimit-Reset" \/ unreadable "X-RateLimit-Reset" ->
   dnsimple.RateLimitReset r = Ret (time.Unix 0 0)).
Proof.
  intros Hresp value missing unreadable.
  assert (forall key, missing key \/ unreadable key -> unreadable key) as Hun.
  { intros key [Hm|Hu]; [|exact Hu]. unfold missing in Hm. unfold unreadable, value, http.Get.
    rewrite Hm. split; [reflexivity|]. vm_compute. reflexivity. }
  unfold dnsimple.RateLimit, dnsimple.RateLimitRemaining, dnsimple.RateLimitReset,
    dnsimple.header_of.
  rewrite Hresp. cbn [go_bind]. fold value.
  split; [|split; [|split; [|split; [|split]]]].
  - intros ->. reflexivity.
  - intros ->. reflexivity.
  - intros ->. split; reflexivity.
  - intros Hk. destruct (Hun _ Hk) as [Hn Hl]. unfold strconv.Atoi.
    rewrite (ParseInt_not_numeric _ 0 (or_introl eq_refl) Hn Hl). reflexivity.
  - intros Hk. destruct (Hun _ Hk) as [Hn Hl]. unfold strconv.Atoi.
    rewrite (ParseInt_not_numeric _ 0 (or_introl eq_refl) Hn Hl). reflexivity.
  - intros Hk. destruct (Hun _ Hk) as [Hn Hl].
    rewrite (ParseInt_not_numeric _ 64 (or_intror eq_refl) Hn Hl). reflexivity.
Qed.

(** The accessors on a response with the three headers of the example,
    and on one without headers. *)
Lemma C8_rate_limit_accessors_witness :
  let headers :=
    http.Set_ (http.Set_ (http.Set_ ∅ "X-RateLimit-Limit" "2400")
                 "X-RateLimit-Remaining" "2399") "X-RateLimit-Reset" "1400000000" in
  let full := dnsimple.mkResponse (Some (http.mkResponse 200 headers "" None)) None in
  let bare := dnsimple.mkResponse (Some (http.mkResponse 200 ∅ "" None)) None in
  (dnsimple.RateLimit full = Ret 2400 /\
   dnsimple.RateLimitRemaining full = Ret 2399 /\
   dnsimple.RateLimitReset full = Ret (time.Unix 1400000000 0)) /\
  (dnsimple.RateLimit bare = Ret 0 /\
   dnsimple.RateLimitRemaining bare = Ret 0 /\
   dnsimple.RateLimitReset bare = Ret (time.Unix 0 0)).
Proof.
  intros headers full bare. split.
  - destruct (C8_rate_limit_accessors full (http.mkResponse 200 headers "" None) eq_refl)
      as (H1 & H2 & H3 & _).
    split; [apply H1; reflexivity|]. split; [apply H2; reflexivity|].
    apply H3. reflexivity.
  - destruct (C8_rate_limit_accessors bare (http.mkResponse 200 ∅ "" None) eq_refl)
      as (_ & _ & _ & H4 & H5 & H6).
    split; [apply H4; left; reflexivity|]. split; [apply H5; left; reflexivity|].
    apply H6. left. reflexivity.
Defined.

(** Against C8 as the specification has it: a value that is not numeric
    and starts with more digits than 64 bits hold is read as the largest
    [int], not as zero. *)
Lemma C8_counterexample_long_digits :
  let resp :=
    http.mkResponse 200 (http.Set_ ∅ "X-RateLimit-Limit" "99999999999999999999x") "" None in
  http.Get (http.Header_ resp) "X-RateLimit-Limit" = "99999999999999999999x" /\
  spec.numeric "99999999999999999999x" = false /\
  dnsimple.RateLimit (dnsimple.mkResponse (Some resp) None) = Ret 9223372036854775807.
Proof. vm_compute. repeat split; reflexivity. Qed.

(** ** Query options on paths that do not parse *)



(** ** Checking a response *)

(** C1: [CheckResponse] reports no error exactly when the status code
    lies in [200, 299].  For a status code outside that range and a body
    that is a JSON object decoding into the error response, the error is
    an [ErrorResponse] whose message is the [message] member of the body,
    the last one if there are several; so the body with the message
    [Record not found] gives the error with that message, and [Do] hands
    the error on together with the response. *)
Theorem C1_CheckResponse_status_and_message
  (unmarshal_http_Response : json.decoder http.Response) (resp : http.Response) :
  let check := dnsimple.CheckResponse unmarshal_http_Response in
  let decode := dnsimple.Decode_ErrorResponse unmarshal_http_Response in
  (check resp = None <-> 200 <= http.StatusCode resp <= 299) /\
  (~ 200 <= http.StatusCode resp <= 299 ->
   forall (before after : list (string * json.value)) (m : string),
     json.Decoder_next (http.Body resp)
     = inl (json.Object (before ++ ("message", json.String_ m) :: after)) ->
     Forall (fun member => json.equalFold "message" (fst member) = false) after ->
     snd (decode (http.Body resp) (spec.error_shape resp)) = None ->
     exists e,
       check resp = Some (dnsimple.api_error e) /\ dnsimple.Message e = m /\
       forall T (obj : dnsimple.destination T),
         dnsimple.Do unmarshal_http_Response (inl resp) obj
         = (Some resp, Some (dnsimple.api_error e), obj)) /\
  (~ 200 <= http.StatusCode resp <= 299 ->
   http.Body resp = spec.dq "{'message':'Record not found'}" ->
   check resp
   = Some (dnsimple.api_error
             (dnsimple.mkErrorResponse (dnsimple.mkResponse (Some resp) None)
                "Record not found"))).
Proof.
  intros check decode. subst check decode.
  split; [|split].
  - rewrite CheckResponse_unfold, <- in_range_iff.
    destruct ((200 <=? http.StatusCode resp) && (http.StatusCode resp <=? 299)).
    + tauto.
    + destruct (snd _); split; intros; discriminate.
  - intros Hout before after m Hbody Hafter Hok.
    pose proof (Decode_ErrorResponse_message unmarshal_http_Response _ _ _ _ _
                  Hbody Hafter Hok) as Hm.
    assert (dnsimple.CheckResponse unmarshal_http_Response resp
            = Some (dnsimple.api_error
                      (fst (dnsimple.Decode_ErrorResponse unmarshal_http_Response
                              (http.Body resp) (spec.error_shape resp))))) as Hcheck.
    { rewrite CheckResponse_unfold, Hok.
      rewrite <- in_range_iff in Hout. apply not_true_is_false in Hout. rewrite Hout.
      reflexivity. }
    eexists. split; [exact Hcheck|]. split; [exact Hm|].
    intros T obj. unfold dnsimple.Do. rewrite Hcheck. reflexivity.
  - intros Hout Hbody. rewrite CheckResponse_unfold.
    rewrite <- in_range_iff in Hout. apply not_true_is_false in Hout. rewrite Hout.
    unfold dnsimple.Decode_ErrorResponse. rewrite Hbody. reflexivity.
Qed.

(** The answer 404 with the body of the example. *)
Lemma C1_CheckResponse_status_and_message_witness :
  let resp := http.mkResponse 404 ∅ (spec.dq "{'message':'Record not found'}") None in
  exists e,
    dnsimple.CheckResponse example_unmarshal_http_Response resp = Some (dnsimple.api_error e) /\
    dnsimple.Message e = "Record not found" /\
    forall T (obj : dnsimple.destination T),
      dnsimple.Do example_unmarshal_http_Response (inl resp) obj
      = (Some resp, Some (dnsimple.api_error e), obj).
Proof.
  intros resp.
  apply (proj1 (proj2 (C1_CheckResponse_status_and_message
                         example_unmarshal_http_Response resp))
           ltac:(cbn; lia) [] [] "Record not found").
  - reflexivity.
  - constructor.
  - reflexivity.
Defined.

(** C10: for a status code outside [200, 299], when decoding the body
    into the error response fails, [CheckResponse] returns the error of
    the decoder itself; it returns an [ErrorResponse] when decoding
    succeeds and only then, and this [ErrorResponse] is the one the body
    was decoded into, with the response attached. *)
Theorem C10_decode_error_returned
  (unmarshal_http_Response : json.decoder http.Response) (resp : http.Response) :
  ~ 200 <= http.StatusCode resp <= 299 ->
  let check := dnsimple.CheckResponse unmarshal_http_Response in
  let decoded :=
    dnsimple.Decode_ErrorResponse unmarshal_http_Response (http.Body resp)
      (spec.error_shape resp) in
  (forall err, snd decoded = Some err -> check resp = Some (dnsimple.json_error err)) /\
  (snd decoded = None -> check resp = Some (dnsimple.api_error (fst decoded))) /\
  (forall e, check resp = Some (dnsimple.api_error e) -> decoded = (e, None)) /\
  (forall reason, json.Decoder_next (http.Body resp) = inr reason ->
                  check resp = Some (dnsimple.json_error reason)).
Proof.
  intros Hout check decoded. subst check decoded.
  rewrite <- in_range_iff in Hout. apply not_true_is_false in Hout.
  rewrite CheckResponse_unfold, Hout.
  split; [|split; [|split]].
  - intros err ->. reflexivity.
  - intros ->. reflexivity.
  - intros e. destruct (dnsimple.Decode_ErrorResponse _ _ _) as [e' [err|]]; cbn [fst snd].
    + discriminate.
    + intros [= ->]. reflexivity.
  - intros reason Hnext. unfold dnsimple.Decode_ErrorResponse. rewrite Hnext. reflexivity.
Qed.

(** The answer 500 with a page of HTML as its body. *)
Lemma C10_decode_error_returned_witness :
  dnsimple.CheckResponse example_unmarshal_http_Response (http.mkResponse 500 ∅ "<html>" None)
  = Some (dnsimple.json_error json.SyntaxError).
Proof.
  apply (proj2 (proj2 (proj2 (C10_decode_error_returned example_unmarshal_http_Response
                                (http.mkResponse 500 ∅ "<html>" None)
                                ltac:(cbn; lia))))).
  reflexivity.
Defined.

(** ** Query options on paths that parse *)







(** C6, as the code has it: the list options with page 0 and 0 entries
    a page return a plain path unchanged, without a query or followed by
    a query in canonical encoded form; with page 2 and 50 entries a page
    they return a plain path followed by [?page=2&per_page=50], and for
    every path that parses a URL whose query is parameters joined by [&],
    [page=2] and [per_page=50] among them. *)
Theorem C6_ListOptions_encoded (Sprint_other : reflect.Value -> string) :
  let encode p page per_page :=
    dnsimple.addURLQueryOptions Sprint_other p
      (dnsimple.ListOptions_ptr (Some (dnsimple.mkListOptions page per_page))) in
  (forall p v, spec.plain_path p = true ->
               encode (spec.canonical p v) 0 0 = Ret (spec.canonical p v, None)) /\
  (forall p, spec.plain_path p = true -> encode p 0 0 = Ret (p, None)) /\
  (forall p, spec.plain_path p = true ->
             encode p 2 50 = Ret (p ++ "?page=2&per_page=50", None)) /\
  (forall p u, url.Parse p = inl u ->
               exists items,
                 encode p 2 50
                 = Ret (url.String_ (url.with_RawQuery u (String.concat "&" items)), None) /\
                 In "page=2" items /\ In "per_page=50" items).
Proof.
  intros encode. subst encode. cbv beta.
  split; [|split; [|split]].
  - intros p v Hp.
    unfold dnsimple.ListOptions_ptr, dnsimple.ListOptions_Value.
    cbn [option_map dnsimple.Page dnsimple.PerPage_].
    erewrite addURLQueryOptions_bundle by reflexivity.
    rewrite (encode_canonical Sprint_other p v _ ∅ Hp (add_fields_zero Sprint_other)).
    rewrite add_all_empty. do 2 f_equal.
    apply canonical_Encode, Encode_ParseQuery_Encode.
  - intros p Hp. apply encode_zero, Hp.
  - intros p Hp. apply encode_2_50, Hp.
  - intros p u Hparse. apply encode_2_50_parsed, Hparse.
Qed.

(** The path of the domains, without a query and with one. *)
Lemma C6_ListOptions_encoded_witness :
  let encode p page per_page :=
    dnsimple.addURLQueryOptions example_Sprint_other p
      (dnsimple.ListOptions_ptr (Some (dnsimple.mkListOptions page per_page))) in
  encode "/v2/domains" 0 0 = Ret ("/v2/domains", None) /\
  encode "/v2/domains" 2 50 = Ret ("/v2/domains?page=2&per_page=50", None).
Proof.
  intros encode. split.
  - apply (proj1 (proj2 (C6_ListOptions_encoded example_Sprint_other))). reflexivity.
  - apply (proj1 (proj2 (proj2 (C6_ListOptions_encoded example_Sprint_other)))
             "/v2/domains"). reflexivity.
Defined.

(** Against C6 as the specification has it: a path whose query is not
    in canonical encoded form comes back with the query written anew. *)
Lemma C6_counterexample_query_rewritten :
  dnsimple.addURLQueryOptions example_Sprint_other "/v2/domains?b=1&a=2"
    (dnsimple.ListOptions_ptr (Some (dnsimple.mkListOptions 0 0)))
  = Ret ("/v2/domains?a=2&b=1", None) /\
  "/v2/domains?a=2&b=1" <> "/v2/domains?b=1&a=2".
Proof. split; [vm_compute; reflexivity|discriminate]. Qed.

(** ** Webhook events *)

(** C3, as the code has it: with [unmashalEvent] decoding the payload
    as JSON, [switchEvent] is the dispatcher of the specification.  For
    every raw payload it returns an event whose shape the name alone
    selects: the domain event for the five names of the domain lifecycle,
    the webhook event for [webhook.create], the generic event for every
    other name; the event holds the raw payload, with or without an
    error.  The name raises nothing of its own: names that select the
    same shape give the same result, and the error is the one of decoding
    the payload into the selected shape, which is the error of the syntax
    check for a payload that is not one JSON value, a type error naming
    the shape for a value that is neither an object nor [null], and no
    error for a generic event whose payload fits it.  A domain event
    decoded without an error has its [Domain] decoded from the payload's
    [domain] object. *)
Theorem C3_switchEvent_selects_by_name `{webhook.Declarations} `{!webhook.Decoders}
  (name payload : string) :
  let switchEvent := @webhook.switchEvent _ webhook.unmashalEvent_json in
  let result := switchEvent name payload in
  exists event,
    result = (Some event, snd (spec.dispatch name payload)) /\
    event = fst (spec.dispatch name payload) /\
    spec.shape_of event = spec.selected name /\
    (In name spec.domain_names -> spec.shape_of event = spec.DomainShape) /\
    (name = "webhook.create" -> spec.shape_of event = spec.WebhookShape) /\
    (~ In name spec.domain_names -> name <> "webhook.create" ->
     spec.shape_of event = spec.GenericShape) /\
    webhook.Payload event = payload /\
    (forall name',
       spec.selected name' = spec.selected name -> switchEvent name' payload = result) /\
    (forall err, json.valid_document payload = inr err -> snd result = Some err) /\
    (forall v,
       json.valid_document payload = inl v ->
       structured v = false ->
       snd result = Some (json.UnmarshalTypeError (spec.type_name (spec.selected name)))) /\
    (forall v,
       spec.selected name = spec.GenericShape ->
       json.valid_document payload = inl v ->
       fits GenericEvent_fields v ->
       snd result = None) /\
    (forall members d,
       spec.selected name = spec.DomainShape ->
       json.valid_document payload = inl (json.Object members) ->
       spec.domain_object members d ->
       d <> json.Null ->
       snd result = None ->
       exists e,
         event = webhook.IsDomainEvent e /\
         webhook.D_Domain e = Some (fst (webhook.unmarshal_Domain d webhook.Domain_zero))).
Proof.
  intros switchEvent result. subst result switchEvent. cbv beta.
  destruct (@switchEvent_shape _ webhook.unmashalEvent_json name payload)
    as (event & Hevent & Hshape).
  destruct (switchEvent_json_payload name payload) as (event' & Hevent' & Hpayload).
  assert (event' = event) as -> by congruence.
  destruct (selected_cases name) as (Hd & Hw & Hg).
  pose proof (switchEvent_dispatch name payload) as Hdis.
  assert (event = fst (spec.dispatch name payload)) as Hfst.
  { rewrite Hdis in Hevent. cbn [fst] in Hevent. congruence. }
  exists event. rewrite Hshape.
  split; [rewrite Hdis, Hfst; reflexivity|]. split; [exact Hfst|].
  split; [reflexivity|]. split; [exact Hd|].
  split; [exact Hw|]. split; [exact Hg|]. split; [exact Hpayload|].
  split; [|split; [|split; [|split]]].
  - intros name' Hsame. rewrite Hdis, (switchEvent_dispatch name' payload).
    unfold spec.dispatch. rewrite Hsame. reflexivity.
  - intros err Hv. rewrite Hdis. cbn [snd]. exact (dispatch_invalid name payload err Hv).
  - intros v Hv Hs. rewrite Hdis. cbn [snd]. exact (dispatch_mismatch name payload v Hv Hs).
  - intros v Hsel Hv Hfit. rewrite Hdis. cbn [snd].
    exact (dispatch_generic_fits name payload v Hsel Hv Hfit).
  - intros members d Hsel Hvalid Hobj Hnull Hok.
    destruct (switchEvent_json_domain name payload members d Hsel Hvalid Hobj Hnull Hok)
      as (e & He & Hdom).
    exists e. split; [congruence|exact Hdom].
Qed.

(** The creation of a domain, with the domain inside [data]; and an
    event of a name the table does not hold. *)
Lemma C3_switchEvent_selects_by_name_witness :
  let created :=
    spec.dq "{'name':'domain.create','data':{'domain':{'id':1,'name':'example.com'}}}" in
  let unknown := spec.dq "{'name':'unknown.event','data':{'account':{'id':1}}}" in
  (exists event,
     fst (example_switchEvent "domain.create" created) = Some event /\
     spec.shape_of event = spec.DomainShape /\
     webhook.Payload event = created /\
     exists e,
       event = webhook.IsDomainEvent e /\
       @webhook.D_Domain example_Declarations e = Some (1, "example.com")) /\
  (exists event,
     example_switchEvent "unknown.event" unknown = (Some event, None) /\
     spec.shape_of event = spec.GenericShape /\
     webhook.Payload event = unknown).
Proof.
  intros created unknown. split.
  - destruct (@C3_switchEvent_selects_by_name example_Declarations example_Decoders
                "domain.create" created)
      as (event & Hresult & _ & Hshape & _ & _ & _ & Hpayload & _ & _ & _ & _ & Hdomain).
    cbv zeta in Hresult, Hdomain.
    exists event. split; [unfold example_switchEvent; rewrite Hresult; reflexivity|].
    split; [exact Hshape|]. split; [exact Hpayload|].
    apply (Hdomain
             [ ("name", json.String_ "domain.create");
               ("data",
                json.Object
                  [("domain",
                    json.Object [("id", json.Number "1"); ("name", json.String_ "example.com")])]) ]
             (json.Object [("id", json.Number "1"); ("name", json.String_ "example.com")])).
    + reflexivity.
    + reflexivity.
    + right. exists [("name", json.String_ "domain.create")], [], [], [].
      split; [reflexivity|]. repeat split; repeat constructor.
    + discriminate.
    + reflexivity.
  - destruct (@C3_switchEvent_selects_by_name example_Declarations example_Decoders
                "unknown.event" unknown)
      as (event & Hresult & _ & Hshape & _ & _ & _ & Hpayload & _ & _ & _ & Hfits & _).
    cbv zeta in Hresult, Hfits.
    exists event. split; [|split; [exact Hshape|exact Hpayload]].
    assert (snd (example_switchEvent "unknown.event" unknown) = None) as Hnone.
    { apply (Hfits
               (json.Object
                  [ ("name", json.String_ "unknown.event");
                    ("data",
                     json.Object [("account", json.Object [("id", json.Number "1")])]) ])).
      - reflexivity.
      - reflexivity.
      - repeat constructor; cbn [fst snd];
          intros d Hd; vm_compute in Hd; injection Hd as <-; intros [h a]; reflexivity. }
    unfold example_switchEvent in *. rewrite Hresult in Hnone |- *.
    cbn [snd] in Hnone. rewrite Hnone. reflexivity.
Defined.

(** Against C3 as the specification has it: under a name the table does
    not hold, a payload that is an array, and one that ends inside its
    object, come back with the error of the decoder. *)
Lemma C3_counterexample_decoding_error :
  example_switchEvent "unknown.event" "[1]"
  = (Some (@webhook.IsGenericEvent example_Declarations
             (@webhook.mkGenericEvent example_Declarations
                (@webhook.mkEvent_Header example_Declarations "" "[1]") None)),
     Some (json.UnmarshalTypeError "webhook.GenericEvent")) /\
  example_switchEvent "unknown.event" "{"
  = (Some (@webhook.IsGenericEvent example_Declarations
             (@webhook.mkGenericEvent example_Declarations
                (@webhook.mkEvent_Header example_Declarations "" "{") None)),
     Some json.SyntaxError).
Proof. split; vm_compute; reflexivity. Qed.




(** * Further properties of the code *)

(** X1: [Do] hands the response back whenever the transport delivered
    one, also together with an error.  For a status code outside
    [200, 299] the error is the one of [CheckResponse] and [obj] is left
    as it was; for a status code inside the range an [io.Writer] receives
    the body and no error is returned. *)
Theorem X1_Do_hands_back_response
  (unmarshal_http_Response : json.decoder http.Response) (resp : http.Response)
  (T : Type) (obj : dnsimple.destination T) :
  let result := dnsimple.Do unmarshal_http_Response (inl resp) obj in
  fst (fst result) = Some resp /\
  (~ 200 <= http.StatusCode resp <= 299 ->
   snd (fst result) = dnsimple.CheckResponse unmarshal_http_Response resp /\
   snd (fst result) <> None /\
   snd result = obj) /\
  (200 <= http.StatusCode resp <= 299 ->
   forall written,
     obj = dnsimple.Writer written ->
     result = (Some resp, None, dnsimple.Writer (written ++ http.Body resp))).
Proof.
  intros result. subst result. unfold dnsimple.Do.
  rewrite CheckResponse_unfold.
  destruct ((200 <=? http.StatusCode resp) && (http.StatusCode resp <=? 299)) eqn:Hcode.
  - apply in_range_iff in Hcode. split; [|split].
    + destruct obj as [|written|decode t]; [reflexivity|reflexivity|].
      destruct (decode (http.Body resp) t). reflexivity.
    + intros Hout. contradiction.
    + intros _ written ->. reflexivity.
  - set (failure := snd (dnsimple.Decode_ErrorResponse unmarshal_http_Response
                           (http.Body resp) (spec.error_shape resp))).
    split; [|split].
    + destruct failure; reflexivity.
    + intros _. destruct failure; cbn [fst snd]; split; try reflexivity; split;
        try reflexivity; discriminate.
    + intros Hin. apply in_range_iff in Hin. congruence.
Qed.

(** An answer 503 without a body, and a writer that holds [abc]. *)
Lemma X1_Do_hands_back_response_witness :
  let resp := http.mkResponse 503 ∅ "" None in
  let result :=
    dnsimple.Do example_unmarshal_http_Response (inl resp) (@dnsimple.Writer unit "abc") in
  snd (fst result) = Some (dnsimple.json_error json.EOF) /\ snd result = dnsimple.Writer "abc".
Proof.
  intros resp result.
  destruct (proj1 (proj2 (X1_Do_hands_back_response example_unmarshal_http_Response resp
                            unit (dnsimple.Writer "abc")))
              ltac:(cbn; lia)) as (Herr & _ & Hobj).
  subst result. split; [rewrite Herr; reflexivity|exact Hobj].
Defined.

(** X2: [isEmptyValue] holds exactly of the defaults: the empty string,
    array, slice and map, the zero of each integer and float type, false,
    and the nil pointer and interface; of no struct, channel or function. *)
Theorem X2_isEmptyValue_defaults (v : reflect.Value) :
  dnsimple.isEmptyValue v = spec.is_default v.
Proof. apply isEmptyValue_is_default. Qed.

(** X3: [optionsContains] tells whether the option is among the
    options. *)
Theorem X3_optionsContains_In (options : list string) (option : string) :
  dnsimple.optionsContains options option = true <-> In option options.
Proof.
  induction options as [|s options IH]; cbn [dnsimple.optionsContains In].
  - split; [discriminate|contradiction].
  - destruct (String.eqb s option) eqn:E.
    + apply String.eqb_eq in E. tauto.
    + apply String.eqb_neq in E. rewrite IH. tauto.
Qed.

(** X4: options that are the nil interface, or neither a struct nor a
    pointer to one, make [addURLQueryOptions] panic in reflection,
    whatever the path. *)
Theorem X4_options_without_fields_panic (Sprint_other : reflect.Value -> string)
  (path : string) (options : option reflect.Value) :
  spec.bundle options = None ->
  options <> Some (reflect.VPtr None) ->
  exists msg, dnsimple.addURLQueryOptions Sprint_other path options = Panic msg.
Proof.
  intros Hbundle Hnil. unfold dnsimple.addURLQueryOptions.
  destruct options as [v|]; [|eauto].
  destruct v as [b|k n|k n|k bits|k re im|s|l|l|l|l|c|a|d|t|fs]; try discriminate; eauto.
  destruct t as [t|]; [|congruence].
  destruct t; try discriminate; eauto.
Qed.

(** The nil interface, and an integer in the place of the options. *)
Lemma X4_options_without_fields_panic_witness :
  (exists msg, dnsimple.addURLQueryOptions example_Sprint_other "/v2/domains" None = Panic msg) /\
  (exists msg,
     dnsimple.addURLQueryOptions example_Sprint_other "/v2/domains"
       (Some (reflect.VInt reflect.I 7)) = Panic msg).
Proof.
  split.
  - apply X4_options_without_fields_panic; [reflexivity|discriminate].
  - apply X4_options_without_fields_panic; [reflexivity|discriminate].
Defined.
(** * Properties of the client *)

(** ** Trimming a byte *)

Lemma trim_left_run (c : ascii) (s : string) :
  exists n, s = run c n ++ strings.trim_left c s.
Proof.
  induction s as [|a s (n & IH)]; [exists O; reflexivity|].
  cbn [strings.trim_left]. destruct (Ascii.eqb a c) eqn:E.
  - apply Ascii.eqb_eq in E. subst a. exists (S n).
    change (run c (S n) ++ strings.trim_left c s) with (String c (run c n ++ strings.trim_left c s)).
    now rewrite <- IH.
  - exists O. reflexivity.
Qed.

Lemma trim_left_head (c : ascii) (s : string) :
  strings.HasPrefix (strings.trim_left c s) (String c "") = false.
Proof.
  induction s as [|a s IH]; [reflexivity|].
  cbn [strings.trim_left]. destruct (Ascii.eqb a c) eqn:E; [exact IH|].
  cbn. rewrite E. reflexivity.
Qed.

Lemma trim_left_fixed (c : ascii) (s : string) :
  strings.HasPrefix s (String c "") = false -> strings.trim_left c s = s.
Proof.
  destruct s as [|a s]; [reflexivity|]. cbn. destruct (Ascii.eqb a c); [discriminate|reflexivity].
Qed.

Lemma trim_right_run (c : ascii) (s : string) :
  exists n, s = strings.trim_right c s ++ run c n.
Proof.
  induction s as [|a s (n & IH)]; [exists O; reflexivity|].
  cbn [strings.trim_right]. destruct (strings.trim_right c s) as [|b t] eqn:Et.
  - destruct (Ascii.eqb a c) eqn:E.
    + apply Ascii.eqb_eq in E. subst a. exists (S n).
      change ("" ++ run c (S n)) with (String c ("" ++ run c n)). now rewrite <- IH.
    + exists n. change (String a "" ++ run c n) with (String a ("" ++ run c n)). now rewrite <- IH.
  - exists n. change (String a (String b t) ++ run c n) with (String a (String b t ++ run c n)).
    now rewrite <- IH.
Qed.

Lemma trim_right_last (c : ascii) (s : string) :
  strings.strip_last c (strings.trim_right c s) = None.
Proof.
  induction s as [|a s IH]; [reflexivity|].
  cbn [strings.trim_right]. destruct (strings.trim_right c s) as [|b t] eqn:Et.
  - destruct (Ascii.eqb a c) eqn:E; [reflexivity|]. cbn. rewrite E. reflexivity.
  - change (strings.strip_last c (String a (String b t)))
      with (option_map (String a) (strings.strip_last c (String b t))).
    rewrite IH. reflexivity.
Qed.

Lemma trim_right_fixed (c : ascii) (s : string) :
  strings.strip_last c s = None -> strings.trim_right c s = s.
Proof.
  induction s as [|a s IH]; [reflexivity|].
  destruct s as [|b t].
  - cbn. destruct (Ascii.eqb a c); [discriminate|reflexivity].
  - change (strings.strip_last c (String a (String b t)))
      with (option_map (String a) (strings.strip_last c (String b t))).
    intros H. destruct (strings.strip_last c (String b t)) eqn:E; [discriminate|].
    cbn [strings.trim_right] in *. rewrite (IH eq_refl). reflexivity.
Qed.

Lemma trim_right_head (c : ascii) (s : string) :
  strings.HasPrefix s (String c "") = false ->
  strings.HasPrefix (strings.trim_right c s) (String c "") = false.
Proof.
  destruct s as [|a s]; [reflexivity|]. cbn [strings.trim_right].
  intros H. cbn in H. destruct (Ascii.eqb a c) eqn:E; [discriminate|].
  destruct (strings.trim_right c s); cbn; rewrite E; reflexivity.
Qed.

Lemma trim_right_app (c : ascii) (a s : string) :
  strings.trim_right c s <> "" ->
  strings.trim_right c (a ++ s) = a ++ strings.trim_right c s.
Proof.
  intros Hs. induction a as [|x a IH]; [reflexivity|].
  change (String x a ++ s) with (String x (a ++ s)).
  cbn [strings.trim_right]. rewrite IH.
  change (String x a ++ strings.trim_right c s) with (String x (a ++ strings.trim_right c s)).
  destruct (a ++ strings.trim_right c s) eqn:E; [|reflexivity].
  destruct a; [|discriminate]. contradiction.
Qed.

Lemma trim_right_snoc (c : ascii) (s : string) :
  strings.trim_right c (s ++ String c "") = strings.trim_right c s.
Proof.
  induction s as [|a s IH].
  - change ("" ++ String c "") with (String c "").
    cbn [strings.trim_right]. rewrite Ascii.eqb_refl. reflexivity.
  - change (String a s ++ String c "") with (String a (s ++ String c "")).
    cbn [strings.trim_right]. rewrite IH. reflexivity.
Qed.

Lemma trim_left_snoc (c : ascii) (s : string) :
  strings.trim_left c (s ++ String c "") =
  match strings.trim_left c s with
  | "" => ""
  | t => t ++ String c ""
  end.
Proof.
  induction s as [|a s IH].
  - change ("" ++ String c "") with (String c "").
    cbn [strings.trim_left]. rewrite Ascii.eqb_refl. reflexivity.
  - change (String a s ++ String c "") with (String a (s ++ String c "")).
    cbn [strings.trim_left]. destruct (Ascii.eqb a c); [exact IH|reflexivity].
Qed.

Lemma Trim_cons (c : ascii) (s : string) : strings.Trim (String c s) c = strings.Trim s c.
Proof. unfold strings.Trim. cbn [strings.trim_left]. rewrite Ascii.eqb_refl. reflexivity. Qed.

Lemma Trim_snoc (c : ascii) (s : string) : strings.Trim (s ++ String c "") c = strings.Trim s c.
Proof.
  unfold strings.Trim. rewrite trim_left_snoc.
  destruct (strings.trim_left c s) as [|b t] eqn:E; [reflexivity|].
  apply trim_right_snoc.
Qed.

Lemma Trim_fixed (c : ascii) (s : string) :
  strings.HasPrefix s (String c "") = false -> strings.strip_last c s = None ->
  strings.Trim s c = s.
Proof.
  intros Hh Hl. unfold strings.Trim. rewrite trim_left_fixed by exact Hh.
  apply trim_right_fixed, Hl.
Qed.

Lemma Trim_ends (c : ascii) (s : string) :
  strings.HasPrefix (strings.Trim s c) (String c "") = false /\
  strings.strip_last c (strings.Trim s c) = None.
Proof.
  unfold strings.Trim. split; [|apply trim_right_last].
  apply trim_right_head, trim_left_head.
Qed.

Lemma Trim_runs (c : ascii) (s : string) :
  exists m n, s = run c m ++ strings.Trim s c ++ run c n.
Proof.
  destruct (trim_left_run c s) as (m & Hm).
  destruct (trim_right_run c (strings.trim_left c s)) as (n & Hn).
  exists m, n. unfold strings.Trim. rewrite <- Hn. exact Hm.
Qed.

(** ** versioned *)

Lemma versioned_twice (path : string) :
  dnsimple.versioned (dnsimple.versioned path) =
  "/v2/v2" ++ (if String.eqb (strings.Trim path "/") "" then ""
               else "/" ++ strings.Trim path "/").
Proof.
  unfold dnsimple.versioned, dnsimple.apiVersion.
  destruct (Trim_ends "/" path) as [Hh Hl].
  set (t := strings.Trim path "/") in *.
  change ("/" ++ "v2" ++ "/" ++ t) with (String "/" ("v2/" ++ t)).
  rewrite Trim_cons. unfold strings.Trim.
  rewrite (trim_left_fixed "/" ("v2/" ++ t)) by reflexivity.
  destruct t as [|a t'] eqn:Et.
  - reflexivity.
  - rewrite <- Et in *. assert (String.eqb t "" = false) as -> by (rewrite Et; reflexivity).
    rewrite trim_right_app; rewrite (trim_right_fixed "/" t Hl); [reflexivity|].
    rewrite Et. discriminate.
Qed.

(** ** Decimal digits *)

Lemma digits_value_app (m : Z) (d e : string) :
  spec.digits_value m (d ++ e) = spec.digits_value (spec.digits_value m d) e.
Proof.
  revert m. induction d as [|c d IH]; intros m; [reflexivity|].
  change (String c d ++ e) with (String c (d ++ e)). cbn [spec.digits_value]. apply IH.
Qed.

Lemma digit_val (r : Z) :
  0 <= r < 10 -> byte.val (byte.of_Z (byte.val "0" + r)) - byte.val "0" = r.
Proof.
  intros Hr. assert (r = 0 \/ r = 1 \/ r = 2 \/ r = 3 \/ r = 4 \/ r = 5 \/ r = 6 \/ r = 7 \/
                     r = 8 \/ r = 9) as H by lia.
  repeat (destruct H as [-> | H]; [reflexivity|]). subst r. reflexivity.
Qed.

Lemma digit_not_minus (r : Z) :
  0 <= r < 10 -> Ascii.eqb (byte.of_Z (byte.val "0" + r)) "-" = false.
Proof.
  intros Hr. assert (r = 0 \/ r = 1 \/ r = 2 \/ r = 3 \/ r = 4 \/ r = 5 \/ r = 6 \/ r = 7 \/
                     r = 8 \/ r = 9) as H by lia.
  repeat (destruct H as [-> | H]; [reflexivity|]). subst r. reflexivity.
Qed.

(** The digits written for [n] denote [n], and the first is no sign. *)
Lemma digits_denote (fuel : nat) :
  forall (n : Z) (acc : string),
    0 <= n < 10 ^ Z.of_nat (S fuel) ->
    exists c d,
      strconv.digits (S fuel) n acc = String c d ++ acc /\
      Ascii.eqb c "-" = false /\
      forall m, spec.digits_value m (String c d) = m * 10 ^ Z.of_nat (String.length (String c d)) + n.
Proof.
  assert (forall n acc, 0 <= n < 10 ->
            exists c d,
              String (byte.of_Z (byte.val "0" + n mod 10)) acc = String c d ++ acc /\
              Ascii.eqb c "-" = false /\
              forall m, spec.digits_value m (String c d)
                        = m * 10 ^ Z.of_nat (String.length (String c d)) + n) as Hsmall.
  { intros n acc Hlt. exists (byte.of_Z (byte.val "0" + n mod 10)), "".
    rewrite Z.mod_small by lia.
    split; [reflexivity|]. split; [apply digit_not_minus; lia|].
    intros m. cbn [spec.digits_value String.length]. rewrite digit_val by lia.
    change (10 ^ Z.of_nat 1) with 10. reflexivity. }
  induction fuel as [|fuel IH]; intros n acc Hn.
  - change (10 ^ Z.of_nat 1) with 10 in Hn. cbn [strconv.digits].
    assert ((n <? 10) = true) as -> by (apply Z.ltb_lt; lia). apply Hsmall. lia.
  - remember (S fuel) as k. cbn [strconv.digits]. destruct (n <? 10) eqn:Hlt.
    + apply Z.ltb_lt in Hlt. apply Hsmall. lia.
    + apply Z.ltb_ge in Hlt. subst k.
      assert (0 <= n / 10 < 10 ^ Z.of_nat (S fuel)) as Hq.
      { rewrite (Nat2Z.inj_succ (S fuel)), Z.pow_succ_r in Hn by lia.
        split; [apply Z.div_pos; lia|]. apply Z.div_lt_upper_bound; lia. }
      destruct (IH (n / 10) (String (byte.of_Z (byte.val "0" + n mod 10)) acc) Hq)
        as (c & d & Hd & Hc & Hv).
      exists c, (d ++ String (byte.of_Z (byte.val "0" + n mod 10)) "").
      split.
      { rewrite Hd.
        change (String c (d ++ String (byte.of_Z (byte.val "0" + n mod 10)) "") ++ acc)
          with (String c ((d ++ String (byte.of_Z (byte.val "0" + n mod 10)) "") ++ acc)).
        rewrite str_app_assoc. reflexivity. }
      split; [exact Hc|].
      intros m.
      change (String c (d ++ String (byte.of_Z (byte.val "0" + n mod 10)) ""))
        with (String c d ++ String (byte.of_Z (byte.val "0" + n mod 10)) "").
      rewrite digits_value_app, Hv. cbn [spec.digits_value].
      rewrite digit_val by (apply Z.mod_pos_bound; lia).
      assert (String.length (String c d ++ String (byte.of_Z (byte.val "0" + n mod 10)) "")
              = S (String.length (String c d))) as ->.
      { clear. generalize (String c d) as s. intros s. induction s as [|a s IHs]; [reflexivity|].
        change (String a s ++ ?t) with (String a (s ++ t)). cbn [String.length]. now rewrite IHs. }
      rewrite Nat2Z.inj_succ, Z.pow_succ_r by lia.
      pose proof (Z.div_mod n 10 ltac:(lia)). lia.
Qed.

Lemma log2_fuel (n : Z) : 0 <= n -> n < 10 ^ Z.of_nat (S (Z.to_nat (Z.log2 n))).
Proof.
  intros Hn. rewrite Nat2Z.inj_succ, Z2Nat.id by apply Z.log2_nonneg.
  replace (Z.succ (Z.log2 n)) with (Z.log2 n + 1) by lia.
  destruct (Z.eq_dec n 0) as [->|Hne]; [reflexivity|].
  pose proof (Z.log2_spec n ltac:(lia)) as [_ Hu].
  eapply Z.lt_le_trans; [exact Hu|].
  replace (Z.succ (Z.log2 n)) with (Z.log2 n + 1) by lia.
  apply Z.pow_le_mono_l. pose proof (Z.log2_nonneg n). lia.
Qed.

Lemma str_app_inv_head (a s t : string) : a ++ s = a ++ t -> s = t.
Proof.
  induction a as [|c a IH]; [auto|].
  change (String c a ++ ?u) with (String c (a ++ u)). intros [= H]. auto.
Qed.

(** [FormatInt] writes different numbers differently. *)
Lemma FormatInt_inj (i j : Z) : strconv.FormatInt i = strconv.FormatInt j -> i = j.
Proof.
  assert (forall n, 0 <= n ->
            exists c d, strconv.digits (Z.to_nat (Z.log2 n) + 1) n "" = String c d /\
                        Ascii.eqb c "-" = false /\
                        spec.digits_value 0 (String c d) = n) as Hnat.
  { intros n Hn. rewrite Nat.add_1_r.
    destruct (digits_denote _ n "" (conj Hn (log2_fuel n Hn))) as (c & d & Hd & Hc & Hv).
    exists c, d. rewrite Hd, str_app_nil_r. split; [reflexivity|]. split; [exact Hc|].
    rewrite Hv. lia. }
  unfold strconv.FormatInt.
  destruct (i <? 0) eqn:Hi, (j <? 0) eqn:Hj.
  - apply Z.ltb_lt in Hi, Hj.
    destruct (Hnat (- i) ltac:(lia)) as (c & d & -> & _ & Hv).
    destruct (Hnat (- j) ltac:(lia)) as (c' & d' & -> & _ & Hv').
    intros [= -> ->]. lia.
  - apply Z.ltb_lt in Hi. apply Z.ltb_ge in Hj.
    destruct (Hnat j Hj) as (c' & d' & -> & Hc & _).
    intros [= <- _]. discriminate.
  - apply Z.ltb_ge in Hi. apply Z.ltb_lt in Hj.
    destruct (Hnat i Hi) as (c & d & -> & Hc & _).
    intros [= -> _]. discriminate.
  - apply Z.ltb_ge in Hi, Hj.
    destruct (Hnat i Hi) as (c & d & -> & _ & Hv).
    destruct (Hnat j Hj) as (c' & d' & -> & _ & Hv').
    intros [= -> ->]. lia.
Qed.

Lemma FormatInt_not_empty (i : Z) : strconv.FormatInt i <> "".
Proof.
  unfold strconv.FormatInt. destruct (i <? 0) eqn:Hi; [discriminate|].
  apply Z.ltb_ge in Hi. rewrite Nat.add_1_r.
  destruct (digits_denote _ i "" (conj Hi (log2_fuel i Hi))) as (c & d & -> & _). discriminate.
Qed.

Lemma str_app_not_self (s t : string) : t <> "" -> s ++ t <> s.
Proof.
  intros Ht H. apply (f_equal String.length) in H.
  assert (forall a b, String.length (a ++ b) = (String.length a + String.length b)%nat) as Hlen.
  { clear. intros a b. induction a as [|c a IH]; [reflexivity|].
    change (String c a ++ b) with (String c (a ++ b)). cbn [String.length]. now rewrite IH. }
  rewrite Hlen in H. destruct t; [contradiction|]. cbn in H. lia.
Qed.

(** The path of a record tells the record. *)
Lemma zoneRecordPath_inj (accountID zoneID : string) (i j : Z) :
  dnsimple.zoneRecordPath accountID zoneID i = dnsimple.zoneRecordPath accountID zoneID j ->
  i = j.
Proof.
  unfold dnsimple.zoneRecordPath.
  set (path := "/" ++ accountID ++ "/zones/" ++ zoneID ++ "/records").
  destruct (i =? 0) eqn:Hi, (j =? 0) eqn:Hj; cbn [negb].
  - apply Z.eqb_eq in Hi, Hj. congruence.
  - intros H. symmetry in H. exfalso. revert H. apply str_app_not_self. discriminate.
  - intros H. exfalso. revert H. apply str_app_not_self. discriminate.
  - intros H. apply str_app_inv_head in H.
    change ("/" ++ strconv.FormatInt i) with (String "/" (strconv.FormatInt i)) in H.
    change ("/" ++ strconv.FormatInt j) with (String "/" (strconv.FormatInt j)) in H.
    injection H as H. apply FormatInt_inj, H.
Qed.

(** ** Paths built from identifiers *)

Lemma path_bytes_app (s t : string) :
  spec.path_bytes (s ++ t) = spec.path_bytes s && spec.path_bytes t.
Proof.
  induction s as [|c s IH]; [reflexivity|].
  change (String c s ++ t) with (String c (s ++ t)). cbn [spec.path_bytes].
  rewrite IH, andb_assoc. reflexivity.
Qed.

Lemma digit_path_byte (r : Z) :
  0 <= r < 10 ->
  url.shouldEscape (byte.of_Z (byte.val "0" + r)) url.encodePath = false /\
  Ascii.eqb (byte.of_Z (byte.val "0" + r)) "/" = false.
Proof.
  intros Hr. assert (r = 0 \/ r = 1 \/ r = 2 \/ r = 3 \/ r = 4 \/ r = 5 \/ r = 6 \/ r = 7 \/
                     r = 8 \/ r = 9) as H by lia.
  repeat (destruct H as [-> | H]; [split; reflexivity|]). subst r. split; reflexivity.
Qed.

Lemma digits_segment (fuel : nat) :
  forall (n : Z) (acc : string),
    0 <= n ->
    spec.path_bytes acc = true -> lacks ["/"]%char acc = true ->
    spec.path_bytes (strconv.digits fuel n acc) = true /\
    lacks ["/"]%char (strconv.digits fuel n acc) = true.
Proof.
  induction fuel as [|fuel IH]; intros n acc Hn Hacc Hl; [auto|].
  cbn [strconv.digits].
  destruct (digit_path_byte (n mod 10) ltac:(apply Z.mod_pos_bound; lia)) as [Hd1 Hd2].
  assert (spec.path_bytes (String (byte.of_Z (byte.val "0" + n mod 10)) acc) = true) as Hacc'
    by (cbn [spec.path_bytes]; rewrite Hd1, Hacc; reflexivity).
  assert (lacks ["/"]%char (String (byte.of_Z (byte.val "0" + n mod 10)) acc) = true) as Hl'
    by (cbn [lacks existsb]; rewrite Hd2, Hl; reflexivity).
  destruct (n <? 10); [auto|].
  apply IH; [apply Z.div_pos; lia|assumption|assumption].
Qed.

(** A number in decimal is a segment. *)
Lemma FormatInt_segment (n : Z) : segment (strconv.FormatInt n) = true.
Proof.
  unfold segment. pose proof (FormatInt_not_empty n) as Hne.
  apply String.eqb_neq in Hne. rewrite Hne. cbn [negb andb].
  unfold strconv.FormatInt. destruct (n <? 0) eqn:Hn.
  - apply Z.ltb_lt in Hn.
    destruct (digits_segment (Z.to_nat (Z.log2 (- n)) + 1) (- n) "" ltac:(lia) eq_refl eq_refl)
      as [H1 H2].
    cbn [lacks existsb spec.path_bytes]. rewrite H1, H2. reflexivity.
  - apply Z.ltb_ge in Hn.
    destruct (digits_segment (Z.to_nat (Z.log2 n) + 1) n "" Hn eq_refl eq_refl) as [H1 H2].
    rewrite H1, H2. reflexivity.
Qed.

Lemma segment_inv (s : string) :
  segment s = true ->
  s <> "" /\ lacks ["/"]%char s = true /\ spec.path_bytes s = true /\
  strings.HasPrefix s "/" = false.
Proof.
  unfold segment. intros H. apply andb_prop in H as [H H3]. apply andb_prop in H as [H1 H2].
  apply negb_true_iff, String.eqb_neq in H1.
  repeat split; try assumption.
  destruct s as [|c s]; [contradiction|]. cbn [lacks existsb] in H2.
  apply andb_prop in H2 as [H2 _]. apply negb_true_iff in H2. rewrite orb_false_r in H2.
  cbn. rewrite H2. reflexivity.
Qed.

(** A path that starts with a slash and a segment, and does not end in a
    slash, is versioned by putting [/v2] before it, and the result is a
    plain path. *)
Lemma versioned_rooted (a rest : string) (last : ascii) :
  segment a = true ->
  spec.path_bytes rest = true ->
  url.shouldEscape last url.encodePath = false ->
  Ascii.eqb last "/" = false ->
  let path := "/" ++ a ++ rest ++ String last "" in
  dnsimple.versioned path = "/v2" ++ path /\
  spec.plain_path (dnsimple.versioned path) = true.
Proof.
  intros Ha Hrest Hlast Hslash path.
  destruct (segment_inv a Ha) as (Hne & Hl & Hb & Hh).
  assert (dnsimple.versioned path = "/v2" ++ path) as Hv.
  { unfold dnsimple.versioned, dnsimple.apiVersion. subst path.
    change ("/" ++ a ++ rest ++ String last "") with (String "/" (a ++ rest ++ String last "")).
    rewrite Trim_cons, Trim_fixed; [reflexivity| |].
    - destruct a as [|c a]; [contradiction|]. exact Hh.
    - rewrite <- str_app_assoc. apply strip_last_lacks; [|discriminate].
      cbn [lacks existsb]. rewrite Hslash. reflexivity. }
  split; [exact Hv|]. rewrite Hv. subst path.
  change ("/v2" ++ "/" ++ a ++ rest ++ String last "")
    with (String "/" (String "v" ("2/" ++ a ++ rest ++ String last ""))).
  cbn [spec.plain_path]. change (spec.path_bytes (String "v" ?s)) with (spec.path_bytes s).
  rewrite !path_bytes_app, Hb, Hrest. cbn [spec.path_bytes]. rewrite Hlast. reflexivity.
Qed.

Lemma trim_left_app (c : ascii) (s x : string) :
  strings.trim_left c s <> "" -> strings.trim_left c (s ++ x) = strings.trim_left c s ++ x.
Proof.
  induction s as [|a s IH]; [intros H; contradiction H; reflexivity|].
  change (String a s ++ x) with (String a (s ++ x)). cbn [strings.trim_left].
  destruct (Ascii.eqb a c); [exact IH|reflexivity].
Qed.

Lemma trim_left_holds (c : ascii) (s t : string) (a : ascii) :
  Ascii.eqb a c = false -> strings.trim_left c (s ++ String a t) <> "".
Proof.
  intros Ha. induction s as [|b s IH].
  - change ("" ++ String a t) with (String a t). cbn [strings.trim_left]. rewrite Ha. discriminate.
  - change (String b s ++ String a t) with (String b (s ++ String a t)).
    cbn [strings.trim_left]. destruct (Ascii.eqb b c); [exact IH|discriminate].
Qed.

(** The versioned path of a member of a collection is the versioned
    path of the collection, a slash and the member, when the collection
    has a name and the member is a segment. *)
Lemma versioned_member (before name member : string) (first : ascii) :
  Ascii.eqb first "/" = false ->
  strings.strip_last "/" (String first name) = None ->
  segment member = true ->
  dnsimple.versioned (before ++ String first name ++ "/" ++ member)
  = dnsimple.versioned (before ++ String first name) ++ "/" ++ member.
Proof.
  intros Hfirst Hlast Hm. destruct (segment_inv member Hm) as (Hne & Hl & _ & _).
  unfold dnsimple.versioned, dnsimple.apiVersion, strings.Trim.
  pose proof (trim_left_holds "/" before name first Hfirst) as Hleft.
  change (before ++ String first name ++ "/" ++ member)
    with (before ++ String first name ++ String "/" member).
  rewrite <- (str_app_assoc before). rewrite trim_left_app by exact Hleft.
  assert (strings.trim_right "/" (String "/" member) = String "/" member) as Hright.
  { apply trim_right_fixed.
    change (String "/" member) with ("/" ++ member). apply strip_last_lacks; assumption. }
  rewrite trim_right_app by (rewrite Hright; discriminate). rewrite Hright.
  assert (strings.trim_right "/" (strings.trim_left "/" (before ++ String first name))
          = strings.trim_left "/" (before ++ String first name)) as ->.
  { apply trim_right_fixed.
    destruct (trim_left_run "/" (before ++ String first name)) as (n & Hn).
    set (t := strings.trim_left "/" (before ++ String first name)) in *.
    assert (exists u, t = u ++ String first name) as (u & ->).
    { clearbody t. clear -Hn Hfirst. revert before Hn.
      induction n as [|n IH]; intros before Hn.
      - exists before. symmetry. exact Hn.
      - destruct before as [|b before].
        + change ("" ++ String first name) with (String first name) in Hn.
          change (run "/" (S n) ++ t) with (String "/" (run "/" n ++ t)) in Hn.
          injection Hn as Hf _. subst first. discriminate.
        + change (String b before ++ String first name)
            with (String b (before ++ String first name)) in Hn.
          change (run "/" (S n) ++ t) with (String "/" (run "/" n ++ t)) in Hn.
          injection Hn as _ Hn. apply (IH before Hn). }
    clear -Hlast Hfirst. induction u as [|b u IH]; [exact Hlast|].
    change (String b u ++ String first name) with (String b (u ++ String first name)).
    destruct (u ++ String first name) eqn:E.
    - destruct u; discriminate.
    - change (strings.strip_last "/" (String b (String a s)))
        with (option_map (String b) (strings.strip_last "/" (String a s))).
      rewrite IH. reflexivity. }
  rewrite !str_app_assoc. reflexivity.
Qed.

(** ** Parsing a URL of the default base *)

Lemma substring_all (s : string) : String.substring 0 (String.length s) s = s.
Proof. induction s as [|c s IH]; [reflexivity|]. cbn. now rewrite IH. Qed.

Lemma EscapedPath_path (u : url.URL) :
  url.RawPath u = "" -> spec.plain_path (url.Path u) = true ->
  url.EscapedPath u = url.Path u.
Proof.
  intros Hraw Hp. destruct (plain_path_inv _ Hp) as (rest & Hpe & Hb & _).
  unfold url.EscapedPath. rewrite Hraw.
  change (String.eqb "" "") with true. cbn [negb andb].
  rewrite (path_bytes_escape _ Hb). rewrite Hpe.
  destruct rest; reflexivity.
Qed.

Lemma Parse_default_base (p q : string) :
  spec.plain_path p = true ->
  lacks ["?"; "#"]%char q = true ->
  url.Parse (dnsimple.defaultBaseURL ++ p ++ (if String.eqb q "" then "" else "?" ++ q))
  = inl (api_url p q).
Proof.
  intros Hp Hq.
  destruct (plain_path_inv p Hp) as (rest & Hpe & Hb & Hnn).
  pose proof (path_bytes_lacks "?" p eq_refl Hb) as Hpq.
  pose proof (path_bytes_lacks "#" p eq_refl Hb) as Hph.
  assert (lacks ["?"]%char q = true) as Hq1 by (revert Hq; apply lacks_weaken; sub_bytes).
  assert (lacks ["#"]%char q = true) as Hq2 by (revert Hq; apply lacks_weaken; sub_bytes).
  set (tail := if String.eqb q "" then "" else "?" ++ q).
  assert (lacks ["#"]%char tail = true) as Htail.
  { subst tail. destruct (String.eqb q ""); [reflexivity|].
    change ("?" ++ q) with (String "?" q). cbn [lacks existsb]. rewrite Hq2. reflexivity. }
  set (rest0 := "//api.dnsimple.com" ++ p).
  assert (lacks ["?"]%char rest0 = true) as Hr0 by (subst rest0; rewrite lacks_app, Hpq; reflexivity).
  assert (dnsimple.defaultBaseURL ++ p ++ tail = "https:" ++ rest0 ++ tail) as Hs.
  { subst rest0. unfold dnsimple.defaultBaseURL. rewrite str_app_assoc.
    change "https://api.dnsimple.com" with ("https:" ++ "//api.dnsimple.com").
    rewrite !str_app_assoc. reflexivity. }
  rewrite Hs. set (s := "https:" ++ rest0 ++ tail).
  assert (strings.cut "#" s = None) as Hcut_hash.
  { apply cut_lacks. subst s rest0. rewrite !lacks_app, Hph, Htail. reflexivity. }
  assert (strings.strip_last "?" (rest0 ++ tail) = None /\
          url.split (rest0 ++ tail) "?" true = (rest0, q)) as [Hstrip Hsplit].
  { subst tail. unfold url.split. destruct (String.eqb q "") eqn:Eq.
    - apply String.eqb_eq in Eq. subst q. rewrite str_app_nil_r.
      rewrite (cut_lacks "?" rest0 Hr0). split; [|reflexivity].
      subst rest0. apply strip_last_lacks; [assumption|]. rewrite Hpe. discriminate.
    - apply String.eqb_neq in Eq. change ("?" ++ q) with (String "?" q).
      rewrite (cut_app "?" rest0 q Hr0). split; [|reflexivity].
      change (rest0 ++ String "?" q) with (rest0 ++ "?" ++ q). rewrite <- str_app_assoc.
      apply strip_last_lacks; assumption. }
  unfold url.Parse. unfold url.split at 1. rewrite Hcut_hash.
  assert (url.parse s = inl (api_url p q)) as ->; [|reflexivity].
  unfold url.parse.
  assert (String.eqb s "*" = false) as -> by reflexivity.
  assert (url.getscheme s = inl ("https", rest0 ++ tail)) as -> by reflexivity.
  change (strings.ToLower "https") with "https".
  rewrite Hstrip, Hsplit.
  assert (strings.HasPrefix rest0 "/" = true) as -> by reflexivity.
  assert (strings.HasPrefix rest0 "///" = false) as -> by reflexivity.
  assert (strings.HasPrefix rest0 "//" = true) as -> by reflexivity.
  change (String.eqb "https" "") with false. cbn [negb andb orb].
  assert (String.substring 2 (String.length rest0 - 2) rest0 = "api.dnsimple.com" ++ p) as ->.
  { subst rest0.
    change ("//api.dnsimple.com" ++ p) with (String "/" (String "/" ("api.dnsimple.com" ++ p))).
    cbn [String.length String.substring Nat.sub]. rewrite ?Nat.sub_0_r. apply substring_all. }
  unfold url.split. rewrite Hpe.
  rewrite (cut_app "/" "api.dnsimple.com" rest eq_refl).
  assert (url.parseAuthority "api.dnsimple.com" = inl (None, "api.dnsimple.com")) as ->
    by (vm_compute; reflexivity).
  rewrite <- Hpe. rewrite (path_bytes_unescape _ Hb).
  rewrite (EscapedPath_path (url.mkURL "https" "" None "api.dnsimple.com" p "" false q ""))
    by (cbn; auto).
  cbn [url.Path]. rewrite string_eqb_refl'. reflexivity.
Qed.

(** ** Headers *)

(** The first value under a key stays the first when a header is added. *)
Lemma Add_keeps_first (h : http.Header) (K k v x : string) (l : list string) :
  h !! K = Some (x :: l) ->
  exists l', http.Add h k v !! K = Some (x :: l').
Proof.
  intros HK. unfold http.Add.
  destruct (decide (http.CanonicalMIMEHeaderKey k = K)) as [->|Hne].
  - rewrite lookup_insert_eq, HK. cbn. eauto.
  - rewrite lookup_insert_ne by exact Hne. eauto.
Qed.

Lemma fold_Add_keeps_first (entries : list (string * string)) (h : http.Header)
  (K x : string) (l : list string) :
  h !! K = Some (x :: l) ->
  exists l',
    fold_left (fun h entry => http.Add h (fst entry) (snd entry)) entries h !! K
    = Some (x :: l').
Proof.
  revert h l. induction entries as [|[k v] entries IH]; intros h l HK; [eauto|].
  cbn [fold_left fst snd].
  destruct (Add_keeps_first h K k v x l HK) as (l' & Hl'). eapply IH, Hl'.
Qed.

Lemma Add_keeps_value (h : http.Header) (K k v x : string) :
  In x (default [] (h !! K)) -> In x (default [] (http.Add h k v !! K)).
Proof.
  intros Hx. unfold http.Add.
  destruct (decide (http.CanonicalMIMEHeaderKey k = K)) as [->|Hne].
  - rewrite lookup_insert_eq. cbn. apply in_or_app. left. exact Hx.
  - rewrite lookup_insert_ne by exact Hne. exact Hx.
Qed.

Lemma Add_value (h : http.Header) (k v : string) :
  In v (default [] (http.Add h k v !! http.CanonicalMIMEHeaderKey k)).
Proof.
  unfold http.Add. rewrite lookup_insert_eq. cbn. apply in_or_app. right. left. reflexivity.
Qed.

Lemma fold_Add_keeps_value (entries : list (string * string)) (h : http.Header) (K x : string) :
  In x (default [] (h !! K)) ->
  In x (default [] (fold_left (fun h entry => http.Add h (fst entry) (snd entry)) entries h !! K)).
Proof.
  revert h. induction entries as [|[k v] entries IH]; intros h Hx; [exact Hx|].
  cbn [fold_left fst snd]. apply IH, Add_keeps_value, Hx.
Qed.

Lemma fold_Add_values (entries : list (string * string)) (h : http.Header) (k v : string) :
  In (k, v) entries ->
  In v (default []
          (fold_left (fun h entry => http.Add h (fst entry) (snd entry)) entries h
           !! http.CanonicalMIMEHeaderKey k)).
Proof.
  revert h. induction entries as [|[k' v'] entries IH]; intros h Hin; [contradiction|].
  cbn [fold_left fst snd]. destruct Hin as [[= -> ->]|Hin].
  - apply fold_Add_keeps_value, Add_value.
  - apply IH, Hin.
Qed.

Lemma fold_Add_keys (entries : list (string * string)) (h : http.Header) (K : string) :
  is_Some (fold_left (fun h entry => http.Add h (fst entry) (snd entry)) entries h !! K) ->
  is_Some (h !! K) \/ exists k v, In (k, v) entries /\ K = http.CanonicalMIMEHeaderKey k.
Proof.
  revert h. induction entries as [|[k v] entries IH]; intros h HK; [left; exact HK|].
  cbn [fold_left fst snd] in HK. destruct (IH _ HK) as [Hh|(k' & v' & Hin & ->)].
  - unfold http.Add in Hh. apply lookup_insert_is_Some in Hh as [<-|[_ Hh]].
    + right. exists k, v. split; [left; reflexivity|reflexivity].
    + left. exact Hh.
  - right. exists k', v'. split; [right; exact Hin|reflexivity].
Qed.

Lemma Get_first (h : http.Header) (key x : string) (l : list string) :
  h !! http.CanonicalMIMEHeaderKey key = Some (x :: l) -> http.Get h key = x.
Proof. unfold http.Get. intros ->. reflexivity. Qed.

Section RequestLemmas.
Variable unmarshal_http_Response : json.decoder http.Response.
Variable Headers : dnsimple.Credentials -> list (string * string).

(** What a request that could be built looks like. *)
Lemma NewRequest_built {P} `{!json.Marshaler P} (c : dnsimple.Client) (method path : string)
  (payload : option P) (req : http.Outgoing) :
  dnsimple.NewRequest Headers c method path payload = inl req ->
  exists u body,
    url.Parse (dnsimple.BaseURL c ++ path) = inl u /\
    encoded payload = inl body /\
    http.Line req = http.mkRequest (if String.eqb method "" then "GET" else method) u /\
    http.Out_Body req = body /\
    http.Out_Header req = request_header Headers c.
Proof.
  unfold dnsimple.NewRequest, http.NewRequest, encoded.
  destruct (match payload with Some p => json.Encode p | None => inl "" end) as [body|msg];
    [|discriminate].
  destruct (negb (http.validMethod _)); [discriminate|].
  destruct (url.Parse (dnsimple.BaseURL c ++ path)) as [u|e]; [|discriminate].
  intros [= <-]. exists u, body. repeat split; reflexivity.
Qed.

Lemma request_header_facts (c : dnsimple.Client) :
  http.Get (request_header Headers c) "Content-Type" = "application/json" /\
  http.Get (request_header Headers c) "Accept" = "application/json" /\
  http.Get (request_header Headers c) "User-Agent" = dnsimple.UserAgent c /\
  (forall k v, In (k, v) (Headers (dnsimple.Credentials_ c)) ->
               In v (default [] (request_header Headers c !! http.CanonicalMIMEHeaderKey k))) /\
  (forall K, is_Some (request_header Headers c !! K) ->
             In K (http.CanonicalMIMEHeaderKey <$> fixed_headers) \/
             exists k v, In (k, v) (Headers (dnsimple.Credentials_ c)) /\
                         K = http.CanonicalMIMEHeaderKey k).
Proof.
  unfold request_header.
  set (h0 := http.Add (http.Add (http.Set_ ∅ "Content-Type" "application/json")
                         "Accept" "application/json") "User-Agent" (dnsimple.UserAgent c)).
  assert (h0 !! http.CanonicalMIMEHeaderKey "Content-Type" = Some ["application/json"]) as H1.
  { subst h0. unfold http.Add, http.Set_.
    rewrite lookup_insert_ne by discriminate. rewrite lookup_insert_ne by discriminate.
    apply lookup_insert_eq. }
  assert (h0 !! http.CanonicalMIMEHeaderKey "Accept" = Some ["application/json"]) as H2.
  { subst h0. unfold http.Add, http.Set_.
    rewrite lookup_insert_ne by discriminate. rewrite lookup_insert_eq.
    rewrite lookup_insert_ne by discriminate. rewrite lookup_empty. reflexivity. }
  assert (h0 !! http.CanonicalMIMEHeaderKey "User-Agent" = Some [dnsimple.UserAgent c]) as H3.
  { subst h0. unfold http.Add, http.Set_. rewrite lookup_insert_eq.
    rewrite lookup_insert_ne by discriminate. rewrite lookup_insert_ne by discriminate.
    rewrite lookup_empty. reflexivity. }
  split; [|split; [|split; [|split]]].
  - destruct (fold_Add_keeps_first (Headers (dnsimple.Credentials_ c)) h0 _ _ _ H1) as (l & Hl).
    apply (Get_first _ _ _ _ Hl).
  - destruct (fold_Add_keeps_first (Headers (dnsimple.Credentials_ c)) h0 _ _ _ H2) as (l & Hl).
    apply (Get_first _ _ _ _ Hl).
  - destruct (fold_Add_keeps_first (Headers (dnsimple.Credentials_ c)) h0 _ _ _ H3) as (l & Hl).
    apply (Get_first _ _ _ _ Hl).
  - intros k v Hin. apply fold_Add_values, Hin.
  - intros K HK. apply fold_Add_keys in HK as [HK|HK]; [left|right; exact HK].
    subst h0. unfold http.Add, http.Set_ in HK.
    apply lookup_insert_is_Some in HK as [<-|[_ HK]]; [cbn; auto|].
    apply lookup_insert_is_Some in HK as [<-|[_ HK]]; [cbn; auto|].
    apply lookup_insert_is_Some in HK as [<-|[_ HK]]; [cbn; auto|].
    rewrite lookup_empty in HK. destruct HK; discriminate.
Qed.

End RequestLemmas.

Section ErrorText.
Variable um : json.decoder http.Response.

Lemma CheckResponse_api_error (resp : http.Response) (e : dnsimple.ErrorResponse) :
  dnsimple.CheckResponse um resp = Some (dnsimple.api_error e) ->
  dnsimple.Decode_ErrorResponse um (http.Body resp) (spec.error_shape resp) = (e, None).
Proof.
  rewrite CheckResponse_unfold.
  destruct ((200 <=? http.StatusCode resp) && (http.StatusCode resp <=? 299)); [discriminate|].
  destruct (dnsimple.Decode_ErrorResponse um _ _) as [e' [err|]]; cbn [fst snd].
  - discriminate.
  - intros [= ->]. reflexivity.
Qed.

Lemma other_member_keeps_HttpResponse (k : string) (v : json.value)
  (e : dnsimple.ErrorResponse) (st : json.status) :
  json.equalFold "HttpResponse" k = false ->
  dnsimple.HttpResponse
    (dnsimple.Response_ (fst (json.into_member (dnsimple.ErrorResponse_fields um) (e, st) (k, v))))
  = dnsimple.HttpResponse (dnsimple.Response_ e).
Proof.
  intros Hk. unfold json.into_member. destruct st; try reflexivity.
  all: unfold json.find_field, dnsimple.ErrorResponse_fields; cbn [json.find_exact json.find_fold].
  all: assert (String.eqb "HttpResponse" k = false) as Hne
      by (destruct (String.eqb "HttpResponse" k) eqn:E; [|reflexivity];
          apply String.eqb_eq in E; subst k; discriminate).
  all: rewrite Hne, Hk.
  all: destruct (String.eqb "pagination" k);
    [|destruct (String.eqb "message" k);
      [|destruct (json.equalFold "pagination" k);
        [|destruct (json.equalFold "message" k); [|reflexivity]]]].
  all: unfold json.field; cbn [dnsimple.Message dnsimple.Response_];
    match goal with
    | |- context [json.into_ptr ?z ?d ?w ?o] => destruct (json.into_ptr z d w o)
    | |- context [json.into_string ?w ?o] => destruct (json.into_string w o)
    end; reflexivity.
Qed.

Lemma null_member_clears_HttpResponse (e : dnsimple.ErrorResponse) :
  json.into_member (dnsimple.ErrorResponse_fields um) (e, json.Fine) ("HttpResponse", json.Null)
  = (dnsimple.mkErrorResponse
       (dnsimple.mkResponse None (dnsimple.Pagination_ (dnsimple.Response_ e)))
       (dnsimple.Message e), json.Fine).
Proof. reflexivity. Qed.

(** Decoding a value that spares the field leaves the response in it. *)
Lemma Decode_keeps_HttpResponse (body : string) (v : json.value)
  (e0 e : dnsimple.ErrorResponse) (err : option json.error) :
  json.Decoder_next body = inl v ->
  spares_HttpResponse v ->
  dnsimple.Decode_ErrorResponse um body e0 = (e, err) ->
  dnsimple.HttpResponse (dnsimple.Response_ e) = dnsimple.HttpResponse (dnsimple.Response_ e0).
Proof.
  intros Hbody Hv. unfold dnsimple.Decode_ErrorResponse. rewrite Hbody.
  unfold dnsimple.unmarshal_ErrorResponse, json.into_struct.
  destruct v as [|b|lit|s|elems|members]; try (intros [= <- _]; reflexivity).
  cbn in Hv.
  destruct (fold_left _ members (e0, json.Fine)) as [e' st] eqn:Hfold. intros [= <- _].
  apply (f_equal fst) in Hfold. cbn [fst] in Hfold. rewrite <- Hfold.
  apply (fold_members_invariant (dnsimple.ErrorResponse_fields um)
           (fun e => dnsimple.HttpResponse (dnsimple.Response_ e)
                     = dnsimple.HttpResponse (dnsimple.Response_ e0)));
    [|reflexivity].
  eapply Forall_impl; [exact Hv|].
  intros [k w] Hk t st' Ht. cbn [fst] in Hk.
  rewrite other_member_keeps_HttpResponse by assumption. exact Ht.
Qed.

(** A member [HttpResponse] that is [null], the last one for the field,
    leaves the error without its response. *)
Lemma Decode_null_HttpResponse (body : string) (before after : list (string * json.value))
  (e0 e : dnsimple.ErrorResponse) :
  json.Decoder_next body
  = inl (json.Object (before ++ ("HttpResponse", json.Null) :: after)) ->
  Forall (fun member => json.equalFold "HttpResponse" (fst member) = false) after ->
  dnsimple.Decode_ErrorResponse um body e0 = (e, None) ->
  dnsimple.HttpResponse (dnsimple.Response_ e) = None.
Proof.
  intros Hbody Hafter. unfold dnsimple.Decode_ErrorResponse. rewrite Hbody.
  unfold dnsimple.unmarshal_ErrorResponse, json.into_struct.
  set (fields := dnsimple.ErrorResponse_fields um).
  destruct (fold_left (json.into_member fields) _ (e0, json.Fine)) as [e' st] eqn:Hfold.
  intros [= <- Hok]. apply reported_None in Hok. subst st.
  rewrite fold_left_app in Hfold. cbn [fold_left] in Hfold.
  pose proof (fold_members_Fine_prefix fields before (("HttpResponse", json.Null) :: after)
                (e0, json.Fine)) as Hpre.
  rewrite fold_left_app in Hpre. cbn [fold_left] in Hpre. rewrite Hfold in Hpre.
  specialize (Hpre eq_refl).
  destruct (fold_left (json.into_member fields) before (e0, json.Fine)) as [e1 st1].
  cbn [snd] in Hpre. subst st1.
  subst fields. rewrite null_member_clears_HttpResponse in Hfold.
  apply (f_equal fst) in Hfold. cbn [fst] in Hfold. rewrite <- Hfold.
  apply (fold_members_invariant (dnsimple.ErrorResponse_fields um)
           (fun e => dnsimple.HttpResponse (dnsimple.Response_ e) = None));
    [|reflexivity].
  eapply Forall_impl; [exact Hafter|].
  intros [k w] Hk t st' Ht. cbn [fst] in Hk.
  rewrite other_member_keeps_HttpResponse by assumption. exact Ht.
Qed.

End ErrorText.

Section Calls.
Variable unmarshal_http_Response : json.decoder http.Response.
Variable Headers : dnsimple.Credentials -> list (string * string).

Lemma NewRequest_method {P} `{!json.Marshaler P} (c : dnsimple.Client) (method path : string)
  (payload : option P) (req : http.Outgoing) :
  dnsimple.NewRequest Headers c method path payload = inl req ->
  method <> "" -> http.Method (http.Line req) = method.
Proof.
  intros Hreq Hm. destruct (NewRequest_built Headers c method path payload req Hreq)
    as (u & body & _ & _ & -> & _).
  apply String.eqb_neq in Hm. rewrite Hm. reflexivity.
Qed.

(** A call with a pointer to a struct, step by step. *)
Lemma call_pointer {P T} `{!json.Marshaler P} (c : dnsimple.Client) (method path : string)
  (payload : option P) (decode : string -> T -> T * option json.error) (t : T) :
  dnsimple.call unmarshal_http_Response Headers c method path payload (dnsimple.variable decode t)
  = match dnsimple.NewRequest Headers c method path payload with
    | inr err => (None, Some err, dnsimple.variable decode t)
    | inl req =>
        match dnsimple.HttpClient c req with
        | inr msg =>
            (None, Some (dnsimple.an_error (dnsimple.transport_error msg)),
             dnsimple.variable decode t)
        | inl resp =>
            match dnsimple.CheckResponse unmarshal_http_Response resp with
            | Some e => (Some resp, Some (dnsimple.an_error e), dnsimple.variable decode t)
            | None =>
                (Some resp,
                 option_map dnsimple.an_error
                   (option_map dnsimple.json_error (snd (decode (http.Body resp) t))),
                 dnsimple.variable decode (fst (decode (http.Body resp) t)))
            end
        end
    end.
Proof.
  unfold dnsimple.call, dnsimple.Client_Do, dnsimple.Do.
  destruct (dnsimple.NewRequest Headers c method path payload) as [req|err]; [|reflexivity].
  destruct (dnsimple.HttpClient c req) as [resp|msg]; [|reflexivity].
  destruct (dnsimple.CheckResponse unmarshal_http_Response resp); [reflexivity|].
  destruct (decode (http.Body resp) t). reflexivity.
Qed.

Lemma call_no_obj {P T} `{!json.Marshaler P} (c : dnsimple.Client) (method path : string)
  (payload : option P) :
  dnsimple.call unmarshal_http_Response Headers c method path payload (@dnsimple.no_obj T)
  = match dnsimple.NewRequest Headers c method path payload with
    | inr err => (None, Some err, dnsimple.no_obj)
    | inl req =>
        match dnsimple.HttpClient c req with
        | inr msg =>
            (None, Some (dnsimple.an_error (dnsimple.transport_error msg)), dnsimple.no_obj)
        | inl resp =>
            match dnsimple.CheckResponse unmarshal_http_Response resp with
            | Some e => (Some resp, Some (dnsimple.an_error e), dnsimple.no_obj)
            | None => (Some resp, None, dnsimple.no_obj)
            end
        end
    end.
Proof.
  unfold dnsimple.call, dnsimple.Client_Do, dnsimple.Do.
  destruct (dnsimple.NewRequest Headers c method path payload) as [req|err]; [|reflexivity].
  destruct (dnsimple.HttpClient c req) as [resp|msg]; [|reflexivity].
  destruct (dnsimple.CheckResponse unmarshal_http_Response resp); reflexivity.
Qed.

Lemma CheckResponse_None (resp : http.Response) :
  dnsimple.CheckResponse unmarshal_http_Response resp = None ->
  200 <= http.StatusCode resp <= 299.
Proof.
  rewrite CheckResponse_unfold, <- in_range_iff.
  destruct ((200 <=? http.StatusCode resp) && (http.StatusCode resp <=? 299)); [reflexivity|].
  destruct (snd _); discriminate.
Qed.

(** The end of every method that passes a pointer: nil with the error,
    or the struct with the response attached. *)
Lemma finish_pointer {P D} `{!json.Marshaler P} (c : dnsimple.Client) (method path : string)
  (payload : option P) (type_name : string) (d : json.decoder D) (zero : D) :
  method <> "" ->
  let r := dnsimple.empty_response zero in
  let out :=
    let '(resp, err, obj) :=
      dnsimple.call unmarshal_http_Response Headers c method path payload
        (dnsimple.pointer_to unmarshal_http_Response type_name d r) in
    match err with
    | Some err => (None, Some err)
    | None => (Some (dnsimple.with_HttpResponse (dnsimple.pointee obj r) resp), None)
    end in
  (snd out = None ->
   exists resp decoded,
     sent_with c method resp /\
     json.Decode (dnsimple.unmarshal_DataResponse unmarshal_http_Response type_name d)
       (http.Body resp) r = (decoded, None) /\
     fst out = Some (dnsimple.with_HttpResponse decoded (Some resp))) /\
  (snd out <> None -> fst out = None).
Proof.
  intros Hm r out. subst out. unfold dnsimple.pointer_to. rewrite call_pointer.
  destruct (dnsimple.NewRequest Headers c method path payload) as [req|err] eqn:Hreq;
    [|split; [discriminate|reflexivity]].
  destruct (dnsimple.HttpClient c req) as [resp|msg] eqn:Hsend;
    [|split; [discriminate|reflexivity]].
  destruct (dnsimple.CheckResponse unmarshal_http_Response resp) eqn:Hcheck;
    [split; [discriminate|reflexivity]|].
  destruct (json.Decode _ (http.Body resp) r) as [decoded [err|]] eqn:Hdec; cbn [fst snd option_map].
  - split; [discriminate|reflexivity].
  - split; [|intros Hne; contradiction].
    intros _. exists resp, decoded. split; [|split; [exact Hdec|reflexivity]].
    exists req. split; [exact (NewRequest_method c method path payload req Hreq Hm)|].
    split; [exact Hsend|apply CheckResponse_None, Hcheck].
Qed.

Lemma finish_no_obj {P D} `{!json.Marshaler P} (c : dnsimple.Client) (method path : string)
  (payload : option P) (zero : D) :
  method <> "" ->
  let r := dnsimple.empty_response zero in
  let out :=
    let '(resp, err, _) :=
      dnsimple.call unmarshal_http_Response Headers c method path payload
        (@dnsimple.no_obj (dnsimple.DataResponse D)) in
    match err with
    | Some err => (None, Some err)
    | None => (Some (dnsimple.with_HttpResponse r resp), None)
    end in
  (snd out = None ->
   exists resp,
     sent_with c method resp /\ fst out = Some (dnsimple.with_HttpResponse r (Some resp))) /\
  (snd out <> None -> fst out = None).
Proof.
  intros Hm r out. subst out. rewrite call_no_obj.
  destruct (dnsimple.NewRequest Headers c method path payload) as [req|err] eqn:Hreq;
    [|split; [discriminate|reflexivity]].
  destruct (dnsimple.HttpClient c req) as [resp|msg] eqn:Hsend;
    [|split; [discriminate|reflexivity]].
  destruct (dnsimple.CheckResponse unmarshal_http_Response resp) eqn:Hcheck;
    [split; [discriminate|reflexivity]|].
  split; [|intros Hne; contradiction].
  intros _. exists resp. split; [|reflexivity].
  exists req. split; [exact (NewRequest_method c method path payload req Hreq Hm)|].
  split; [exact Hsend|apply CheckResponse_None, Hcheck].
Qed.

(** ** A transport that refuses *)

Lemma call_refused {P T} `{!json.Marshaler P} (c : dnsimple.Client) (method path : string)
  (payload : option P) (obj : dnsimple.destination T) :
  refuses c ->
  exists resp err,
    dnsimple.call unmarshal_http_Response Headers c method path payload obj
    = (resp, Some err, obj).
Proof.
  intros Href. unfold dnsimple.call, dnsimple.Client_Do, dnsimple.Do.
  destruct (dnsimple.NewRequest Headers c method path payload) as [req|err]; [|eauto].
  specialize (Href req).
  destruct (dnsimple.HttpClient c req) as [resp|msg]; [|eauto].
  destruct (dnsimple.CheckResponse unmarshal_http_Response resp) eqn:Hcheck; [eauto|].
  exfalso. apply Href.
  revert Hcheck. rewrite CheckResponse_unfold, <- in_range_iff.
  destruct ((200 <=? http.StatusCode resp) && (http.StatusCode resp <=? 299)); [reflexivity|].
  destruct (snd _); discriminate.
Qed.

End Calls.

Section OptionsLemmas.
Variable Sprint_other : reflect.Value -> string.

Lemma ListOptions_never_panic (path : string) (options : option dnsimple.ListOptions) :
  exists p err,
    dnsimple.addURLQueryOptions Sprint_other path (dnsimple.ListOptions_ptr options)
    = Ret (p, err).
Proof.
  destruct options as [o|]; [|exists path, None; reflexivity].
  unfold dnsimple.ListOptions_ptr, dnsimple.ListOptions_Value. cbn [option_map].
  erewrite addURLQueryOptions_bundle by reflexivity.
  match goal with |- context [reflect.VStruct ?fs] =>
    destruct (add_fields_exported Sprint_other fs ∅ ltac:(repeat constructor)) as (qso & Hq & _)
  end.
  unfold dnsimple.addURLQueryOptions. rewrite Hq. cbn [go_bind].
  destruct (url.Parse path); eauto.
Qed.

End OptionsLemmas.


(** ** Paths *)

(** X5: [versioned] drops the slashes a path starts and ends with and
    nothing else, and puts [/v2/] before what is left; so a slash more at
    either end changes nothing, and a path that is versioned twice gets
    the prefix twice. *)
Theorem X5_versioned_normalises_slashes (path : string) :
  exists trimmed leading trailing,
    path = run "/" leading ++ trimmed ++ run "/" trailing /\
    strings.HasPrefix trimmed "/" = false /\
    strings.strip_last "/" trimmed = None /\
    dnsimple.versioned path = "/v2/" ++ trimmed /\
    dnsimple.versioned ("/" ++ path) = dnsimple.versioned path /\
    dnsimple.versioned (path ++ "/") = dnsimple.versioned path /\
    dnsimple.versioned (dnsimple.versioned path)
    = "/v2/v2" ++ (if String.eqb trimmed "" then "" else "/" ++ trimmed).
Proof.
  destruct (Trim_runs "/" path) as (m & n & Hruns).
  destruct (Trim_ends "/" path) as [Hh Hl].
  exists (strings.Trim path "/"), m, n.
  split; [exact Hruns|]. split; [exact Hh|]. split; [exact Hl|].
  split; [reflexivity|]. split; [|split].
  - unfold dnsimple.versioned. change ("/" ++ path) with (String "/" path).
    rewrite Trim_cons. reflexivity.
  - unfold dnsimple.versioned. change (path ++ "/") with (path ++ String "/" "").
    rewrite Trim_snoc. reflexivity.
  - apply versioned_twice.
Qed.

(** X6: the versioned path of a zone record or of a contact is the
    versioned path of the collection, a slash and the number in decimal,
    whatever the account and the zone are; the record 0 alone has the path
    of the collection itself.  So different records have different paths,
    different contacts too, and no contact has the path of the contacts. *)
Theorem X6_member_paths (Sprint_other : reflect.Value -> string)
  (accountID zoneID : string) (i j : Z) :
  let record := dnsimple.zoneRecordPath accountID zoneID in
  let contact n :=
    dnsimple.contactPath Sprint_other accountID (Some (reflect.VInt reflect.I n)) in
  let contacts := dnsimple.contactPath Sprint_other accountID None in
  (dnsimple.versioned (record i)
   = dnsimple.versioned (record 0) ++ (if i =? 0 then "" else "/" ++ strconv.FormatInt i)) /\
  (dnsimple.versioned (contact i) = dnsimple.versioned contacts ++ "/" ++ strconv.FormatInt i) /\
  (dnsimple.versioned (record i) = dnsimple.versioned (record j) -> i = j) /\
  (dnsimple.versioned (contact i) = dnsimple.versioned (contact j) -> i = j) /\
  dnsimple.versioned (contact i) <> dnsimple.versioned contacts.
Proof.
  intros record contact contacts.
  assert (forall n, n <> 0 ->
            dnsimple.versioned (record n)
            = dnsimple.versioned (record 0) ++ "/" ++ strconv.FormatInt n) as Hrec.
  { intros n Hn. subst record. unfold dnsimple.zoneRecordPath.
    apply Z.eqb_neq in Hn. rewrite Hn. cbn [negb Z.eqb].
    pose proof (versioned_member ("/" ++ accountID ++ "/zones/" ++ zoneID ++ "/") "ecords"
                  (strconv.FormatInt n) "r" eq_refl eq_refl (FormatInt_segment n)) as H.
    rewrite !str_app_assoc in H.
    change ("/" ++ "records") with ("/records") in H.
    rewrite !str_app_assoc. exact H. }
  assert (forall n, dnsimple.versioned (contact n)
                    = dnsimple.versioned contacts ++ "/" ++ strconv.FormatInt n) as Hcon.
  { intros n. subst contact contacts. unfold dnsimple.contactPath. cbn [fmt.Sprint].
    pose proof (versioned_member ("/" ++ accountID ++ "/") "ontacts"
                  (strconv.FormatInt n) "c" eq_refl eq_refl (FormatInt_segment n)) as H.
    rewrite !str_app_assoc in H.
    change ("/" ++ "contacts") with ("/contacts") in H.
    change ("/contacts/" ++ strconv.FormatInt n) with ("/contacts" ++ "/" ++ strconv.FormatInt n).
    exact H. }
  split; [|split; [|split; [|split]]].
  - destruct (i =? 0) eqn:Hi.
    + apply Z.eqb_eq in Hi. subst i. rewrite str_app_nil_r. reflexivity.
    + apply Z.eqb_neq in Hi. apply Hrec, Hi.
  - apply Hcon.
  - destruct (Z.eq_dec i 0) as [->|Hi], (Z.eq_dec j 0) as [->|Hj].
    + reflexivity.
    + rewrite (Hrec j Hj). intros H. symmetry in H. exfalso. revert H.
      apply str_app_not_self. discriminate.
    + rewrite (Hrec i Hi). intros H. exfalso. revert H. apply str_app_not_self. discriminate.
    + rewrite (Hrec i Hi), (Hrec j Hj). intros H. apply str_app_inv_head in H.
      change ("/" ++ strconv.FormatInt i) with (String "/" (strconv.FormatInt i)) in H.
      change ("/" ++ strconv.FormatInt j) with (String "/" (strconv.FormatInt j)) in H.
      injection H as H. apply FormatInt_inj, H.
  - rewrite !Hcon. intros H. apply str_app_inv_head in H.
    change ("/" ++ strconv.FormatInt i) with (String "/" (strconv.FormatInt i)) in H.
    change ("/" ++ strconv.FormatInt j) with (String "/" (strconv.FormatInt j)) in H.
    injection H as H. apply FormatInt_inj, H.
  - rewrite Hcon. apply str_app_not_self. discriminate.
Qed.

(** ** The text of an error *)

(** X7: for the [ErrorResponse] that [CheckResponse] returns, [Error]
    gives the method and the URL of the request, the status code and the
    message, when the body has no member for the field [HttpResponse];
    it panics when the response has no request, and when the body sets
    the field [HttpResponse] to [null]. *)
Theorem X7_Error_of_checked_response
  (unmarshal_http_Response : json.decoder http.Response) (resp : http.Response)
  (e : dnsimple.ErrorResponse) (v : json.value) :
  dnsimple.CheckResponse unmarshal_http_Response resp = Some (dnsimple.api_error e) ->
  json.Decoder_next (http.Body resp) = inl v ->
  (spares_HttpResponse v ->
   dnsimple.HttpResponse (dnsimple.Response_ e) = Some resp /\
   dnsimple.ErrorResponse_Error e =
   match http.Request_ resp with
   | Some req =>
       Ret (http.Method req ++ " " ++ url.String_ (http.URL req) ++ ": "
            ++ strconv.FormatInt (http.StatusCode resp) ++ " " ++ dnsimple.Message e)
   | None => dnsimple.nil_dereference
   end) /\
  (forall before after,
     v = json.Object (before ++ ("HttpResponse", json.Null) :: after) ->
     Forall (fun member => json.equalFold "HttpResponse" (fst member) = false) after ->
     dnsimple.HttpResponse (dnsimple.Response_ e) = None /\
     dnsimple.ErrorResponse_Error e = dnsimple.nil_dereference).
Proof.
  intros Hcheck Hbody. apply CheckResponse_api_error in Hcheck. split.
  - intros Hv.
    pose proof (Decode_keeps_HttpResponse unmarshal_http_Response _ v _ _ _ Hbody Hv Hcheck) as H.
    cbn in H. split; [exact H|].
    unfold dnsimple.ErrorResponse_Error. rewrite H. reflexivity.
  - intros before after -> Hafter.
    pose proof (Decode_null_HttpResponse unmarshal_http_Response _ before after _ _
                  Hbody Hafter Hcheck) as H.
    split; [exact H|]. unfold dnsimple.ErrorResponse_Error. rewrite H. reflexivity.
Qed.

(** A contact that is not found, and the same answer with the field
    [HttpResponse] set to [null]. *)
Lemma X7_Error_of_checked_response_witness :
  let req := http.mkRequest "GET" (api_url "/v2/1010/contacts/7" "") in
  let resp body := http.mkResponse 404 ∅ (spec.dq body) (Some req) in
  let plain := resp "{'message':'Contact 7 not found'}" in
  let nulled := resp "{'message':'Contact 7 not found','HttpResponse':null}" in
  let e := dnsimple.mkErrorResponse (dnsimple.mkResponse (Some plain) None)
             "Contact 7 not found" in
  let e' := dnsimple.mkErrorResponse (dnsimple.mkResponse None None) "Contact 7 not found" in
  (dnsimple.CheckResponse example_unmarshal_http_Response plain = Some (dnsimple.api_error e) /\
   dnsimple.ErrorResponse_Error e
   = Ret "GET https://api.dnsimple.com/v2/1010/contacts/7: 404 Contact 7 not found") /\
  (dnsimple.CheckResponse example_unmarshal_http_Response nulled
   = Some (dnsimple.api_error e') /\
   dnsimple.ErrorResponse_Error e' = dnsimple.nil_dereference).
Proof.
  intros req resp plain nulled e e'. split.
  - split; [reflexivity|].
    destruct (X7_Error_of_checked_response example_unmarshal_http_Response plain e
                (json.Object [("message", json.String_ "Contact 7 not found")])
                eq_refl eq_refl) as [Hspared _].
    destruct (Hspared ltac:(repeat constructor)) as [_ Htext].
    rewrite Htext. reflexivity.
  - split; [reflexivity|].
    destruct (X7_Error_of_checked_response example_unmarshal_http_Response nulled e'
                (json.Object [("message", json.String_ "Contact 7 not found");
                              ("HttpResponse", json.Null)])
                eq_refl eq_refl) as [_ Hnull].
    exact (proj2 (Hnull [("message", json.String_ "Contact 7 not found")] [] eq_refl
                    ltac:(constructor))).
Defined.

(** ** Requests *)

(** X8: in a request that [NewRequest] builds, the first value of
    [Content-Type] and of [Accept] is [application/json] and the first
    value of [User-Agent] is the user agent of the client, whatever
    headers the credentials bring: those are added after them.  Every
    header of the credentials is in the request under its canonical key,
    and the request has no other keys. *)
Theorem X8_NewRequest_headers (Headers : dnsimple.Credentials -> list (string * string))
  {P} `{!json.Marshaler P} (c : dnsimple.Client) (method path : string)
  (payload : option P) (req : http.Outgoing) :
  dnsimple.NewRequest Headers c method path payload = inl req ->
  http.Get (http.Out_Header req) "Content-Type" = "application/json" /\
  http.Get (http.Out_Header req) "Accept" = "application/json" /\
  http.Get (http.Out_Header req) "User-Agent" = dnsimple.UserAgent c /\
  (forall k v, In (k, v) (Headers (dnsimple.Credentials_ c)) ->
               In v (default [] (http.Out_Header req !! http.CanonicalMIMEHeaderKey k))) /\
  (forall K, is_Some (http.Out_Header req !! K) ->
             In K (http.CanonicalMIMEHeaderKey <$> fixed_headers) \/
             exists k v, In (k, v) (Headers (dnsimple.Credentials_ c)) /\
                         K = http.CanonicalMIMEHeaderKey k).
Proof.
  intros Hreq. destruct (NewRequest_built Headers c method path payload req Hreq)
    as (u & body & _ & _ & _ & _ & ->).
  apply request_header_facts.
Qed.

(** Credentials that bring an [Accept] header of their own. *)
Lemma X8_NewRequest_headers_witness :
  let Headers (_ : dnsimple.Credentials) := [("accept", "text/html"); ("X-Token", "t")] in
  exists req,
    dnsimple.NewRequest Headers (example_client 200 "") "GET" "/v2/whoami" (@None Empty_set)
    = inl req /\
    http.Get (http.Out_Header req) "Accept" = "application/json" /\
    In "text/html" (default [] (http.Out_Header req !! "Accept")) /\
    In "t" (default [] (http.Out_Header req !! "X-Token")).
Proof.
  intros Headers. eexists. split; [reflexivity|].
  match goal with |- http.Get (http.Out_Header ?r) _ = _ /\ _ =>
    destruct (X8_NewRequest_headers Headers (example_client 200 "") "GET" "/v2/whoami"
                (@None Empty_set) r eq_refl) as (_ & Haccept & _ & Hin & _)
  end.
  split; [exact Haccept|]. split.
  - apply (Hin "accept" "text/html"). left. reflexivity.
  - apply (Hin "X-Token" "t"). right. left. reflexivity.
Defined.

(** X9: a client from [NewClient] builds, for a method that is a token,
    a plain path and a query, the request of that method to the URL with
    the scheme [https], the host [api.dnsimple.com], that path and that
    query, with the payload encoded as its body and the user agent of the
    library; it fails with the error of the encoder when the payload
    cannot be encoded, and only then. *)
Theorem X9_NewRequest_of_new_client (Headers : dnsimple.Credentials -> list (string * string))
  {P} `{!json.Marshaler P}
  (transport : http.Outgoing -> http.Response + string) (credentials : dnsimple.Credentials)
  (method path query : string) (payload : option P) :
  http.validMethod method = true ->
  spec.plain_path path = true ->
  lacks ["?"; "#"]%char query = true ->
  let c := dnsimple.NewClient transport credentials in
  let target := path ++ (if String.eqb query "" then "" else "?" ++ query) in
  (forall body,
     encoded payload = inl body ->
     dnsimple.NewRequest Headers c method target payload
     = inl (http.mkOutgoing (http.mkRequest method (api_url path query))
              (request_header Headers c) body)) /\
  (forall msg,
     encoded payload = inr msg ->
     dnsimple.NewRequest Headers c method target payload = inr (dnsimple.encode_failure msg)) /\
  http.Get (request_header Headers c) "User-Agent" = "dnsimple-go/0.10.0-beta".
Proof.
  intros Hm Hp Hq c target.
  assert (String.eqb method "" = false) as Hne
    by (destruct method; [discriminate Hm|reflexivity]).
  split; [|split].
  - intros body Hbody. unfold dnsimple.NewRequest, http.NewRequest.
    unfold encoded in Hbody. rewrite Hbody, Hne, Hm. cbn [negb].
    subst c target. cbn [dnsimple.BaseURL dnsimple.NewClient].
    rewrite (Parse_default_base path query Hp Hq). reflexivity.
  - intros msg Hmsg. unfold dnsimple.NewRequest. unfold encoded in Hmsg. rewrite Hmsg.
    reflexivity.
  - destruct (request_header_facts Headers c) as (_ & _ & Hua & _). exact Hua.
Qed.

(** The request for the second page of the domains. *)
Lemma X9_NewRequest_of_new_client_witness :
  dnsimple.NewRequest example_Headers (example_client 200 "") "GET"
    "/v2/1010/domains?page=2" (@None Empty_set)
  = inl (http.mkOutgoing (http.mkRequest "GET" (api_url "/v2/1010/domains" "page=2"))
           (request_header example_Headers (example_client 200 "")) "").
Proof.
  apply (proj1 (X9_NewRequest_of_new_client example_Headers (example_transport 200 "")
                  (dnsimple.NewOauthTokenCredentials "token") "GET" "/v2/1010/domains" "page=2"
                  (@None Empty_set) eq_refl eq_refl eq_refl)).
  reflexivity.
Defined.

(** ** The services *)

Section ServiceOutcomes.
Variable unmarshal_http_Response : json.decoder http.Response.
Variable Headers : dnsimple.Credentials -> list (string * string).
Variable Sprint_other : reflect.Value -> string.

Ltac finish_pointer_tac :=
  match goal with
  | |- context [dnsimple.call _ _ ?c ?m ?path ?payload (dnsimple.pointer_to _ ?tn ?d _)] =>
      pose proof (finish_pointer unmarshal_http_Response Headers c m path payload tn d None
                    ltac:(discriminate)) as Hfin
  end.

Ltac finish_no_obj_tac D :=
  match goal with
  | |- context [dnsimple.call _ _ ?c ?m ?path ?payload dnsimple.no_obj] =>
      pose proof (finish_no_obj unmarshal_http_Response Headers c m path payload (@None D)
                    ltac:(discriminate)) as Hfin
  end.

Ltac outcome :=
  cbv zeta in *;
  match goal with
  | Hfin : _ |- _ =>
      destruct (dnsimple.call _ _ _ _ _ _ _) as [[resp [err|]] obj]; exact Hfin
  end.

(** X10: a method of the contacts service that returns no error
    returns the struct the body of a response was decoded into, a response
    of the success range to a request of the method it names (GET for
    [ListContacts] and [GetContact], POST for [CreateContact], PATCH for
    [UpdateContact]), with this response as its [HttpResponse] whatever
    the body holds under that name.  [DeleteContact] sends DELETE and
    decodes nothing: its struct has the response and neither data nor
    pagination.  Every method but [ListContacts] returns nil together
    with an error. *)
Theorem X10_contacts_outcomes `{!json.Marshaler dnsimple.Contact}
  (c : dnsimple.Client) (accountID : string) (contactID : Z)
  (attributes : dnsimple.Contact) (options : option dnsimple.ListOptions) :
  let one := decoder_of (dnsimple.ContactResponse_ptr unmarshal_http_Response
                           (dnsimple.empty_response None)) in
  let all := decoder_of (dnsimple.ContactsResponse_ptr unmarshal_http_Response
                           (dnsimple.empty_response None)) in
  (exists out,
     dnsimple.ListContacts unmarshal_http_Response Headers Sprint_other c accountID options
     = Ret out /\ answered c "GET" all out) /\
  (let out := dnsimple.CreateContact unmarshal_http_Response Headers Sprint_other c accountID
                attributes in
   answered c "POST" one out /\ nil_with_error out) /\
  (let out := dnsimple.GetContact unmarshal_http_Response Headers Sprint_other c accountID
                contactID in
   answered c "GET" one out /\ nil_with_error out) /\
  (let out := dnsimple.UpdateContact unmarshal_http_Response Headers Sprint_other c accountID
                contactID attributes in
   answered c "PATCH" one out /\ nil_with_error out) /\
  (let out := dnsimple.DeleteContact unmarshal_http_Response Headers Sprint_other c accountID
                contactID in
   acknowledged c "DELETE" out /\ nil_with_error out).
Proof.
  intros one all. split; [|split; [|split; [|split]]].
  - unfold dnsimple.ListContacts.
    destruct (ListOptions_never_panic Sprint_other
                (dnsimple.versioned (dnsimple.contactPath Sprint_other accountID None)) options)
      as (p & err & ->).
    cbn [go_bind]. destruct err as [err|].
    + eexists. split; [reflexivity|]. intros Hnone. discriminate.
    + unfold dnsimple.get, dnsimple.ContactsResponse_ptr.
      pose proof (finish_pointer unmarshal_http_Response Headers c "GET" p (@None Empty_set)
                    "dnsimple.ContactsResponse"
                    (json.into_slice "[]dnsimple.Contact" dnsimple.Contact_zero
                       dnsimple.unmarshal_Contact) None ltac:(discriminate)) as Hfin.
      cbv zeta in Hfin.
      destruct (dnsimple.call _ _ c "GET" p None _) as [[resp err] obj].
      destruct err as [err|]; (eexists; split; [reflexivity|]).
      * intros Hnone. discriminate.
      * exact (proj1 Hfin).
  - unfold dnsimple.CreateContact, dnsimple.post, dnsimple.ContactResponse_ptr.
    cbv zeta. finish_pointer_tac. outcome.
  - unfold dnsimple.GetContact, dnsimple.get, dnsimple.ContactResponse_ptr.
    cbv zeta. finish_pointer_tac. outcome.
  - unfold dnsimple.UpdateContact, dnsimple.patch, dnsimple.ContactResponse_ptr.
    cbv zeta. finish_pointer_tac. outcome.
  - unfold dnsimple.DeleteContact, dnsimple.delete.
    cbv zeta. finish_no_obj_tac dnsimple.Contact. outcome.
Qed.

(** X11: the same for the five methods on zone records: GET for
    [ListRecords] and [GetRecord], POST for [CreateRecord], PATCH for
    [UpdateRecord], and DELETE without decoding for [DeleteRecord]; each
    of them returns nil together with an error. *)
Theorem X11_zone_records_outcomes `{!json.Marshaler dnsimple.ZoneRecord}
  (c : dnsimple.Client) (accountID zoneID : string)
  (recordID : Z) (attributes : dnsimple.ZoneRecord) :
  let one := decoder_of (dnsimple.ZoneRecordResponse_ptr unmarshal_http_Response
                           (dnsimple.empty_response None)) in
  let all := decoder_of (dnsimple.ZoneRecordsResponse_ptr unmarshal_http_Response
                           (dnsimple.empty_response None)) in
  (let out := dnsimple.ListRecords unmarshal_http_Response Headers c accountID zoneID in
   answered c "GET" all out /\ nil_with_error out) /\
  (let out := dnsimple.CreateRecord unmarshal_http_Response Headers c accountID zoneID
                attributes in
   answered c "POST" one out /\ nil_with_error out) /\
  (let out := dnsimple.GetRecord unmarshal_http_Response Headers c accountID zoneID recordID in
   answered c "GET" one out /\ nil_with_error out) /\
  (let out := dnsimple.UpdateRecord unmarshal_http_Response Headers c accountID zoneID
                recordID attributes in
   answered c "PATCH" one out /\ nil_with_error out) /\
  (let out := dnsimple.DeleteRecord unmarshal_http_Response Headers c accountID zoneID
                recordID in
   acknowledged c "DELETE" out /\ nil_with_error out).
Proof.
  intros one all. split; [|split; [|split; [|split]]].
  - unfold dnsimple.ListRecords, dnsimple.get, dnsimple.ZoneRecordsResponse_ptr.
    cbv zeta. finish_pointer_tac. outcome.
  - unfold dnsimple.CreateRecord, dnsimple.post, dnsimple.ZoneRecordResponse_ptr.
    cbv zeta. finish_pointer_tac. outcome.
  - unfold dnsimple.GetRecord, dnsimple.get, dnsimple.ZoneRecordResponse_ptr.
    cbv zeta. finish_pointer_tac. outcome.
  - unfold dnsimple.UpdateRecord, dnsimple.patch, dnsimple.ZoneRecordResponse_ptr.
    cbv zeta. finish_pointer_tac. outcome.
  - unfold dnsimple.DeleteRecord, dnsimple.delete.
    cbv zeta. finish_no_obj_tac dnsimple.ZoneRecord. outcome.
Qed.

(** X12: the same for the five methods of the registrar, whatever the
    type [Domain] is: GET for [CheckDomain], POST for the others, of which
    [TransferDomainOut] sends no payload and decodes nothing; each of them
    returns nil together with an error. *)
Theorem X12_registrar_outcomes {Domain : Type} (Domain_zero : Domain)
  (unmarshal_Domain : json.decoder Domain)
  `{!json.Marshaler (option dnsimple.DomainRegisterRequest)}
  `{!json.Marshaler (option dnsimple.DomainTransferRequest)}
  `{!json.Marshaler (option dnsimple.DomainRenewRequest)}
  (c : dnsimple.Client) (accountID domainName : string)
  (registration : option dnsimple.DomainRegisterRequest)
  (transfer : option dnsimple.DomainTransferRequest)
  (renewal : option dnsimple.DomainRenewRequest) :
  let check := decoder_of (dnsimple.DomainCheckResponse_ptr unmarshal_http_Response
                             (dnsimple.empty_response None)) in
  let domain type_name :=
    decoder_of (dnsimple.Domain_ptr unmarshal_http_Response Domain_zero unmarshal_Domain
                  type_name (dnsimple.empty_response None)) in
  (let out := dnsimple.CheckDomain unmarshal_http_Response Headers c accountID domainName in
   answered c "GET" check out /\ nil_with_error out) /\
  (let out := dnsimple.RegisterDomain unmarshal_http_Response Headers Domain_zero
                unmarshal_Domain c accountID domainName registration in
   answered c "POST" (domain "dnsimple.DomainRegistrationResponse") out /\
   nil_with_error out) /\
  (let out := dnsimple.TransferDomain unmarshal_http_Response Headers Domain_zero
                unmarshal_Domain c accountID domainName transfer in
   answered c "POST" (domain "dnsimple.DomainTransferResponse") out /\ nil_with_error out) /\
  (let out := @dnsimple.TransferDomainOut unmarshal_http_Response Headers Domain c accountID
                domainName in
   acknowledged c "POST" out /\ nil_with_error out) /\
  (let out := dnsimple.RenewDomain unmarshal_http_Response Headers Domain_zero
                unmarshal_Domain c accountID domainName renewal in
   answered c "POST" (domain "dnsimple.DomainRenewalResponse") out /\ nil_with_error out).
Proof.
  intros check domain. split; [|split; [|split; [|split]]].
  - unfold dnsimple.CheckDomain, dnsimple.get, dnsimple.DomainCheckResponse_ptr.
    cbv zeta. finish_pointer_tac. outcome.
  - unfold dnsimple.RegisterDomain, dnsimple.post, dnsimple.Domain_ptr.
    cbv zeta. finish_pointer_tac. outcome.
  - unfold dnsimple.TransferDomain, dnsimple.post, dnsimple.Domain_ptr.
    cbv zeta. finish_pointer_tac. outcome.
  - unfold dnsimple.TransferDomainOut, dnsimple.post.
    cbv zeta. finish_no_obj_tac Domain. outcome.
  - unfold dnsimple.RenewDomain, dnsimple.post, dnsimple.Domain_ptr.
    cbv zeta. finish_pointer_tac. outcome.
Qed.

(** X13: when the transport never answers with a response of the
    success range, [ListContacts] returns nil only for a path that the
    query options could not be added to; otherwise it returns, with the
    error, the untouched [ContactsResponse], which has no HTTP response,
    so that its rate-limit accessors panic.  [GetContact] returns nil
    with its error. *)
Theorem X13_ListContacts_on_failure `{!json.Marshaler dnsimple.Contact}
  (c : dnsimple.Client) (accountID : string)
  (contactID : Z) (options : option dnsimple.ListOptions) :
  refuses c ->
  let path := dnsimple.versioned (dnsimple.contactPath Sprint_other accountID None) in
  let listed :=
    dnsimple.ListContacts unmarshal_http_Response Headers Sprint_other c accountID options in
  (forall p e,
     dnsimple.addURLQueryOptions Sprint_other path (dnsimple.ListOptions_ptr options)
     = Ret (p, Some e) ->
     listed = Ret (None, Some (dnsimple.an_error e))) /\
  (forall p,
     dnsimple.addURLQueryOptions Sprint_other path (dnsimple.ListOptions_ptr options)
     = Ret (p, None) ->
     exists err,
       listed = Ret (Some (dnsimple.empty_response None), Some err) /\
       dnsimple.RateLimit (dnsimple.Embedded (@dnsimple.empty_response
                                               (option (list dnsimple.Contact)) None))
       = dnsimple.nil_dereference) /\
  (exists err,
     dnsimple.GetContact unmarshal_http_Response Headers Sprint_other c accountID contactID
     = (None, Some err)).
Proof.
  intros Href path listed. subst listed. split; [|split].
  - intros p e Hq. unfold dnsimple.ListContacts. fold path. rewrite Hq. reflexivity.
  - intros p Hq. unfold dnsimple.ListContacts. fold path. rewrite Hq. cbn [go_bind].
    unfold dnsimple.get.
    destruct (call_refused unmarshal_http_Response Headers c "GET" p (@None Empty_set)
                (dnsimple.ContactsResponse_ptr unmarshal_http_Response
                   (dnsimple.empty_response None)) Href) as (resp & err & ->).
    exists err. split; reflexivity.
  - unfold dnsimple.GetContact, dnsimple.get.
    match goal with |- context [dnsimple.call _ _ c "GET" ?p None ?obj] =>
      destruct (call_refused unmarshal_http_Response Headers c "GET" p (@None Empty_set) obj
                  Href) as (resp & err & ->)
    end.
    exists err. reflexivity.
Qed.

(** X14: for an account that is one segment of a path, what
    [ListContacts] of a client from [NewClient] returns depends on the
    transport through its answer to one request only: GET on
    [https://api.dnsimple.com/v2/ACCOUNT/contacts] without a body, with no
    query for nil options and with the query [page=2&per_page=50] for page
    2 of 50 entries. *)
Theorem X14_ListContacts_request `{!json.Marshaler dnsimple.Contact}
  (transport transport' : http.Outgoing -> http.Response + string)
  (credentials : dnsimple.Credentials) (accountID : string) :
  segment accountID = true ->
  let c := dnsimple.NewClient transport credentials in
  let c' := dnsimple.NewClient transport' credentials in
  let request query :=
    http.mkOutgoing
      (http.mkRequest "GET" (api_url ("/v2/" ++ accountID ++ "/contacts") query))
      (request_header Headers c) "" in
  let listed c options :=
    dnsimple.ListContacts unmarshal_http_Response Headers Sprint_other c accountID options in
  (transport (request "") = transport' (request "") -> listed c None = listed c' None) /\
  (transport (request "page=2&per_page=50") = transport' (request "page=2&per_page=50") ->
   listed c (Some (dnsimple.mkListOptions 2 50))
   = listed c' (Some (dnsimple.mkListOptions 2 50))).
Proof.
  intros Ha c c' request listed.
  destruct (versioned_rooted accountID "/contact" "s" Ha eq_refl eq_refl eq_refl)
    as [Hv Hplain]. cbv zeta in Hv, Hplain.
  change ("/" ++ accountID ++ "/contact" ++ "s") with ("/" ++ accountID ++ "/contacts") in *.
  assert (forall t query,
            lacks ["?"; "#"]%char query = true ->
            dnsimple.NewRequest Headers (dnsimple.NewClient t credentials) "GET"
              (dnsimple.versioned (dnsimple.contactPath Sprint_other accountID None)
               ++ (if String.eqb query "" then "" else "?" ++ query)) (@None Empty_set)
            = inl (request query)) as Hreq.
  { intros t query Hq. unfold dnsimple.NewRequest, http.NewRequest.
    cbn [dnsimple.BaseURL dnsimple.NewClient]. unfold dnsimple.contactPath.
    change (String.eqb "GET" "") with false. cbv iota.
    change (negb (http.validMethod "GET")) with false. cbv iota.
    rewrite (Parse_default_base _ query Hplain Hq).
    rewrite Hv. subst request. cbv beta.
    change ("/v2" ++ "/" ++ accountID ++ "/contacts") with ("/v2/" ++ accountID ++ "/contacts").
    reflexivity. }
  assert (forall options query,
            lacks ["?"; "#"]%char query = true ->
            dnsimple.addURLQueryOptions Sprint_other
              (dnsimple.versioned (dnsimple.contactPath Sprint_other accountID None))
              (dnsimple.ListOptions_ptr options)
            = Ret (dnsimple.versioned (dnsimple.contactPath Sprint_other accountID None)
                   ++ (if String.eqb query "" then "" else "?" ++ query), None) ->
            transport (request query) = transport' (request query) ->
            listed c options = listed c' options) as Hlist.
  { intros options query Hq Hadd Hsame. subst listed. cbv beta.
    unfold dnsimple.ListContacts. rewrite Hadd. cbn [go_bind].
    unfold dnsimple.get, dnsimple.call. subst c c'. rewrite !Hreq by exact Hq.
    unfold dnsimple.Client_Do. cbn [dnsimple.HttpClient dnsimple.NewClient].
    rewrite Hsame. reflexivity. }
  split.
  - apply (Hlist None ""); [reflexivity|].
    change (if String.eqb "" "" then "" else "?" ++ "") with "". rewrite str_app_nil_r.
    reflexivity.
  - apply (Hlist (Some (dnsimple.mkListOptions 2 50)) "page=2&per_page=50"); [reflexivity|].
    unfold dnsimple.contactPath in *. apply (encode_2_50 Sprint_other _ Hplain).
Qed.

End ServiceOutcomes.

(** The contact 7 of the account 1010, found. *)
Lemma X10_contacts_outcomes_witness :
  let c := example_client 200 (spec.dq "{'data':{'id':7,'email_address':'a@example.com'}}") in
  let found :=
    fst (dnsimple.GetContact example_unmarshal_http_Response example_Headers
           example_Sprint_other c "1010" 7) in
  (exists resp decoded,
     sent_with c "GET" resp /\
     found = Some (dnsimple.with_HttpResponse decoded (Some resp))) /\
  match found with
  | Some r =>
      match dnsimple.Data r with
      | Some d => Some (dnsimple.Contact_ID d, dnsimple.Contact_Email d)
      | None => None
      end
  | None => None
  end = Some (7, "a@example.com").
Proof.
  intros c found. split; [|vm_compute; reflexivity].
  destruct (proj1 (proj1 (proj2 (proj2
              (@X10_contacts_outcomes example_unmarshal_http_Response example_Headers
                 example_Sprint_other (example_Marshaler dnsimple.Contact) c "1010" 7
                 dnsimple.Contact_zero None)))) eq_refl)
    as (resp & decoded & Hsent & _ & Hout).
  exists resp, decoded. split; [exact Hsent|exact Hout].
Defined.

(** A record deleted: the answer 204 has no body. *)
Lemma X11_zone_records_outcomes_witness :
  let c := example_client 204 "" in
  exists resp,
    sent_with c "DELETE" resp /\
    fst (dnsimple.DeleteRecord example_unmarshal_http_Response example_Headers c "1010"
           "example.com" 5)
    = Some (dnsimple.with_HttpResponse (dnsimple.empty_response None) (Some resp)).
Proof.
  intros c.
  exact (proj1 (proj2 (proj2 (proj2 (proj2
           (@X11_zone_records_outcomes example_unmarshal_http_Response example_Headers
              (example_Marshaler dnsimple.ZoneRecord) c "1010" "example.com" 5
              dnsimple.ZoneRecord_zero))))) eq_refl).
Defined.

(** A domain that is available. *)
Lemma X12_registrar_outcomes_witness :
  let c :=
    example_client 200
      (spec.dq "{'data':{'domain':'example.com','available':true,'premium':false}}") in
  exists resp decoded,
    sent_with c "GET" resp /\
    decoder_of (dnsimple.DomainCheckResponse_ptr example_unmarshal_http_Response
                  (dnsimple.empty_response None)) (http.Body resp)
      (dnsimple.empty_response None) = (decoded, None) /\
    fst (dnsimple.CheckDomain example_unmarshal_http_Response example_Headers c "1010"
           "example.com")
    = Some (dnsimple.with_HttpResponse decoded (Some resp)).
Proof.
  intros c.
  exact (proj1 (proj1
           (@X12_registrar_outcomes example_unmarshal_http_Response example_Headers
              unit tt (fun _ d => (d, json.Fine))
              (example_Marshaler _) (example_Marshaler _) (example_Marshaler _)
              c "1010" "example.com" None None None)) eq_refl).
Defined.

(** A transport that answers 404 to everything. *)
Lemma X13_ListContacts_on_failure_witness :
  let c := example_client 404 (spec.dq "{'message':'not found'}") in
  (exists err,
     dnsimple.ListContacts example_unmarshal_http_Response example_Headers
       example_Sprint_other c "1010" None
     = Ret (Some (dnsimple.empty_response None), Some err)) /\
  (exists err,
     dnsimple.GetContact example_unmarshal_http_Response example_Headers
       example_Sprint_other c "1010" 7
     = (None, Some err)).
Proof.
  intros c.
  destruct (@X13_ListContacts_on_failure example_unmarshal_http_Response example_Headers
              example_Sprint_other (example_Marshaler dnsimple.Contact) c "1010" 7 None
              ltac:(intros req; cbn; lia)) as (_ & Hlist & Hget).
  split; [|exact Hget].
  destruct (Hlist _ eq_refl) as (err & Herr & _). exists err. exact Herr.
Defined.

(** Two transports that differ on everything but GET. *)
Lemma X14_ListContacts_request_witness :
  let transport := example_transport 200 (spec.dq "{'data':[]}") in
  let transport' req :=
    if String.eqb (http.Method (http.Line req)) "GET" then transport req
    else inr "connection refused" in
  let listed t :=
    dnsimple.ListContacts example_unmarshal_http_Response example_Headers
      example_Sprint_other
      (dnsimple.NewClient t (dnsimple.NewOauthTokenCredentials "token")) "1010"
      (Some (dnsimple.mkListOptions 2 50)) in
  listed transport = listed transport'.
Proof.
  intros transport transport' listed.
  apply (proj2 (@X14_ListContacts_request example_unmarshal_http_Response example_Headers
                  example_Sprint_other (example_Marshaler dnsimple.Contact)
                  transport transport' (dnsimple.NewOauthTokenCredentials "token") "1010"
                  eq_refl)).
  reflexivity.
Defined.
